(** * askbot.deployment: the installer of askbot/deployment/__init__.py

    A shallow embedding of [AskbotSetup] (option resolution in [__call__] and
    [collect_missing_options], and the file deployment of [deploy_askbot])
    together with the properties of its conflict policy.

    Python code runs here in a state-and-exception monad [M]: the state holds
    the filesystem, the standard output, the operator's pending answers on
    standard input and the random source; a raised exception keeps the state
    reached so far, as files already written stay on disk. *)

From Stdlib Require Import ZArith Ascii String List.
From stdpp Require Import base option list strings gmap fin_maps.

Local Open Scope string_scope.
Local Open Scope Z_scope.

(** ** Strings and paths, as [str] and [os.path] (posix) treat them *)

Definition sep : ascii := "/"%char.

(** The double quote character, for the messages that contain one. *)
Definition dquote : string := String "034"%char EmptyString.

(** [s.startswith(p)] *)
Fixpoint startswith (s p : string) : bool :=
  match p, s with
  | EmptyString, _ => true
  | String _ _, EmptyString => false
  | String a p', String b s' => if decide (a = b) then startswith s' p' else false
  end.

(** [s.endswith(suf)]: [suf] is [s] or a suffix of the tail of [s]. *)
Fixpoint endswith (s suf : string) : bool :=
  if decide (s = suf) then true
  else match s with
       | EmptyString => false
       | String _ s' => endswith s' suf
       end.

(** The text after the last separator of [s], when [s] has a separator. *)
Fixpoint after_last_sep (s : string) : option string :=
  match s with
  | EmptyString => None
  | String c s' =>
      match after_last_sep s' with
      | Some t => Some t
      | None => if decide (c = sep) then Some s' else None
      end
  end.

(** [s.split(os.path.sep)[-1]], which is also [os.path.basename(s)]. *)
Definition last_component (s : string) : string :=
  default s (after_last_sep s).

(** [s] contains no separator. *)
Definition sep_free (s : string) : Prop := after_last_sep s = None.

(** [os.path.join(a, b)] of posixpath. *)
Definition join (a b : string) : string :=
  if startswith b (String sep EmptyString) then b
  else if decide (a = EmptyString) then a +:+ b
  else if endswith a (String sep EmptyString) then a +:+ b
  else a +:+ String sep EmptyString +:+ b.

(** [str.lower] on the ASCII letters. The strings it is compared with below
    are ASCII, and no other character lowers to an ASCII letter they hold. *)
Definition lower_ascii (c : ascii) : ascii :=
  let n := nat_of_ascii c in
  if (65 <=? n)%nat && (n <=? 90)%nat then ascii_of_nat (n + 32) else c.

Fixpoint str_lower (s : string) : string :=
  match s with
  | EmptyString => EmptyString
  | String c s' => String (lower_ascii c) (str_lower s')
  end.

(** [s.replace(a, b)] for single characters [a] and [b]. *)
Fixpoint str_replace (a b : ascii) (s : string) : string :=
  match s with
  | EmptyString => EmptyString
  | String c s' => String (if decide (c = a) then b else c) (str_replace a b s')
  end.

(** [x in l] for a list or tuple of strings. *)
Definition str_in (x : string) (l : list string) : bool := bool_decide (x ∈ l).

(** ** Python values held by the options mapping *)

Inductive pyval :=
| PNone
| PBool (b : bool)
| PInt (z : Z)
| PStr (s : string).

#[global] Instance pyval_eq_dec : EqDecision pyval.
Proof. solve_decision. Defined.

(** Truth value of a Python object in a condition. *)
Definition py_truthy (v : pyval) : bool :=
  match v with
  | PNone => false
  | PBool b => b
  | PInt z => negb (z =? 0)
  | PStr s => negb (bool_decide (s = EmptyString))
  end.

(** [v == w]: a [bool] equals the [int] of the same value; a [str] equals
    only a [str]. *)
Definition py_eq (v w : pyval) : bool :=
  match v, w with
  | PNone, PNone => true
  | PBool a, PBool b => bool_decide (a = b)
  | PInt a, PInt b => a =? b
  | PBool a, PInt b | PInt b, PBool a => (if a then 1 else 0) =? b
  | PStr a, PStr b => bool_decide (a = b)
  | _, _ => false
  end.

(** [v in choices] for a tuple of objects. *)
Definition py_in (v : pyval) (choices : list pyval) : bool :=
  existsb (py_eq v) choices.

(** The options mapping: [vars(options)], a [dict] keyed by option name. The
    argparse namespace and this dict are one object; both are this value. *)
Abbreviation Options := (gmap string pyval).

(** ** Filesystem, exceptions and the monad *)

Inductive node :=
| File (content : string)
| Dir.

#[global] Instance node_eq_dec : EqDecision node.
Proof. solve_decision. Defined.

(** The filesystem maps a path, the string the code built, to what is there.
    Paths are told apart as strings; links and the nesting of directories
    are not tracked. *)
Abbreviation FS := (gmap string node).

Inductive exn :=
| KeyError (key : string)
| AttributeError (name : string)
| TypeError
| EOFError
| FileNotFoundError (path : string)
| IsADirectoryError (path : string)
| SameFileError (path : string)
| KeyboardInterrupt
| SystemExit (code : Z).

#[global] Instance exn_eq_dec : EqDecision exn.
Proof. solve_decision. Defined.

Inductive outcome (A : Type) :=
| Ok (a : A)
| Raised (e : exn).
Arguments Ok {A} a.
Arguments Raised {A} e.

Record State := mkState {
  fs : gmap string node;
  stdout : list string;
  stdin : list string;
  rng : N
}.

Definition set_fs (f : FS) (s : State) : State :=
  mkState f (stdout s) (stdin s) (rng s).

Definition M (A : Type) : Type := State -> State * outcome A.

Definition ret {A} (a : A) : M A := fun s => (s, Ok a).

Definition raise {A} (e : exn) : M A := fun s => (s, Raised e).

Definition bind {A B} (c : M A) (k : A -> M B) : M B :=
  fun s =>
    match c s with
    | (s1, Ok a) => k a s1
    | (s1, Raised e) => (s1, Raised e)
    end.

Notation "x <- c ;; k" := (bind c (fun x => k))
  (at level 100, c at next level, right associativity).
Notation "c ;;; k" := (bind c (fun _ => k))
  (at level 100, right associativity).

(** The state a computation ends in, and what it returns or raises. *)
Definition exec {A} (c : M A) (s : State) : State := fst (c s).
Definition result {A} (c : M A) (s : State) : outcome A := snd (c s).

(** Whether a run returned rather than raised. *)
Definition is_ok {A} (o : outcome A) : bool :=
  match o with
  | Ok _ => true
  | Raised _ => false
  end.

(** [for x in l: body(x)]; a [continue] ends [body] early. *)
Fixpoint for_each {A} (l : list A) (body : A -> M unit) : M unit :=
  match l with
  | [] => ret tt
  | x :: l' => body x ;;; for_each l' body
  end.

(** [try: c  except KeyboardInterrupt: handler] *)
Definition except_KeyboardInterrupt {A} (c : M A) (handler : M A) : M A :=
  fun s =>
    match c s with
    | (s1, Raised KeyboardInterrupt) => handler s1
    | r => r
    end.

(** [print(msg)] *)
Definition print (msg : string) : M unit :=
  fun s => (mkState (fs s) (stdout s ++ [msg]) (stdin s) (rng s), Ok tt).

(** ** [dict] and namespace access *)

(** [d[key]] *)
Definition getitem (d : Options) (key : string) : M pyval :=
  match d !! key with
  | Some v => ret v
  | None => raise (KeyError key)
  end.

(** [d[key]] where the code goes on to use the value as a [str] (a path, or
    the argument of [len] or [str.lower]); another type raises there. *)
Definition getitem_str (d : Options) (key : string) : M string :=
  v <- getitem d key ;;
  match v with
  | PStr s => ret s
  | _ => raise TypeError
  end.

(** [options.name] on the argparse namespace whose [vars] is [d]. *)
Definition namespace_getattr (d : Options) (name : string) : M pyval :=
  match d !! name with
  | Some v => ret v
  | None => raise (AttributeError name)
  end.

(** [d.name] on a plain [dict]: a dict has no attribute of an option's
    name, whatever its keys are. *)
Definition dict_getattr (d : Options) (name : string) : M pyval :=
  raise (AttributeError name).

(** ** [os.path], [open] and [shutil] on the modelled filesystem *)

Definition path_exists (f : FS) (p : string) : bool :=
  match f !! p with Some _ => true | None => false end.

Definition path_isfile (f : FS) (p : string) : bool :=
  match f !! p with Some (File _) => true | _ => false end.

Definition path_isdir (f : FS) (p : string) : bool :=
  match f !! p with Some Dir => true | _ => false end.

Definition os_path_exists (p : string) : M bool :=
  fun s => (s, Ok (path_exists (fs s) p)).

Definition os_path_isfile (p : string) : M bool :=
  fun s => (s, Ok (path_isfile (fs s) p)).

Definition os_path_isdir (p : string) : M bool :=
  fun s => (s, Ok (path_isdir (fs s) p)).

(** [open(p, 'r').read()] *)
Definition read_file (p : string) : M string :=
  fun s =>
    match fs s !! p with
    | Some (File c) => (s, Ok c)
    | Some Dir => (s, Raised (IsADirectoryError p))
    | None => (s, Raised (FileNotFoundError p))
    end.

(** [open(p, 'w+')] followed by one [write(text)]: the file is created or
    truncated, then holds [text]. *)
Definition write_file (p text : string) : M unit :=
  fun s =>
    match fs s !! p with
    | Some Dir => (s, Raised (IsADirectoryError p))
    | _ => (set_fs (<[p := File text]> (fs s)) s, Ok tt)
    end.

(** [open(p, 'a')]: the file is created empty when it is not there. *)
Definition open_append (p : string) : M unit :=
  fun s =>
    match fs s !! p with
    | Some Dir => (s, Raised (IsADirectoryError p))
    | Some (File _) => (s, Ok tt)
    | None => (set_fs (<[p := File EmptyString]> (fs s)) s, Ok tt)
    end.

(** The writes to a file opened with ['a'], flushed when it is closed: [text]
    goes after what the file holds. *)
Definition append_text (p text : string) : M unit :=
  fun s =>
    match fs s !! p with
    | Some (File c) => (set_fs (<[p := File (c +:+ text)]> (fs s)) s, Ok tt)
    | Some Dir => (s, Raised (IsADirectoryError p))
    | None => (set_fs (<[p := File text]> (fs s)) s, Ok tt)
    end.

(** Where [shutil.copy(src, dst)] writes: into [dst] when it is a directory. *)
Definition copy_target (f : FS) (src dst : string) : string :=
  if path_isdir f dst then join dst (last_component src) else dst.

(** [shutil.copy(src, dst)]: [copyfile] refuses to copy a file onto itself,
    reads [src], then creates or truncates the target. *)
Definition shutil_copy (src dst : string) : M unit :=
  fun s =>
    let target := copy_target (fs s) src dst in
    if bool_decide (src = target) && path_exists (fs s) src
    then (s, Raised (SameFileError src))
    else bind (read_file src) (fun c => write_file target c) s.

(** ** What the module imports from the rest of the package *)

(** The constants and collaborators [askbot/deployment/__init__.py] imports:
    their code is in other modules, so the installer is embedded over any
    value of them. *)
Record Env := mkEnv {
  (** [AskbotSetup.SOURCE_DIR], the package directory *)
  SOURCE_DIR : string;
  (** [path_utils.FILES_TO_CREATE], [path_utils.BLANK_FILES] and
      [path_utils.LOG_DIR_NAME] *)
  FILES_TO_CREATE : list string;
  BLANK_FILES : list string;
  LOG_DIR_NAME : string;
  (** [path_utils.has_existing_django_project(directory)], which reads the
      filesystem only *)
  has_existing_django_project : gmap string node -> string -> bool;
  (** [DeploymentTemplate.render(context)] with [tmpl_path] set to the
      template: a pure function of the template and the context *)
  template_render : string -> gmap string pyval -> string;
  (** [generate_random_key()], by the draw of the random source it uses *)
  generate_random_key : N -> string;
  (** [messages.DEPLOY_PREAMBLE] and the two closing messages, given the
      help file of [path_utils.get_path_to_help_file()] *)
  DEPLOY_PREAMBLE : string;
  HOW_TO_DEPLOY_NEW : string -> string;
  HOW_TO_ADD_ASKBOT_TO_DJANGO : string -> string;
  path_to_help_file : string;
  (** [ConfigManagerCollection.complete(options)] of the dry run, and the
      text [pprint] gives for a mapping and for the installer object *)
  configManagers_complete : gmap string pyval -> M unit;
  pformat : gmap string pyval -> string;
  pformat_self : string;
  (** whether [import psycopg2] and [import _mysql] succeed *)
  psycopg2_installed : bool;
  mysql_installed : bool
}.

(** The two attributes of an [AskbotSetup] object the methods below use. *)
Record AskbotSetup := mkSetup {
  verbosity : Z;
  _todo : gmap string (list string)
}.

(** [DATABASE_ENGINE_CHOICES] *)
Definition DATABASE_ENGINE_CHOICES : list string := ["1"; "2"; "3"; "4"].

(** [AskbotSetup.PROJECT_FILES_TO_CREATE] *)
Definition PROJECT_FILES_TO_CREATE : list string := ["manage.py"].

(** [AskbotSetup.APP_FILES_TO_CREATE]: the set of [FILES_TO_CREATE] without
    [manage.py]. A Python set has no order of its own; the loops below visit
    it in the order of the tuple it was made from. *)
Definition APP_FILES_TO_CREATE (E : Env) : list string :=
  list_difference (remove_dups (FILES_TO_CREATE E)) ["manage.py"].

(** Modelled from the spec: [messages.print_message(message, verbosity)] is
    not in this module. The messages handed to it are what the installer
    emits; they are recorded on the standard output at every verbosity. *)
Definition print_message (message : string) (verbosity : Z) : M unit :=
  print message.

(** Modelled from the spec: [path_utils.create_path(directory)] is not in
    this module. CreateDir creates the directory if absent and is no error
    if the path already exists. *)
Definition create_path (directory : string) : M unit :=
  fun s =>
    match fs s !! directory with
    | Some _ => (s, Ok tt)
    | None => (set_fs (<[directory := Dir]> (fs s)) s, Ok tt)
    end.

(** Modelled from the spec: [path_utils.touch(file_name)] is not in this
    module. The log file is an empty file when the installer makes it; one
    that is already there is kept. *)
Definition touch (file_name : string) : M unit :=
  fun s =>
    match fs s !! file_name with
    | Some _ => (s, Ok tt)
    | None => (set_fs (<[file_name := File EmptyString]> (fs s)) s, Ok tt)
    end.

Definition newline : string := String "010"%char EmptyString.

(** ** The installer: [AskbotSetup._install_copy] and what follows it *)

Section Installer.
Context (E : Env).

(** [self._todo.get('create_project', [])] *)
Definition todo_create_project (self : AskbotSetup) : list string :=
  default [] (_todo self !! "create_project").

(** [matches] of [_install_copy]: one [dst] for each name [c] of
    [forced_overwrite] with [dst.endswith(sep + c)]. *)
Definition forced_matches (forced_overwrite : list string) (dst : string) : list string :=
  map (fun _ => dst)
      (List.filter (fun c => endswith dst (String sep c)) forced_overwrite).

(** [len(matches) > 0] *)
Definition forced_dst (forced_overwrite : list string) (dst : string) : bool :=
  (0 <? length (forced_matches forced_overwrite dst))%nat.

(** The body of the loop of [_install_copy] for one pair of [copy_list]. *)
Definition _install_copy_body (self : AskbotSetup)
    (forced_overwrite skip_silently : list string) (item : string * string) : M unit :=
  let '(src, dst) := item in
  print_message ("* to " +:+ dst +:+ " from " +:+ src) (verbosity self) ;;;
  present <- os_path_exists dst ;;
  if negb present then shutil_copy src dst
  else if forced_dst forced_overwrite dst then
    print_message "  ^^^ forced overwrite!" (verbosity self) ;;;
    shutil_copy src dst
  else if negb (str_in (last_component dst) skip_silently) then
    print_message ("  ^^^ you already have one, please add contents of " +:+ src)
                  (verbosity self)
  else ret tt.

Definition _install_copy (self : AskbotSetup) (copy_list : list (string * string))
    (forced_overwrite skip_silently : list string) : M unit :=
  print_message "Copying files:" (verbosity self) ;;;
  for_each copy_list (_install_copy_body self forced_overwrite skip_silently) ;;;
  print_message "Done." (verbosity self).

(** The body of the loop of [_install_render_with_jinja2]. *)
Definition _install_render_body (self : AskbotSetup) (context : Options)
    (item : string * string) : M unit :=
  let '(src, dst) := item in
  present <- os_path_exists dst ;;
  if present then
    print_message ("* you already have a file " +:+ dquote +:+ dst +:+ dquote
                   +:+ " please merge the contents") (verbosity self)
  else
    print_message ("*    " +:+ dst +:+ " from " +:+ src) (verbosity self) ;;;
    write_file dst (template_render E src context).

Definition _install_render_with_jinja2 (self : AskbotSetup)
    (render_list : list (string * string)) (context : Options) : M unit :=
  print_message "Rendering files:" (verbosity self) ;;;
  for_each render_list (_install_render_body self context) ;;;
  print_message "Done." (verbosity self).

(** [os.path.join(self.SOURCE_DIR, sub, x)] *)
Definition source_file (sub x : string) : string :=
  join (join (SOURCE_DIR E) sub) x.

Definition _create_new_django_project (self : AskbotSetup) (install_dir : string)
    (options : Options) : M unit :=
  let log_dir := join install_dir (LOG_DIR_NAME E) in
  logfile_name <- getitem_str options "logfile_name" ;;
  let log_file := join log_dir logfile_name in
  let create_me := [install_dir; log_dir] in
  let copy_me :=
    if str_in "django" (todo_create_project self)
    then map (fun file_name => (source_file "setup_templates" file_name,
                                join install_dir file_name))
             PROJECT_FILES_TO_CREATE
    else [] in
  for_each create_me create_path ;;;
  touch log_file ;;;
  _install_copy self copy_me [] (BLANK_FILES E).

(** Lines 413 to 421 of [_create_new_django_app]: the local settings are
    appended to [settings.py] of the app. *)
Definition append_local_settings (self : AskbotSetup) (app_dir : string)
    (options : Options) : M unit :=
  local_settings <- getitem_str options "local_settings" ;;
  wanted <- (if (0 <? String.length local_settings)%nat
             then os_path_exists local_settings else ret false) ;;
  if wanted then
    let dst := join app_dir "settings.py" in
    print_message ("Appending " +:+ local_settings +:+ " to " +:+ dst) (verbosity self) ;;;
    open_append dst ;;;
    content <- read_file local_settings ;;
    append_text dst (newline +:+ content) ;;;
    print_message "Done." (verbosity self)
  else ret tt.

(** [_create_new_django_app]; the mapping it returns is [options] as the
    method leaves it. *)
Definition _create_new_django_app (self : AskbotSetup) (app_name : string)
    (options : Options) : M Options :=
  site <- getitem options "dir_name" ;;
  let options := <["askbot_site" := site]> options in
  let options := <["askbot_app" := PStr app_name]> options in
  dir_name <- getitem_str options "dir_name" ;;
  let app_dir := join dir_name app_name in
  let create_me := [app_dir] in
  let dst := fun x => join app_dir x in
  let django := str_in "django" (todo_create_project self) in
  let uwsgi := str_in "container-uwsgi" (todo_create_project self) in
  let copy_me :=
    ((if django
     then map (fun file_name => (source_file "setup_templates" file_name, dst file_name))
              (APP_FILES_TO_CREATE E)
     else [])
    ++ (if uwsgi
        then map (fun file_name => (source_file "container" file_name, dst file_name))
                 ["cron-askbot.sh"; "prestart.sh"; "prestart.py"]
        else []))%list in
  let render_me :=
    ((if django
     then [(source_file "setup_templates" "settings.py.jinja2", dst "settings.py")]
     else [])
    ++ (if uwsgi
        then map (fun file_name => (source_file "container" file_name, dst file_name))
                 ["crontab"; "uwsgi.ini"]
        else []))%list in
  for_each create_me create_path ;;;
  _install_copy self copy_me ["urls.py"] (BLANK_FILES E) ;;;
  _install_render_with_jinja2 self render_me options ;;;
  append_local_settings self app_dir options ;;;
  ret options.

(** [options.force is False] *)
Definition is_False (v : pyval) : bool := bool_decide (v = PBool false).

(** Lines 435 to 454 of [deploy_askbot], once [create_new_project] is
    known: the files are made and the closing message is printed. *)
Definition deploy_files (self : AskbotSetup) (create_new_project : bool)
    (options : Options) : M Options :=
  let options := <["staticfiles_app" := PStr "'django.contrib.staticfiles',"]> options in
  let options :=
    <["auth_context_processor" := PStr "django.contrib.auth.context_processors.auth"]>
      options in
  (if create_new_project
   then dir_name <- getitem_str options "dir_name" ;;
        _create_new_django_project self dir_name options
   else ret tt) ;;;
  options <- _create_new_django_app self "askbot_app" options ;;
  let help_file := path_to_help_file E in
  (if create_new_project
   then print_message (HOW_TO_DEPLOY_NEW E help_file) (verbosity self)
   else print_message (HOW_TO_ADD_ASKBOT_TO_DJANGO E help_file) (verbosity self)) ;;;
  ret options.

(** [AskbotSetup.deploy_askbot(options)], called with the dict
    [vars(options)]: [options.force] is an attribute access on that dict. *)
Definition deploy_askbot (self : AskbotSetup) (options : Options) : M Options :=
  dir_name <- getitem_str options "dir_name" ;;
  there <- os_path_exists dir_name ;;
  prior <- (if there
            then fun s => (s, Ok (has_existing_django_project E (fs s) dir_name))
            else ret false) ;;
  create_new_project <-
    (if prior
     then force <- dict_getattr options "force" ;;
          ret (negb (is_False force))
     else ret true) ;;
  deploy_files self create_new_project options.

End Installer.

(** ** The console: [askbot.utils.console] *)

(** Modelled from the spec: [askbot.utils.console] is not in this module.
    A prompt shows its message and takes the operator's next answer, trimmed
    (the lines of [stdin] are the trimmed answers); an answer that is not
    valid repeats the prompt; the end of the input raises [EOFError]. *)
Fixpoint ask_until (prompt : string) (valid : string -> bool)
    (answers : list string) (out : list string)
  : list string * list string * outcome string :=
  match answers with
  | [] => ((out ++ [prompt])%list, [], Raised EOFError)
  | r :: rest =>
      if valid r then ((out ++ [prompt])%list, rest, Ok r)
      else ask_until prompt valid rest (out ++ [prompt])%list
  end.

Definition ask (prompt : string) (valid : string -> bool) : M string :=
  fun s =>
    let '(out, rest, r) := ask_until prompt valid (stdin s) (stdout s) in
    (mkState (fs s) out rest (rng s), r).

(** Modelled from the spec: [console.simple_dialog(prompt, required=False)]
    returns the trimmed text; a required answer is asked for until it is not
    empty. *)
Definition simple_dialog (prompt_phrase : string) (required : bool) : M string :=
  ask prompt_phrase
      (fun r => negb required || negb (bool_decide (r = EmptyString))).

(** Modelled from the spec: [console.choice_dialog(prompt, choices)] accepts
    an answer of the caller's [choices] only. *)
Definition choice_dialog (prompt_phrase : string) (choices : list string) : M string :=
  ask prompt_phrase (fun r => str_in r choices).

(** Modelled from the spec: [console.get_yes_or_no(prompt)] is the
    confirmation dialog; its answer is ['yes'] or ['no']. *)
Definition get_yes_or_no (prompt_phrase : string) : M string :=
  choice_dialog prompt_phrase ["yes"; "no"].

(** ** Resolution of the options: [collect_missing_options], [__call__] *)

Section Resolution.
Context (E : Env).

(** One call of [generate_random_key()]: a fresh draw of the random source. *)
Definition random_key : M string :=
  fun s => (mkState (fs s) (stdout s) (stdin s) (N.succ (rng s)),
            Ok (generate_random_key E (rng s))).

(** One turn of the [while True] loop of the sqlite branch of
    [collect_missing_options], lines 655 to 670: the operator's candidate is
    examined and [database_file_name] is what the turn leaves. *)
Definition sqlite_name_turn : M (option string) :=
  value <- simple_dialog "Please enter database file name" false ;;
  is_file <- os_path_isfile value ;;
  if is_file then
    answer <- get_yes_or_no ("file " +:+ value +:+ " exists, use it anyway?") ;;
    if bool_decide (answer = "yes") then ret (Some value) else ret None
  else
    is_dir <- os_path_isdir value ;;
    if is_dir then
      print (value +:+ " is a directory, choose another name") ;;; ret None
    else if str_in value (FILES_TO_CREATE E) then
      print ("name " +:+ value +:+ " cannot be used for the database name") ;;;
      ret None
    else if bool_decide (value = LOG_DIR_NAME E) then
      print ("name " +:+ value +:+ " cannot be used for the database name") ;;;
      ret None
    else ret (Some value).

(** The [while True] loop itself. Every turn takes at least one answer from
    the operator or ends at the end of the input, so [fuel] above the number
    of pending answers is never used up. *)
Fixpoint sqlite_name_loop (fuel : nat) (options_dict : Options) : M Options :=
  match fuel with
  | O => raise EOFError
  | S fuel' =>
      database_file_name <- sqlite_name_turn ;;
      match database_file_name with
      | Some name =>
          if negb (bool_decide (name = EmptyString))
          then ret (<["database_name" := PStr name]> options_dict)
          else sqlite_name_loop fuel' options_dict
      | None => sqlite_name_loop fuel' options_dict
      end
  end.

Definition sqlite_database_name (options_dict : Options) : M Options :=
  fun s => sqlite_name_loop (S (length (stdin s))) options_dict s.

(** What a turn of the loop does with a candidate name. *)
Inductive verdict :=
| Rejected
| NeedsConfirmation
| Accepted.

Definition reserved_name (value : string) : bool :=
  str_in value (FILES_TO_CREATE E) || bool_decide (value = LOG_DIR_NAME E).

(** The rules of the name dialog in the order of the [if]/[elif] chain of
    lines 659 to 670; an empty name is not accepted by line 672. *)
Definition sqlite_name_verdict (f : FS) (value : string) : verdict :=
  if path_isfile f value then NeedsConfirmation
  else if path_isdir f value then Rejected
  else if reserved_name value then Rejected
  else if bool_decide (value = EmptyString) then Rejected
  else Accepted.

(** The rules in the order the specification lists them: (a) an existing
    directory is rejected, (b) a reserved name is rejected, (c) an existing
    regular file needs a confirmation, any other name is accepted. *)
Definition listed_verdict (f : FS) (value : string) : verdict :=
  if path_isdir f value then Rejected
  else if reserved_name value then Rejected
  else if path_isfile f value then NeedsConfirmation
  else Accepted.

(** [db_keys] of the other branch, in the order of the [OrderedDict]. *)
Definition db_keys : list (string * bool) :=
  [("database_name", true); ("database_user", true); ("database_password", true);
   ("database_host", false); ("database_port", false)].

(** The [for key, required in list(db_keys.items())] loop. *)
Fixpoint ask_db_keys (keys : list (string * bool)) (options_dict : Options) : M Options :=
  match keys with
  | [] => ret options_dict
  | (key, required) :: rest =>
      current <- getitem options_dict key ;;
      if bool_decide (current = PNone) then
        let key_name := str_replace "_"%char " "%char key in
        let fmt_string :=
          (newline +:+ "Please enter ") +:+ key_name +:+
          (if negb required
           then " (press " +:+ dquote +:+ "Enter" +:+ dquote +:+ " to use the default value)"
           else EmptyString) in
        value <- simple_dialog fmt_string required ;;
        ask_db_keys rest (<[key := PStr value]> options_dict)
      else ask_db_keys rest options_dict
  end.

Definition collect_missing_options (options_dict : Options) : M Options :=
  no_secret_key <- getitem options_dict "no_secret_key" ;;
  secret_key <- (if py_truthy no_secret_key then ret EmptyString else random_key) ;;
  let options_dict := <["secret_key" := PStr secret_key]> options_dict in
  database_engine <- getitem options_dict "database_engine" ;;
  if py_eq database_engine (PStr "2") then
    database_name <- getitem options_dict "database_name" ;;
    if py_truthy database_name then ret options_dict
    else sqlite_database_name options_dict
  else ask_db_keys db_keys options_dict.

(** [AskbotSetup._set_verbosity] *)
Definition _set_verbosity (self : AskbotSetup) (options : Options) : M AskbotSetup :=
  v <- namespace_getattr options "verbosity" ;;
  match v with
  | PInt z => ret (mkSetup z (_todo self))
  | _ => raise TypeError
  end.

(** [AskbotSetup._set_create_project] *)
Definition _set_create_project (self : AskbotSetup) (options : Options) : M AskbotSetup :=
  create_project <- namespace_getattr options "create_project" ;;
  match create_project with
  | PStr text =>
      let wish := str_lower text in
      let todo :=
        if str_in wish ["no"; "none"; "false"; "0"] then ["nothing"]
        else if bool_decide (wish = "container-uwsgi") then ["django"; wish]
        else ["django"] in
      ret (mkSetup (verbosity self) (<["create_project" := todo]> (_todo self)))
  | _ => raise TypeError
  end.

(** [database_engine_codes] of [__call__] *)
Definition database_engine_codes : list (string * string) :=
  [("1", "postgresql_psycopg2"); ("2", "sqlite3"); ("3", "mysql"); ("4", "oracle")].

(** [database_engine_codes[key]] *)
Definition engine_of_code (key : pyval) : M string :=
  match key with
  | PStr code =>
      match list_to_map (M := gmap string string) database_engine_codes !! code with
      | Some name => ret name
      | None => raise (KeyError code)
      end
  | _ => raise (KeyError EmptyString)
  end.

(** What [parse_args()] stores for [--db-engine], declared in [_add_db_args]
    with [type=int] and [default=None]: [None] when the flag is absent, else
    the [int] argparse converted the argument to. *)
Definition db_engine_option (parsed : option Z) : pyval :=
  match parsed with
  | None => PNone
  | Some z => PInt z
  end.

Definition engine_prompt : string :=
  "Please select database engine:" +:+ newline +:+
  "1 - for postgresql, 2 - for sqlite, 3 - for mysql, 4 - oracle".

(** Lines 269 to 274 of [__call__]: the engine code of the command line is
    kept when it is one of [DATABASE_ENGINE_CHOICES], else the operator is
    asked to choose. *)
Definition select_database_engine (options : Options) : M Options :=
  database_engine <- namespace_getattr options "database_engine" ;;
  if negb (py_in database_engine (map PStr DATABASE_ENGINE_CHOICES)) then
    choice <- choice_dialog engine_prompt DATABASE_ENGINE_CHOICES ;;
    ret (<["database_engine" := PStr choice]> options)
  else ret options.

(** Lines 264 to 291 of [__call__], from the parsed options to the options
    handed to the deployment. [directory] is the install directory lines 264
    to 266 settle on ([path_utils.clean_directory] and the dialog of
    [path_utils.get_install_directory] are in another module). The result
    is [options_dict], the deep copy [options_dict_2] made on line 279 and the
    local [database_engine]. *)
Definition resolve_options (options : Options) (directory : string)
  : M (Options * Options * string) :=
  let options := <["dir_name" := PStr directory]> options in
  options <- select_database_engine options ;;
  let options_dict := options in
  let options_dict_2 := options_dict in
  force <- namespace_getattr options "force" ;;
  options_dict <- (if is_False force
                   then collect_missing_options options_dict
                   else ret options_dict) ;;
  code <- namespace_getattr options_dict "database_engine" ;;
  database_engine <- engine_of_code code ;;
  ret (<["database_engine" := PStr database_engine]> options_dict, options_dict_2,
       database_engine).

(** [AskbotSetup.__call__], given the options [parse_args()] returned. *)
Definition __call__ (self : AskbotSetup) (options : Options) (directory : string)
  : M unit :=
  except_KeyboardInterrupt
    (self <- _set_verbosity self options ;;
     self <- _set_create_project self options ;;
     print_message (DEPLOY_PREAMBLE E) (verbosity self) ;;;
     resolved <- resolve_options options directory ;;
     let '(options_dict, options_dict_2, database_engine) := resolved in
     dry_run <- getitem options_dict "dry_run" ;;
     (if py_truthy dry_run then
        configManagers_complete E options_dict_2 ;;;
        print (pformat E options_dict) ;;;
        print (pformat E options_dict_2) ;;;
        print (pformat_self E) ;;;
        raise KeyboardInterrupt
      else ret tt) ;;;
     deploy_askbot E self options_dict ;;;
     if bool_decide (database_engine = "postgresql_psycopg2") then
       if psycopg2_installed E then ret tt
       else print (newline +:+ "NEXT STEPS: install python binding for postgresql") ;;;
            print ("pip install psycopg2" +:+ newline)
     else if bool_decide (database_engine = "mysql") then
       if mysql_installed E then ret tt
       else print (newline +:+ "NEXT STEP: install python binding for mysql") ;;;
            print ("pip install mysql-python" +:+ newline)
     else ret tt)
    (print (newline +:+ newline +:+ "Aborted.") ;;;
     raise (SystemExit 1)).

End Resolution.

(** ** Relations between filesystem states, for the properties *)

Definition same_kind (n n' : node) : bool :=
  match n, n' with
  | File _, File _ => true
  | Dir, Dir => true
  | _, _ => false
  end.

(** What is there stays there, a file as a file and a directory as a
    directory. *)
Definition grows (f f' : FS) : Prop :=
  forall p n, f !! p = Some n ->
    exists n', f' !! p = Some n' /\ same_kind n n' = true.



(** No local settings file of the options is in [f]: [local] is
    [options.get('local_settings')]. *)
Definition no_local (local : option pyval) (f : FS) : Prop :=
  forall l, local = Some (PStr l) -> l <> EmptyString -> f !! l = None.




(** The kinds of the nodes of a filesystem, without the contents. *)
Definition shape (f : FS) : gmap string bool :=
  (fun n => match n with File _ => true | Dir => false end) <$> f.

(** Two states that differ at most in the contents of their files. *)
Definition sim (s s' : State) : Prop :=
  shape (fs s) = shape (fs s') /\ stdout s = stdout s'.

(** The relation that holds of any two values. *)
Definition any {A} : A -> A -> Prop := fun _ _ => True.

(** [c] and [c'] run alike from such states: they end in such states, both
    return, with values related by [R], or both raise the same exception. *)
Definition respects {A} (R : A -> A -> Prop) (c c' : M A) : Prop :=
  forall s s', sim s s' ->
    sim (fst (c s)) (fst (c' s'))
    /\ match snd (c s), snd (c' s') with
       | Ok a, Ok a' => R a a'
       | Raised e, Raised e' => e = e'
       | _, _ => False
       end.

(** [c] removes nothing and turns no file into a directory or back. *)
Definition keeps_paths {A} (c : M A) : Prop :=
  forall s, grows (fs s) (fs (fst (c s))).

(** ** The command line and the console, for the properties *)

(** The [dest] of every [add_argument] call, in the order [_add_arguments]
    runs [_add_setup_args], [_add_settings_args], [_add_db_args] and
    [_add_cache_args]: the attributes of the namespace [parse_args()]
    returns, whatever the command line was. *)
Definition parser_dests : list string :=
  ["create_project"; "dir_name"; "app_name"; "verbosity"; "force"; "dry_run";
   "use_defaults"; "interactive";
   "logfile_name"; "local_settings"; "no_secret_key";
   "database_engine"; "database_name"; "database_user"; "database_password";
   "database_host"; "database_port";
   "cache_engine"; "cache_nodes"; "cache_db"; "cache_password"].

(** [c] leaves the filesystem as it is. *)
Definition reads_only {A} (c : M A) : Prop :=
  forall s, fs (fst (c s)) = fs s.

(** [c] works on the console only: it leaves the filesystem as it is, takes
    its answers from the front of the pending input and adds its messages
    after what was printed. *)
Definition console_only {A} (c : M A) : Prop :=
  forall s,
    fs (fst (c s)) = fs s
    /\ stdin (fst (c s)) `suffix_of` stdin s
    /\ stdout s `prefix_of` stdout (fst (c s)).

(** [c] can fail in one way only: with [EOFError], once the pending input
    is used up. *)
Definition fails_at_eof {A} (c : M A) : Prop :=
  forall s s' e, c s = (s', Raised e) -> e = EOFError /\ stdin s' = [].

(** [c] leaves the node [n] at the path [p] as it is, when it is there. *)
Definition keeps_node {A} (p : string) (n : node) (c : M A) : Prop :=
  forall s, fs s !! p = Some n -> fs (fst (c s)) !! p = Some n.

(** [c] returns, and all it does to the filesystem is to add nodes at
    paths of [paths]: what was there is kept and no other path appears. *)
Definition makes_only {A} (paths : list string) (c : M A) : Prop :=
  forall s,
    is_ok (snd (c s)) = true
    /\ fs s ⊆ fs (fst (c s))
    /\ forall p, p ∉ paths -> fs (fst (c s)) !! p = fs s !! p.

(** [c] does nothing at the path [p]: what is there, or that nothing is
    there, stays as it is. *)
Definition leaves_alone {A} (p : string) (c : M A) : Prop :=
  forall s, fs (fst (c s)) !! p = fs s !! p.

(** ** A concrete installation, for the examples *)

Module Demo.

(** A package installed under [/opt/askbot] with the file tables of
    [path_utils]; a directory counts as a prior Django project when it has a
    [settings.py]; the template engine names the template and the site. *)
Definition env : Env := {|
  SOURCE_DIR := "/opt/askbot";
  FILES_TO_CREATE := ["__init__.py"; "manage.py"; "urls.py"; "django.wsgi"; "celery_app.py"];
  BLANK_FILES := ["__init__.py"; "manage.py"];
  LOG_DIR_NAME := "log";
  has_existing_django_project := fun f d => path_exists f (join d "settings.py");
  template_render := fun src context =>
    "# from " +:+ src +:+
    match context !! "app_name" with
    | Some (PStr a) => " for " +:+ a
    | _ => EmptyString
    end;
  generate_random_key := fun n => "key" +:+ String (ascii_of_N (48 + n mod 10)) EmptyString;
  DEPLOY_PREAMBLE := "Deploying Askbot";
  HOW_TO_DEPLOY_NEW := fun help => "new project, see " +:+ help;
  HOW_TO_ADD_ASKBOT_TO_DJANGO := fun help => "add askbot, see " +:+ help;
  path_to_help_file := "/opt/askbot/doc/INSTALL";
  configManagers_complete := fun _ => ret tt;
  pformat := fun _ => "{...}";
  pformat_self := "{...}";
  psycopg2_installed := true;
  mysql_installed := true
|}.

Definition setup : AskbotSetup :=
  mkSetup 1 {["create_project" := ["django"]]}.

(** The templates the package ships. *)
Definition templates : gmap string node :=
  list_to_map
    [("/opt/askbot/setup_templates/__init__.py", File EmptyString);
     ("/opt/askbot/setup_templates/manage.py", File "#!/usr/bin/env python");
     ("/opt/askbot/setup_templates/urls.py", File "urlpatterns = []");
     ("/opt/askbot/setup_templates/django.wsgi", File "import os");
     ("/opt/askbot/setup_templates/celery_app.py", File "import celery");
     ("/opt/askbot/setup_templates/settings.py.jinja2", File "{{ secret_key }}")].

(** What [parse_args()] returns when only the directory is given. *)
Definition defaults : gmap string pyval :=
  list_to_map
    [("create_project", PStr "django"); ("dir_name", PStr "/srv/site");
     ("app_name", PStr "askbot_app"); ("verbosity", PInt 1);
     ("force", PBool false); ("dry_run", PBool false);
     ("use_defaults", PBool false); ("interactive", PBool true);
     ("logfile_name", PStr "askbot.log"); ("local_settings", PStr EmptyString);
     ("no_secret_key", PBool false);
     ("cache_engine", PNone); ("cache_nodes", PNone); ("cache_db", PInt 1);
     ("cache_password", PNone);
     ("database_engine", PNone); ("database_name", PNone); ("database_user", PNone);
     ("database_password", PNone); ("database_host", PNone); ("database_port", PNone)].

Definition start (f : gmap string node) (answers : list string) : State :=
  mkState f [] answers 0.

End Demo.


(** * Properties *)

(** ** Strings *)

Lemma endswith_unfold s suf :
  endswith s suf =
    if decide (s = suf) then true
    else match s with
         | EmptyString => false
         | String _ s' => endswith s' suf
         end.
Proof. by destruct s. Qed.

Lemma after_last_sep_cons c s :
  after_last_sep (String c s) =
    match after_last_sep s with
    | Some t => Some t
    | None => if decide (c = sep) then Some s else None
    end.
Proof. done. Qed.

Lemma append_nil_l s : EmptyString +:+ s = s.
Proof. done. Qed.

Lemma append_cons c a b : String c a +:+ b = String c (a +:+ b).
Proof. done. Qed.

Lemma endswith_refl s : endswith s s = true.
Proof. rewrite endswith_unfold. by rewrite decide_True. Qed.

Lemma endswith_spec s suf :
  endswith s suf = true <-> exists k, s = k +:+ suf.
Proof.
  induction s as [|c s IH]; rewrite endswith_unfold.
  - case_decide as Hd.
    + split; [intros _; exists EmptyString; by subst | done].
    + split; [done |]. intros [k Hk].
      destruct k; rewrite ?append_nil_l, ?append_cons in Hk; congruence.
  - case_decide as Hd.
    + split; [intros _; exists EmptyString; by subst | done].
    + rewrite IH. split.
      * intros [k ->]. by exists (String c k).
      * intros [k Hk].
        destruct k as [|c' k]; rewrite ?append_nil_l, ?append_cons in Hk; [congruence |].
        injection Hk as -> ->. by exists k.
Qed.

Lemma after_last_sep_app a b :
  after_last_sep (a +:+ b) =
    match after_last_sep b with
    | Some t => Some t
    | None => (fun t => t +:+ b) <$> after_last_sep a
    end.
Proof.
  induction a as [|c a IH].
  - rewrite append_nil_l. by destruct (after_last_sep b).
  - rewrite append_cons, !after_last_sep_cons, IH. destruct (after_last_sep b); [done |].
    destruct (after_last_sep a); simpl; [done |]. by case_decide.
Qed.

Lemma endswith_sep_name dst c :
  sep_free c ->
  endswith dst (String sep c) = true <-> after_last_sep dst = Some c.
Proof.
  intros Hc. induction dst as [|a dst IH]; rewrite endswith_unfold.
  - case_decide; [congruence |]. simpl. split; congruence.
  - rewrite after_last_sep_cons. case_decide as Hd.
    + injection Hd as -> ->. rewrite Hc. rewrite decide_True by done. done.
    + rewrite IH. destruct (after_last_sep dst) as [t|] eqn:Ht.
      * done.
      * split; [congruence |]. case_decide; [|congruence].
        intros [= ->]. subst a. done.
Qed.

Lemma last_component_sep_free s : sep_free s -> last_component s = s.
Proof. unfold sep_free, last_component. by intros ->. Qed.

Lemma after_last_sep_free t s : after_last_sep s = Some t -> sep_free t.
Proof.
  unfold sep_free. induction s as [|c s IH]; [done |].
  rewrite after_last_sep_cons.
  destruct (after_last_sep s) as [u|] eqn:Hu.
  - intros [= <-]. by apply IH.
  - case_decide; [|done]. by intros [= <-].
Qed.

(** ** The monad *)

Lemma bind_ret {A B} (a : A) (k : A -> M B) s : bind (ret a) k s = k a s.
Proof. done. Qed.

Lemma bind_raise {A B} e (k : A -> M B) s : bind (raise e) k s = (s, Raised e).
Proof. done. Qed.

Lemma bind_Ok {A B} (c : M A) (k : A -> M B) s s1 a :
  c s = (s1, Ok a) -> bind c k s = k a s1.
Proof. unfold bind. by intros ->. Qed.

Lemma bind_Raised {A B} (c : M A) (k : A -> M B) s s1 e :
  c s = (s1, Raised e) -> bind c k s = (s1, Raised e).
Proof. unfold bind. by intros ->. Qed.

Lemma bind_Ok_inv {A B} (c : M A) (k : A -> M B) s s' b :
  bind c k s = (s', Ok b) ->
  exists s1 a, c s = (s1, Ok a) /\ k a s1 = (s', Ok b).
Proof. unfold bind. destruct (c s) as [s1 [a|e]]; [eauto | done]. Qed.

Lemma ret_inv {A} (a b : A) s s' : ret a s = (s', Ok b) -> s' = s /\ b = a.
Proof. unfold ret. by intros [= -> ->]. Qed.

Lemma print_eq msg s :
  print msg s = (mkState (fs s) (stdout s ++ [msg]) (stdin s) (rng s), Ok tt).
Proof. done. Qed.

Lemma getitem_Some d key v s : d !! key = Some v -> getitem d key s = (s, Ok v).
Proof. unfold getitem. by intros ->. Qed.

Lemma getitem_str_Some d key v s :
  d !! key = Some (PStr v) -> getitem_str d key s = (s, Ok v).
Proof. intros H. unfold getitem_str. by erewrite bind_Ok by by apply getitem_Some. Qed.

Lemma getitem_frame d key s s' r : getitem d key s = (s', r) -> s' = s.
Proof. unfold getitem. destruct (d !! key); by intros [= <-]. Qed.

Lemma getitem_Ok_inv d key s s' v :
  getitem d key s = (s', Ok v) -> s' = s /\ d !! key = Some v.
Proof. unfold getitem. destruct (d !! key); [by intros [= <- <-] | done]. Qed.

Lemma getitem_str_frame d key s s' r : getitem_str d key s = (s', r) -> s' = s.
Proof.
  unfold getitem_str, bind. destruct (getitem d key s) as [s1 [v|e]] eqn:Hg.
  - apply getitem_frame in Hg as ->. destruct v; by intros [= <-].
  - apply getitem_frame in Hg as ->. by intros [= <-].
Qed.

Lemma getitem_str_Ok_inv d key s s' v :
  getitem_str d key s = (s', Ok v) -> s' = s /\ d !! key = Some (PStr v).
Proof.
  unfold getitem_str. intros H. apply bind_Ok_inv in H as (s1 & a & Hg & H).
  apply getitem_Ok_inv in Hg as [-> Hg]. destruct a; try done.
  by apply ret_inv in H as [-> ->].
Qed.

(** Inversion of a run that returned: the binds are split and the branches
    taken are found. *)
Ltac minv :=
  repeat match goal with
  | H : bind _ _ _ = (_, Ok _) |- _ =>
      let s1 := fresh "s" in let a := fresh "a" in let H1 := fresh "Hrun" in
      apply bind_Ok_inv in H as (s1 & a & H1 & H)
  | H : ret _ _ = (_, Ok _) |- _ => apply ret_inv in H as [-> ->]
  | H : raise _ _ = (_, Ok _) |- _ => discriminate H
  | H : (_, Raised _) = (_, Ok _) |- _ => discriminate H
  end.

(** ** The console *)

Lemma ask_valid prompt valid s answer rest :
  stdin s = answer :: rest -> valid answer = true ->
  ask prompt valid s =
    (mkState (fs s) (stdout s ++ [prompt]) rest (rng s), Ok answer).
Proof. unfold ask. intros -> Hv. simpl. by rewrite Hv. Qed.

Lemma ask_until_shorter prompt valid answers out out' rest r :
  ask_until prompt valid answers out = (out', rest, Ok r) ->
  (length rest < length answers)%nat.
Proof.
  revert out. induction answers as [|a answers IH]; intros out; simpl; [done |].
  destruct (valid a).
  - intros [= _ <- _]. lia.
  - intros H. apply IH in H. lia.
Qed.

Lemma ask_frame prompt valid s s' r :
  ask prompt valid s = (s', r) -> fs s' = fs s /\ rng s' = rng s.
Proof.
  unfold ask. destruct (ask_until _ _ _ _) as [[out rest] r'].
  by intros [= <- _].
Qed.

Lemma ask_shorter prompt valid s s' r :
  ask prompt valid s = (s', Ok r) -> (length (stdin s') < length (stdin s))%nat.
Proof.
  unfold ask. destruct (ask_until _ _ _ _) as [[out rest] r'] eqn:Hq.
  intros [= <- ->]. simpl. by eapply ask_until_shorter.
Qed.

(** ** A directory that holds a prior project *)

(** C2. [deploy_askbot] is called with the dict [vars(options)]. When the
    target directory exists and holds a prior Django project, the condition
    of line 432 reads [options.force] on that dict: the call raises
    [AttributeError] before any file is planned or written, so the app-level
    copy and render set is not performed. *)
Theorem deploy_askbot_prior_project_raises E self options dir s :
  options !! "dir_name" = Some (PStr dir) ->
  options !! "force" = Some (PBool false) ->
  path_exists (fs s) dir = true ->
  has_existing_django_project E (fs s) dir = true ->
  deploy_askbot E self options s = (s, Raised (AttributeError "force")).
Proof.
  intros Hdir _ Hthere Hprior.
  unfold deploy_askbot. erewrite bind_Ok by by apply getitem_str_Some.
  unfold os_path_exists. erewrite bind_Ok by reflexivity.
  rewrite Hthere. erewrite bind_Ok by reflexivity.
  rewrite Hprior. reflexivity.
Qed.

Lemma deploy_askbot_prior_project_raises_witness :
  let s := Demo.start (<["/srv/site/settings.py" := File "DEBUG = True"]>
                         (<["/srv/site" := Dir]> Demo.templates)) [] in
  deploy_askbot Demo.env Demo.setup Demo.defaults s
  = (s, Raised (AttributeError "force")).
Proof.
  intros s.
  apply (deploy_askbot_prior_project_raises Demo.env Demo.setup Demo.defaults "/srv/site" s);
    vm_compute; reflexivity.
Defined.

(** ** The database engine of the command line *)

(** C9. [--db-engine] is declared with [type=int], so the code it delivers
    is an [int] or [None], and no such value is in the tuple of strings
    [DATABASE_ENGINE_CHOICES]: the choice prompt is raised for every value of
    the flag, the valid codes 1 to 4 included, and the operator's answer
    replaces the code of the command line. *)
Theorem select_database_engine_int_prompts options parsed answer rest s :
  options !! "database_engine" = Some (db_engine_option parsed) ->
  stdin s = answer :: rest ->
  str_in answer DATABASE_ENGINE_CHOICES = true ->
  select_database_engine options s =
    (mkState (fs s) (stdout s ++ [engine_prompt]) rest (rng s),
     Ok (<["database_engine" := PStr answer]> options)).
Proof.
  intros Ho Hin Hans. unfold select_database_engine, namespace_getattr.
  rewrite Ho, bind_ret.
  assert (py_in (db_engine_option parsed) (map PStr DATABASE_ENGINE_CHOICES) = false)
    as -> by (by destruct parsed).
  cbn [negb]. unfold choice_dialog.
  erewrite bind_Ok; [reflexivity |]. by apply ask_valid.
Qed.

Lemma select_database_engine_int_prompts_witness :
  select_database_engine (<["database_engine" := PInt 2]> Demo.defaults)
      (Demo.start ∅ ["1"]) =
    (mkState ∅ [engine_prompt] [] 0,
     Ok (<["database_engine" := PStr "1"]>
           (<["database_engine" := PInt 2]> Demo.defaults))).
Proof.
  apply (select_database_engine_int_prompts
           (<["database_engine" := PInt 2]> Demo.defaults) (Some 2) "1" []
           (Demo.start ∅ ["1"])); vm_compute; reflexivity.
Defined.

(** A code that is one of the strings of [DATABASE_ENGINE_CHOICES], as the
    option parser of [askbot_setup_orig] delivers it, is kept and nothing is
    asked. *)
Lemma select_database_engine_keeps_str options code s :
  options !! "database_engine" = Some (PStr code) ->
  str_in code DATABASE_ENGINE_CHOICES = true ->
  select_database_engine options s = (s, Ok options).
Proof.
  intros Ho Hin. unfold select_database_engine, namespace_getattr.
  rewrite Ho, bind_ret.
  assert (py_in (PStr code) (map PStr DATABASE_ENGINE_CHOICES) = true) as ->; [|done].
  apply bool_decide_eq_true in Hin.
  unfold py_in. apply existsb_exists. exists (PStr code). split.
  - apply in_map. by apply list_elem_of_In.
  - simpl. by apply bool_decide_eq_true.
Qed.

(** ** Resolution of the options *)

Lemma namespace_getattr_Ok_inv d name s s' v :
  namespace_getattr d name s = (s', Ok v) -> s' = s /\ d !! name = Some v.
Proof.
  unfold namespace_getattr. destruct (d !! name); [by intros [= <- <-] | done].
Qed.

Lemma namespace_getattr_Some d name v s :
  d !! name = Some v -> namespace_getattr d name s = (s, Ok v).
Proof. unfold namespace_getattr. by intros ->. Qed.

(** The loops of [collect_missing_options] write the keys they ask for and
    no other. *)
Lemma sqlite_name_loop_other E fuel o s s' o' k :
  sqlite_name_loop E fuel o s = (s', Ok o') ->
  k <> "database_name" -> o' !! k = o !! k.
Proof.
  revert s. induction fuel as [|fuel IH]; intros s H Hk; [done |].
  simpl in H. minv. destruct a as [name|]; [|by eapply IH].
  destruct (negb _); [|by eapply IH].
  minv. by rewrite lookup_insert_ne.
Qed.

Lemma ask_db_keys_other keys o s s' o' k :
  ask_db_keys keys o s = (s', Ok o') ->
  k ∉ keys.*1 -> o' !! k = o !! k.
Proof.
  revert o s. induction keys as [|[key required] keys IH]; intros o s H Hk.
  - simpl in H. by minv.
  - simpl in H. minv. rewrite fmap_cons, not_elem_of_cons in Hk.
    destruct Hk as [Hk1 Hk2]. destruct (bool_decide _).
    + minv. erewrite IH by done. by rewrite lookup_insert_ne.
    + by eapply IH.
Qed.

Lemma collect_missing_options_secret_key E o s s' o' nk :
  o !! "no_secret_key" = Some nk ->
  collect_missing_options E o s = (s', Ok o') ->
  o' !! "secret_key" =
    Some (PStr (if py_truthy nk then EmptyString else generate_random_key E (rng s))).
Proof.
  intros Hnk H. unfold collect_missing_options in H.
  apply bind_Ok_inv in H as (s1 & a & Hg & H).
  apply getitem_Ok_inv in Hg as [-> Hg]. rewrite Hnk in Hg. injection Hg as <-.
  apply bind_Ok_inv in H as (s1 & key & Hkey & H).
  assert (key = if py_truthy nk then EmptyString else generate_random_key E (rng s))
    as Hkeyv.
  { destruct (py_truthy nk).
    - by apply ret_inv in Hkey as [_ ->].
    - unfold random_key in Hkey. by injection Hkey as _ <-. }
  apply bind_Ok_inv in H as (s2 & eng & _ & H).
  assert (<["secret_key" := PStr key]> o !! "secret_key" = Some (PStr key)) as Hk
    by apply lookup_insert_eq.
  rewrite <- Hkeyv, <- Hk. destruct (py_eq eng _).
  - apply bind_Ok_inv in H as (s3 & name & _ & H). destruct (py_truthy name).
    + by apply ret_inv in H as [_ ->].
    + unfold sqlite_database_name in H. by eapply sqlite_name_loop_other.
  - eapply ask_db_keys_other; [done |]. apply (bool_decide_unpack _). by vm_compute.
Qed.

Lemma select_database_engine_other o s s' o' :
  select_database_engine o s = (s', Ok o') ->
  rng s' = rng s /\ forall k, k <> "database_engine" -> o' !! k = o !! k.
Proof.
  unfold select_database_engine. intros H.
  apply bind_Ok_inv in H as (s1 & v & Hg & H).
  apply namespace_getattr_Ok_inv in Hg as [-> _]. destruct (negb _).
  - apply bind_Ok_inv in H as (s1 & c & Hask & H). apply ret_inv in H as [-> ->].
    split; [by apply ask_frame in Hask as [_ ?] |].
    intros k Hk. by rewrite lookup_insert_ne.
  - by apply ret_inv in H as [-> ->].
Qed.

(** C7, as the code has it. When [force] is false the options handed to the
    deployment hold a [secret_key]: the empty string under
    [--no-secret-key], else the key freshly drawn by [generate_random_key],
    not empty when that function returns no empty key. When [force] is not
    false, line 281 skips [collect_missing_options] and the run leaves
    [secret_key] as the parsed options had it. *)
Theorem resolve_options_secret_key E options directory s s' od od2 eng force nk :
  options !! "force" = Some force ->
  options !! "no_secret_key" = Some nk ->
  resolve_options E options directory s = (s', Ok (od, od2, eng)) ->
  od !! "secret_key" =
    (if is_False force
     then Some (PStr (if py_truthy nk then EmptyString
                      else generate_random_key E (rng s)))
     else options !! "secret_key")
  /\ ((forall n, generate_random_key E n <> EmptyString) ->
      is_False force = true -> py_truthy nk = false ->
      exists key, od !! "secret_key" = Some (PStr key) /\ key <> EmptyString).
Proof.
  intros Hforce Hnk H. unfold resolve_options in H.
  apply bind_Ok_inv in H as (s1 & o1 & Hsel & H).
  apply select_database_engine_other in Hsel as [Hrng Hsame].
  apply bind_Ok_inv in H as (s2 & f & Hf & H).
  apply namespace_getattr_Ok_inv in Hf as [-> Hf].
  rewrite Hsame, lookup_insert_ne, Hforce in Hf by done. injection Hf as <-.
  apply bind_Ok_inv in H as (s2 & o2 & Hcollect & H).
  apply bind_Ok_inv in H as (s3 & code & _ & H).
  apply bind_Ok_inv in H as (s4 & name & _ & H).
  apply ret_inv in H as [-> [= -> -> ->]].
  rewrite lookup_insert_ne by done.
  assert (o2 !! "secret_key" =
            if is_False force
            then Some (PStr (if py_truthy nk then EmptyString
                             else generate_random_key E (rng s)))
            else options !! "secret_key") as Hkey.
  { destruct (is_False force).
    - rewrite <- Hrng. eapply collect_missing_options_secret_key; [|done].
      by rewrite Hsame, lookup_insert_ne.
    - apply ret_inv in Hcollect as [_ ->].
      by rewrite Hsame, lookup_insert_ne. }
  split; [done |]. intros Hne Hfalse Htruthy.
  rewrite Hkey, Hfalse, Htruthy. eauto.
Qed.

Lemma resolve_options_secret_key_witness :
  match result (resolve_options Demo.env Demo.defaults "/srv/site")
          (Demo.start ∅ ["2"; "askbot.db"]) with
  | Ok (od, _, _) => od !! "secret_key" = Some (PStr "key0")
  | Raised _ => False
  end.
Proof.
  unfold result.
  destruct (resolve_options Demo.env Demo.defaults "/srv/site"
              (Demo.start ∅ ["2"; "askbot.db"]))
    as [s' [[[od od2] eng]|e]] eqn:Hrun; simpl.
  - apply (resolve_options_secret_key Demo.env Demo.defaults "/srv/site"
             (Demo.start ∅ ["2"; "askbot.db"]) s' od od2 eng
             (PBool false) (PBool false)
             ltac:(vm_compute; reflexivity) ltac:(vm_compute; reflexivity) Hrun).
  - apply (f_equal (fun r => is_ok (snd r))) in Hrun.
    vm_compute in Hrun. discriminate Hrun.
Defined.

(** C7, the claim as stated: with [--force] and without [--no-secret-key]
    the resolved options hold no secret key at all. *)
Lemma resolve_options_force_without_secret_key :
  let options := <["force" := PBool true]> Demo.defaults in
  options !! "no_secret_key" = Some (PBool false)
  /\ match result (resolve_options Demo.env options "/srv/site")
              (Demo.start ∅ ["2"]) with
     | Ok (od, _, _) => od !! "secret_key" = None
     | Raised _ => False
     end.
Proof. split; vm_compute; reflexivity. Qed.

(** ** Missing values when the run is not interactive *)

(** C8. [collect_missing_options] never reads [options_dict['interactive']]:
    under [--no-input] and with the database name, user and password
    missing, it asks the operator for each of them and returns; nothing is
    raised. *)
Theorem collect_missing_options_asks_under_no_input :
  let options :=
    <["database_engine" := PStr "1"]> (<["interactive" := PBool false]> Demo.defaults) in
  let run := collect_missing_options Demo.env options
               (Demo.start ∅ ["askbot"; "bot"; "secret"; ""; ""]) in
  options !! "interactive" = Some (PBool false)
  /\ options !! "database_name" = Some PNone
  /\ stdin (fst run) = []
  /\ stdout (fst run) =
       [newline +:+ "Please enter database name";
        newline +:+ "Please enter database user";
        newline +:+ "Please enter database password";
        newline +:+ "Please enter database host (press " +:+ dquote +:+ "Enter"
          +:+ dquote +:+ " to use the default value)";
        newline +:+ "Please enter database port (press " +:+ dquote +:+ "Enter"
          +:+ dquote +:+ " to use the default value)"]
  /\ match snd run with
     | Ok resolved =>
         resolved !! "database_name" = Some (PStr "askbot")
         /\ resolved !! "database_user" = Some (PStr "bot")
         /\ resolved !! "database_password" = Some (PStr "secret")
     | Raised _ => False
     end.
Proof. vm_compute. repeat split; reflexivity. Qed.

(** ** The name of the sqlite database file *)

Lemma simple_dialog_optional prompt s value rest :
  stdin s = value :: rest ->
  simple_dialog prompt false s =
    (mkState (fs s) (stdout s ++ [prompt]) rest (rng s), Ok value).
Proof. intros H. unfold simple_dialog. by apply ask_valid. Qed.

(** One turn of the dialog on the candidate [value]. *)
Lemma sqlite_name_turn_eq E s value rest :
  stdin s = value :: rest ->
  let asked :=
    mkState (fs s) (stdout s ++ ["Please enter database file name"]) rest (rng s) in
  let say := fun msg => mkState (fs s) (stdout asked ++ [msg]) rest (rng s) in
  sqlite_name_turn E s =
    if path_isfile (fs s) value then
      bind (get_yes_or_no ("file " +:+ value +:+ " exists, use it anyway?"))
           (fun answer => if bool_decide (answer = "yes")
                          then ret (Some value) else ret None) asked
    else if path_isdir (fs s) value then
      (say (value +:+ " is a directory, choose another name"), Ok None)
    else if reserved_name E value then
      (say ("name " +:+ value +:+ " cannot be used for the database name"), Ok None)
    else (asked, Ok (Some value)).
Proof.
  intros Hin asked say. unfold sqlite_name_turn.
  erewrite bind_Ok by by apply simple_dialog_optional.
  fold asked. unfold os_path_isfile at 1. erewrite bind_Ok by reflexivity.
  change (fs asked) with (fs s). destruct (path_isfile (fs s) value); [done |].
  unfold os_path_isdir. erewrite bind_Ok by reflexivity.
  change (fs asked) with (fs s). destruct (path_isdir (fs s) value); [done |].
  unfold reserved_name.
  destruct (str_in value (FILES_TO_CREATE E)); [done |].
  by destruct (bool_decide (value = LOG_DIR_NAME E)).
Qed.

Lemma sqlite_name_turn_shorter E s s' d :
  sqlite_name_turn E s = (s', Ok d) ->
  (length (stdin s') < length (stdin s))%nat.
Proof.
  destruct (stdin s) as [|value rest] eqn:Hin.
  - unfold sqlite_name_turn. intros H.
    apply bind_Ok_inv in H as (s1 & v & Hask & _).
    apply ask_shorter in Hask. rewrite Hin in Hask. simpl in Hask. lia.
  - rewrite (sqlite_name_turn_eq E s value rest Hin). simpl.
    destruct (path_isfile (fs s) value).
    + intros H. apply bind_Ok_inv in H as (s1 & answer & Hyes & H).
      apply ask_shorter in Hyes. simpl in Hyes.
      destruct (bool_decide _); apply ret_inv in H as [-> _]; lia.
    + destruct (path_isdir (fs s) value); [intros [= <- _]; simpl; lia |].
      destruct (reserved_name E value); intros [= <- _]; simpl; lia.
Qed.

(** The fuel of the loop does not matter once it is above the number of
    pending answers: the loop ends by itself, with a name or at the end of
    the input. *)
Lemma sqlite_name_loop_fuel E n m o s :
  (length (stdin s) < n)%nat -> (length (stdin s) < m)%nat ->
  sqlite_name_loop E n o s = sqlite_name_loop E m o s.
Proof.
  revert m s. induction n as [|n IH]; intros m s Hn Hm; [lia |].
  destruct m as [|m]; [lia |]. simpl. unfold bind.
  destruct (sqlite_name_turn E s) as [s1 [d|e]] eqn:Hturn; [|done].
  apply sqlite_name_turn_shorter in Hturn.
  destruct d as [name|]; [destruct (negb _); [done |] |]; apply IH; lia.
Qed.

Lemma sqlite_database_name_fuel E n o s :
  (length (stdin s) < n)%nat ->
  sqlite_name_loop E n o s = sqlite_database_name E o s.
Proof. intros H. unfold sqlite_database_name. apply sqlite_name_loop_fuel; lia. Qed.

(** C6, as the code has it. The candidate the operator enters is examined in
    the order of [sqlite_name_verdict]: a name of an existing regular file
    raises the confirmation dialog, also when the name is reserved, and is
    taken on the answer yes; else a name of an existing directory, a
    reserved name (one of [FILES_TO_CREATE] or the log directory name) or
    an empty name is rejected and the dialog starts again on the remaining
    answers; any other name becomes [database_name]. *)
Theorem sqlite_database_name_policy E o s value rest :
  stdin s = value :: rest ->
  let asked :=
    mkState (fs s) (stdout s ++ ["Please enter database file name"]) rest (rng s) in
  match sqlite_name_verdict E (fs s) value with
  | Accepted =>
      sqlite_database_name E o s = (asked, Ok (<["database_name" := PStr value]> o))
  | Rejected =>
      exists msgs,
        sqlite_database_name E o s =
          sqlite_database_name E o
            (mkState (fs s) (stdout asked ++ msgs) rest (rng s))
  | NeedsConfirmation =>
      forall s2 answer,
        get_yes_or_no ("file " +:+ value +:+ " exists, use it anyway?") asked
        = (s2, Ok answer) ->
        sqlite_database_name E o s =
          if bool_decide (answer = "yes") && negb (bool_decide (value = EmptyString))
          then (s2, Ok (<["database_name" := PStr value]> o))
          else sqlite_database_name E o s2
  end.
Proof.
  intros Hin asked. unfold sqlite_name_verdict.
  assert (forall s1 d,
            sqlite_name_turn E s = (s1, Ok d) ->
            sqlite_database_name E o s =
              match d with
              | Some name =>
                  if negb (bool_decide (name = EmptyString))
                  then (s1, Ok (<["database_name" := PStr name]> o))
                  else sqlite_database_name E o s1
              | None => sqlite_database_name E o s1
              end) as Hturn.
  { intros s1 d Hd. unfold sqlite_database_name at 1. simpl.
    erewrite bind_Ok by exact Hd.
    apply sqlite_name_turn_shorter in Hd as Hlt.
    destruct d as [name|]; [destruct (negb _); [done |] |];
      apply sqlite_database_name_fuel; lia. }
  pose proof (sqlite_name_turn_eq E s value rest Hin) as Heq. simpl in Heq.
  fold asked in Heq.
  destruct (path_isfile (fs s) value).
  - intros s2 answer Hyes. erewrite bind_Ok in Heq by exact Hyes.
    destruct (bool_decide (answer = "yes")); simpl.
    + by rewrite (Hturn _ _ Heq).
    + by rewrite (Hturn _ _ Heq).
  - destruct (path_isdir (fs s) value); [eexists; by rewrite (Hturn _ _ Heq) |].
    destruct (reserved_name E value); [eexists; by rewrite (Hturn _ _ Heq) |].
    rewrite (Hturn _ _ Heq). destruct (bool_decide (value = EmptyString)); simpl.
    + exists []. by rewrite app_nil_r.
    + done.
Qed.

Lemma sqlite_database_name_policy_witness :
  let s := Demo.start (<["manage.py" := File "#!/usr/bin/env python"]> ∅)
             ["manage.py"; "yes"] in
  sqlite_database_name Demo.env Demo.defaults s =
    (mkState (fs s) ["Please enter database file name";
                     "file manage.py exists, use it anyway?"] [] 0,
     Ok (<["database_name" := PStr "manage.py"]> Demo.defaults)).
Proof.
  intros s.
  apply (sqlite_database_name_policy Demo.env Demo.defaults s "manage.py" ["yes"]
           eq_refl
           (mkState (fs s) ["Please enter database file name";
                            "file manage.py exists, use it anyway?"] [] 0)
           "yes").
  reflexivity.
Defined.

(** C6, the claim as stated: by the listed order of the rules the reserved
    name [manage.py] is rejected; the code raises the confirmation dialog
    for it when a file of that name exists, and takes it on the answer yes. *)
Lemma reserved_file_name_accepted :
  let f : gmap string node := <["manage.py" := File "#!/usr/bin/env python"]> ∅ in
  let options := <["database_engine" := PStr "2"]> Demo.defaults in
  listed_verdict Demo.env f "manage.py" = Rejected
  /\ match result (collect_missing_options Demo.env options)
              (Demo.start f ["manage.py"; "yes"]) with
     | Ok resolved => resolved !! "database_name" = Some (PStr "manage.py")
     | Raised _ => False
     end.
Proof. split; vm_compute; reflexivity. Qed.

(** ** Growth of the filesystem *)

Lemma same_kind_refl n : same_kind n n = true.
Proof. by destruct n. Qed.

Lemma same_kind_trans n1 n2 n3 :
  same_kind n1 n2 = true -> same_kind n2 n3 = true -> same_kind n1 n3 = true.
Proof. by destruct n1, n2, n3. Qed.

Lemma grows_refl f : grows f f.
Proof. intros p n H. exists n. split; [done | apply same_kind_refl]. Qed.

Lemma grows_trans f1 f2 f3 : grows f1 f2 -> grows f2 f3 -> grows f1 f3.
Proof.
  intros H12 H23 p n H. destruct (H12 p n H) as (n2 & H2 & Hk2).
  destruct (H23 p n2 H2) as (n3 & H3 & Hk3). exists n3.
  split; [done | by eapply same_kind_trans].
Qed.

Lemma subseteq_grows (f f' : gmap string node) : f ⊆ f' -> grows f f'.
Proof.
  intros Hsub p n H. exists n. split; [| apply same_kind_refl].
  by eapply lookup_weaken.
Qed.

Lemma grows_insert_new (f : gmap string node) p n : f !! p = None -> grows f (<[p := n]> f).
Proof. intros H. apply subseteq_grows. by apply insert_subseteq. Qed.

Lemma grows_insert_file (f : gmap string node) p c c' :
  f !! p = Some (File c) -> grows f (<[p := File c']> f).
Proof.
  intros H q n Hq. destruct (decide (p = q)) as [<-|Hne].
  - rewrite lookup_insert_eq. rewrite H in Hq. injection Hq as <-. by eexists.
  - rewrite lookup_insert_ne by done. exists n. split; [done | apply same_kind_refl].
Qed.

Lemma grows_exists f f' p :
  grows f f' -> path_exists f p = true -> path_exists f' p = true.
Proof.
  unfold path_exists. intros Hg H. destruct (f !! p) as [n|] eqn:Hp; [|done].
  by destruct (Hg p n Hp) as (n' & -> & _).
Qed.

Lemma grows_isdir f f' p : grows f f' -> f !! p = Some Dir -> f' !! p = Some Dir.
Proof.
  intros Hg H. destruct (Hg p Dir H) as (n' & Hn & Hk). by destruct n'.
Qed.

Lemma grows_absent f f' p : grows f f' -> f' !! p = None -> f !! p = None.
Proof.
  intros Hg H. destruct (f !! p) as [n|] eqn:Hp; [|done].
  destruct (Hg p n Hp) as (n' & Hn & _). congruence.
Qed.

Lemma no_local_grows local f f' : grows f f' -> no_local local f' -> no_local local f.
Proof. intros Hg H l Hl Hne. eapply grows_absent; [done |]. by apply H. Qed.



Section Later.
Context (su du : string).





End Later.

(** ** Composition of computations that settle *)

Section Settles.
Context (su du : string) (local : option pyval).








End Settles.

(** ** The steps of the installer *)

Lemma path_exists_true f p : path_exists f p = true <-> is_Some (f !! p).
Proof. unfold path_exists. destruct (f !! p); split; (done || by intros []). Qed.

Lemma path_exists_false f p : path_exists f p = false <-> f !! p = None.
Proof. unfold path_exists. by destruct (f !! p). Qed.

Lemma shutil_copy_eq src dst s :
  shutil_copy src dst s =
    let target := copy_target (fs s) src dst in
    if bool_decide (src = target) && path_exists (fs s) src
    then (s, Raised (SameFileError src))
    else match fs s !! src with
         | Some (File c) =>
             match fs s !! target with
             | Some Dir => (s, Raised (IsADirectoryError target))
             | _ => (set_fs (<[target := File c]> (fs s)) s, Ok tt)
             end
         | Some Dir => (s, Raised (IsADirectoryError src))
         | None => (s, Raised (FileNotFoundError src))
         end.
Proof.
  unfold shutil_copy. cbv zeta.
  destruct (bool_decide _ && _); [done |].
  unfold bind, read_file, write_file.
  destruct (fs s !! src) as [[c|]|]; try done.
Qed.

(** What [shutil.copy] does: it writes the content of the regular file
    [src] to the target, or raises and leaves the files as they are, the
    same in every state with these files. *)
Lemma shutil_copy_cases src dst s :
  let target := copy_target (fs s) src dst in
  (exists c, fs s !! src = Some (File c) /\ src <> target
             /\ fs s !! target <> Some Dir
             /\ shutil_copy src dst s = (set_fs (<[target := File c]> (fs s)) s, Ok tt))
  \/ (exists e, shutil_copy src dst s = (s, Raised e)
                /\ forall t, fs t = fs s -> shutil_copy src dst t = (t, Raised e)).
Proof.
  intros target.
  assert (forall t, fs t = fs s ->
            shutil_copy src dst t =
              if bool_decide (src = target) && path_exists (fs s) src
              then (t, Raised (SameFileError src))
              else match fs s !! src with
                   | Some (File c) =>
                       match fs s !! target with
                       | Some Dir => (t, Raised (IsADirectoryError target))
                       | _ => (set_fs (<[target := File c]> (fs s)) t, Ok tt)
                       end
                   | Some Dir => (t, Raised (IsADirectoryError src))
                   | None => (t, Raised (FileNotFoundError src))
                   end) as Heq.
  { intros t Ht. rewrite shutil_copy_eq. cbv zeta. rewrite Ht. done. }
  rewrite (Heq s eq_refl).
  destruct (bool_decide (src = target) && path_exists (fs s) src) eqn:Hsame.
  { right. eexists. split; [done |]. intros t Ht. by rewrite (Heq t Ht). }
  destruct (fs s !! src) as [[c|]|] eqn:Hsrc.
  - destruct (fs s !! target) as [[c'|]|] eqn:Htgt.
    + left. exists c. repeat split; try done.
      intros Hst. rewrite (bool_decide_eq_true_2 _ Hst) in Hsame.
      unfold path_exists in Hsame. by rewrite Hsrc in Hsame.
    + right. eexists. split; [done |]. intros t Ht. by rewrite (Heq t Ht).
    + left. exists c. repeat split; try done.
      intros Hst. rewrite <- Hst in Htgt. congruence.
  - right. eexists. split; [done |]. intros t Ht. by rewrite (Heq t Ht).
  - right. eexists. split; [done |]. intros t Ht. by rewrite (Heq t Ht).
Qed.

(** The run of the body of [_install_copy] on one pair. *)
Lemma install_copy_body_eq self forced skip src dst s :
  let say := fun msgs => mkState (fs s) (stdout s ++ msgs) (stdin s) (rng s) in
  let progress := "* to " +:+ dst +:+ " from " +:+ src in
  _install_copy_body self forced skip (src, dst) s =
    if negb (path_exists (fs s) dst) then shutil_copy src dst (say [progress])
    else if forced_dst forced dst then
      shutil_copy src dst (say [progress; "  ^^^ forced overwrite!"])
    else if negb (str_in (last_component dst) skip) then
      (say [progress; "  ^^^ you already have one, please add contents of " +:+ src],
       Ok tt)
    else (say [progress], Ok tt).
Proof.
  intros say progress. unfold _install_copy_body, print_message.
  erewrite bind_Ok by apply print_eq.
  unfold os_path_exists. erewrite bind_Ok by reflexivity.
  cbn [fs]. destruct (path_exists (fs s) dst); cbn [negb]; [|done].
  destruct (forced_dst forced dst).
  - erewrite bind_Ok by apply print_eq. cbn [fs stdout stdin rng].
    by rewrite <- app_assoc.
  - destruct (negb _); [|done]. rewrite print_eq. cbn [fs stdout stdin rng].
    by rewrite <- app_assoc.
Qed.

(** The run of the body of [_install_render_with_jinja2] on one pair. *)
Lemma install_render_body_eq E self context src dst s :
  _install_render_body E self context (src, dst) s =
    if path_exists (fs s) dst
    then (mkState (fs s)
            (stdout s ++ ["* you already have a file " +:+ dquote +:+ dst +:+ dquote
                          +:+ " please merge the contents"])
            (stdin s) (rng s), Ok tt)
    else (mkState (<[dst := File (template_render E src context)]> (fs s))
            (stdout s ++ ["*    " +:+ dst +:+ " from " +:+ src])
            (stdin s) (rng s), Ok tt).
Proof.
  unfold _install_render_body, print_message, os_path_exists.
  erewrite bind_Ok by reflexivity.
  destruct (path_exists (fs s) dst) eqn:Hex; [done |].
  erewrite bind_Ok by apply print_eq. unfold write_file. cbn [fs].
  apply path_exists_false in Hex. by rewrite Hex.
Qed.

(** ** Every step of the installer settles *)

Section SettleSteps.
Context (su du : string) (local : option pyval).









End SettleSteps.

(** ** The methods of the installer settle *)

Lemma getitem_pure d key : exists r, forall s, getitem d key s = (s, r).
Proof. unfold getitem. destruct (d !! key); by eexists. Qed.


Lemma length_pos_nonempty (l : string) :
  (0 <? String.length l)%nat = negb (bool_decide (l = EmptyString)).
Proof. by destruct l. Qed.

(** The run of [append_local_settings] when there is nothing to append. *)
Lemma append_local_settings_skip self app_dir options l s :
  options !! "local_settings" = Some (PStr l) ->
  (l <> EmptyString -> fs s !! l = None) ->
  append_local_settings self app_dir options s = (s, Ok tt).
Proof.
  intros Hl Habsent. unfold append_local_settings.
  erewrite bind_Ok by by apply getitem_str_Some.
  rewrite length_pos_nonempty. destruct (decide (l = EmptyString)) as [->|Hne].
  - done.
  - rewrite bool_decide_eq_false_2 by done. simpl.
    unfold os_path_exists. erewrite bind_Ok by reflexivity.
    unfold path_exists. by rewrite Habsent.
Qed.

(** [append_local_settings] makes the filesystem grow: it creates the
    settings file or lengthens it. *)
Lemma append_local_settings_grows self app_dir options s :
  grows (fs s) (fs (fst (append_local_settings self app_dir options s))).
Proof.
  unfold append_local_settings, bind.
  destruct (getitem_str options "local_settings" s) as [s1 [l|e]] eqn:Hg;
    apply getitem_str_frame in Hg as ->; [|apply grows_refl].
  destruct ((if (0 <? String.length l)%nat then os_path_exists l else ret false) s)
    as [s1 [wanted|e]] eqn:Hw.
  2: { destruct (0 <? String.length l)%nat; discriminate Hw. }
  assert (s1 = s) as ->.
  { destruct (0 <? String.length l)%nat; by injection Hw as <-. }
  destruct wanted; [|apply grows_refl].
  unfold print_message, print, open_append, read_file, append_text. cbn [fs].
  set (dst := join app_dir "settings.py").
  destruct (fs s !! dst) as [[c|]|] eqn:Hdst; cbn [fs set_fs fst snd].
  - destruct (fs s !! l) as [[x|]|]; cbn [fs set_fs fst snd]; try apply grows_refl.
    rewrite Hdst. cbn [fs set_fs fst snd]. by eapply grows_insert_file.
  - apply grows_refl.
  - destruct (decide (l = dst)) as [->|Hne].
    + rewrite lookup_insert_eq. cbn [fs set_fs fst snd]. rewrite lookup_insert_eq.
      cbn [fs set_fs fst snd]. rewrite insert_insert_eq. by apply grows_insert_new.
    + rewrite lookup_insert_ne by done.
      destruct (fs s !! l) as [[x|]|]; cbn [fs set_fs fst snd];
        try by apply grows_insert_new.
      rewrite lookup_insert_eq. cbn [fs set_fs fst snd].
      rewrite insert_insert_eq. by apply grows_insert_new.
Qed.

Section SettleMethods.
Context (su du : string) (local : option pyval).






End SettleMethods.

(** ** Destinations and the forced overwrite *)

Lemma startswith_sep_not_free f :
  sep_free f -> startswith f (String sep EmptyString) = false.
Proof.
  unfold sep_free. destruct f as [|c f]; [done |]. rewrite after_last_sep_cons.
  simpl. destruct (after_last_sep f); [done |].
  destruct (decide (c = sep)) as [->|Hne]; [done |].
  intros _. destruct (decide (sep = c)); congruence.
Qed.

(** What follows the last separator of [join a f] is the name [f]. *)
Lemma after_last_sep_join a f t :
  sep_free f -> after_last_sep (join a f) = Some t -> t = f.
Proof.
  intros Hf. unfold join. rewrite startswith_sep_not_free by done.
  destruct (decide (a = EmptyString)) as [->|Hne].
  { rewrite append_nil_l, Hf. done. }
  destruct (endswith a (String sep EmptyString)) eqn:Hend.
  - rewrite after_last_sep_app, Hf.
    apply (endswith_sep_name a EmptyString eq_refl) in Hend. rewrite Hend.
    simpl. by intros [= <-].
  - rewrite after_last_sep_app.
    change (String sep EmptyString +:+ f) with (String sep f).
    rewrite after_last_sep_cons, Hf, decide_True by done. by intros [= <-].
Qed.

Lemma last_component_join a f : sep_free f -> last_component (join a f) = f.
Proof.
  intros Hf. unfold last_component.
  destruct (after_last_sep (join a f)) as [t|] eqn:Ht.
  - simpl. by eapply after_last_sep_join.
  - simpl. revert Ht. unfold join. rewrite startswith_sep_not_free by done.
    destruct (decide (a = EmptyString)) as [->|Hne]; [done |].
    destruct (endswith a (String sep EmptyString)) eqn:Hend.
    + rewrite after_last_sep_app, Hf.
      apply (endswith_sep_name a EmptyString eq_refl) in Hend. by rewrite Hend.
    + rewrite after_last_sep_app.
      change (String sep EmptyString +:+ f) with (String sep f).
      by rewrite after_last_sep_cons, Hf, decide_True.
Qed.

Lemma forced_dst_nil dst : forced_dst [] dst = false.
Proof. done. Qed.

Lemma forced_dst_one c dst : forced_dst [c] dst = endswith dst (String sep c).
Proof. unfold forced_dst, forced_matches. simpl. by destruct (endswith _ _). Qed.

(** Of the files named without a separator, only [urls.py] is copied by
    force. *)
Lemma forced_urls_join a f :
  sep_free f -> forced_dst ["urls.py"] (join a f) = true -> f = "urls.py".
Proof.
  intros Hf. rewrite forced_dst_one. intros Hend.
  apply (endswith_sep_name _ "urls.py" eq_refl) in Hend.
  symmetry. by eapply after_last_sep_join.
Qed.

Lemma endswith_app k suf : endswith (k +:+ suf) suf = true.
Proof. apply endswith_spec. by exists k. Qed.

Lemma elem_of_map {A B} (f : A -> B) (l : list A) y :
  y ∈ map f l -> exists x, y = f x /\ x ∈ l.
Proof.
  intros H. apply list_elem_of_In in H. apply in_map_iff in H as (x & <- & Hx).
  exists x. split; [done |]. apply list_elem_of_In. exact Hx.
Qed.

Lemma APP_FILES_TO_CREATE_sep_free E f :
  Forall sep_free (FILES_TO_CREATE E) -> f ∈ APP_FILES_TO_CREATE E -> sep_free f.
Proof.
  intros Hall Hin. unfold APP_FILES_TO_CREATE in Hin.
  apply list_elem_of_difference in Hin as [Hin _].
  apply (proj1 (elem_of_remove_dups _ _)) in Hin.
  apply (proj1 (List.Forall_forall _ _) Hall). apply list_elem_of_In. exact Hin.
Qed.

(** ** Running the installer a second time *)

Section Rerun.
Context (E : Env) (self : AskbotSetup).
Hypothesis names_sep_free : Forall sep_free (FILES_TO_CREATE E).



End Rerun.

(** The run of [deploy_askbot]: with a prior project in the directory it
    raises at once, else it makes a new project. *)
Lemma deploy_askbot_eq E self options dir s :
  options !! "dir_name" = Some (PStr dir) ->
  deploy_askbot E self options s =
    if path_exists (fs s) dir && has_existing_django_project E (fs s) dir
    then (s, Raised (AttributeError "force"))
    else deploy_files E self true options s.
Proof.
  intros Hdir. unfold deploy_askbot.
  erewrite bind_Ok by by apply getitem_str_Some.
  unfold os_path_exists. erewrite bind_Ok by reflexivity.
  destruct (path_exists (fs s) dir); cbn [andb].
  - erewrite bind_Ok by reflexivity.
    by destruct (has_existing_django_project E (fs s) dir).
  - by rewrite !bind_ret.
Qed.





(** ** Render: an existing destination is never overwritten *)

(** The loop of [_install_render_with_jinja2]: it returns, keeps what was
    there and writes each absent destination from a template of the list. *)
Lemma render_loop E self context render_list s :
  let run := for_each render_list (_install_render_body E self context) s in
  snd run = Ok tt
  /\ stdin (fst run) = stdin s /\ rng (fst run) = rng s
  /\ fs s ⊆ fs (fst run)
  /\ forall src dst, (src, dst) ∈ render_list -> fs s !! dst = None ->
       exists src', (src', dst) ∈ render_list
                    /\ fs (fst run) !! dst = Some (File (template_render E src' context)).
Proof.
  revert s. induction render_list as [|[src0 dst0] l IH]; intros s; cbn zeta.
  - simpl. repeat split; try done. intros src dst Hin. by apply elem_of_nil in Hin.
  - cbn [for_each].
    assert (exists s1,
              (_install_render_body E self context (src0, dst0) ;;;
               for_each l (_install_render_body E self context)) s
              = for_each l (_install_render_body E self context) s1
              /\ stdin s1 = stdin s /\ rng s1 = rng s
              /\ fs s1 = if path_exists (fs s) dst0 then fs s
                         else <[dst0 := File (template_render E src0 context)]> (fs s))
      as (s1 & -> & Hin1 & Hrng1 & Hfs1).
    { unfold bind. rewrite install_render_body_eq.
      destruct (path_exists (fs s) dst0); eexists; (split; [reflexivity |]); done. }
    destruct (IH s1) as (Hok & Hin & Hrng & Hsub & Hnew).
    rewrite Hin, Hrng. split; [done |]. split; [done |]. split; [done |].
    destruct (path_exists (fs s) dst0) eqn:Hex.
    + rewrite Hfs1 in *. split; [done |].
      intros src dst Hmem Habs. apply elem_of_cons in Hmem as [[= -> ->] | Hmem].
      * apply path_exists_false in Habs. congruence.
      * destruct (Hnew src dst Hmem Habs) as (src' & Hmem' & Hw).
        exists src'. split; [by right | done].
    + apply path_exists_false in Hex.
      assert (fs s ⊆ fs s1) as Hsub1 by (rewrite Hfs1; by apply insert_subseteq).
      split; [by etrans |].
      intros src dst Hmem Habs. destruct (decide (dst = dst0)) as [->|Hne].
      * exists src0. split; [by left |].
        eapply lookup_weaken; [|exact Hsub]. rewrite Hfs1. apply lookup_insert_eq.
      * apply elem_of_cons in Hmem as [[= -> ->] | Hmem]; [done |].
        destruct (Hnew src dst Hmem) as (src' & Hmem' & Hw).
        { rewrite Hfs1. by rewrite lookup_insert_ne. }
        exists src'. split; [by right | done].
Qed.

Lemma install_render_run E self context render_list s :
  let run := _install_render_with_jinja2 E self render_list context s in
  snd run = Ok tt
  /\ fs s ⊆ fs (fst run)
  /\ forall src dst, (src, dst) ∈ render_list -> fs s !! dst = None ->
       exists src', (src', dst) ∈ render_list
                    /\ fs (fst run) !! dst = Some (File (template_render E src' context)).
Proof.
  cbn zeta. unfold _install_render_with_jinja2, print_message.
  erewrite bind_Ok by apply print_eq.
  match goal with |- context [bind _ _ ?s0] => set (s1 := s0) end.
  destruct (render_loop E self context render_list s1) as (Hok & _ & _ & Hsub & Hnew).
  unfold bind.
  destruct (for_each render_list (_install_render_body E self context) s1)
    as [s2 r] eqn:Hloop.
  cbn [fst snd] in *. subst r. by rewrite print_eq.
Qed.

(** C3. One Render operation: when the destination is there, the state is
    left as it was but for the advisory message; when it is absent, the
    template is rendered with the options as context and written to the
    destination. For the whole call of [_install_render_with_jinja2]: it
    returns, every path that was there keeps its content, and a destination
    that was absent holds the text rendered from a template listed for it. *)
Theorem render_keeps_existing_writes_absent E self context render_list src dst s :
  _install_render_body E self context (src, dst) s =
    (if path_exists (fs s) dst
     then (mkState (fs s)
             (stdout s ++ ["* you already have a file " +:+ dquote +:+ dst +:+ dquote
                           +:+ " please merge the contents"])
             (stdin s) (rng s), Ok tt)
     else (mkState (<[dst := File (template_render E src context)]> (fs s))
             (stdout s ++ ["*    " +:+ dst +:+ " from " +:+ src])
             (stdin s) (rng s), Ok tt))
  /\ result (_install_render_with_jinja2 E self render_list context) s = Ok tt
  /\ (forall p n, fs s !! p = Some n ->
        fs (exec (_install_render_with_jinja2 E self render_list context) s) !! p
        = Some n)
  /\ ((src, dst) ∈ render_list -> fs s !! dst = None ->
      exists src',
        (src', dst) ∈ render_list
        /\ fs (exec (_install_render_with_jinja2 E self render_list context) s) !! dst
           = Some (File (template_render E src' context))).
Proof.
  split; [apply install_render_body_eq |].
  destruct (install_render_run E self context render_list s) as (Hok & Hsub & Hnew).
  split; [done |]. split.
  - intros p n Hp. by eapply lookup_weaken.
  - apply Hnew.
Qed.

(** ** Copy: the conflict policy *)

Lemma forced_dst_spec forced dst :
  forced_dst forced dst = true <->
  exists c, c ∈ forced /\ endswith dst (String sep c) = true.
Proof.
  unfold forced_dst, forced_matches. rewrite length_map.
  induction forced as [|c forced IH]; simpl.
  - split; [done |]. intros (c & Hc & _). by apply elem_of_nil in Hc.
  - destruct (endswith dst (String sep c)) eqn:Hend; simpl.
    + split; [|done]. intros _. exists c. split; [by left | done].
    + rewrite IH. split.
      * intros (c' & Hc' & Hend'). exists c'. split; [by right | done].
      * intros (c' & Hc' & Hend'). apply elem_of_cons in Hc' as [-> | Hc'].
        -- congruence.
        -- by exists c'.
Qed.





Lemma startswith_sep_has_sep f :
  startswith f (String sep EmptyString) = true -> after_last_sep f <> None.
Proof.
  destruct f as [|c f]; [done |]. intros H.
  assert (c = sep) as ->.
  { simpl in H. by destruct (decide (sep = c)). }
  rewrite after_last_sep_cons. destruct (after_last_sep f); [done |].
  by rewrite decide_True.
Qed.

Lemma join_nonempty a b : b <> EmptyString -> join a b <> EmptyString.
Proof.
  intros Hb. unfold join. destruct (startswith b _); [done |].
  destruct (decide (a = EmptyString)) as [->|Ha]; [by rewrite append_nil_l |].
  destruct (endswith a _); destruct a; try done.
Qed.

Lemma join_has_sep a f : a <> EmptyString -> after_last_sep (join a f) <> None.
Proof.
  intros Ha. unfold join.
  destruct (startswith f (String sep EmptyString)) eqn:Hstart.
  { by apply startswith_sep_has_sep. }
  rewrite decide_False by done.
  destruct (endswith a (String sep EmptyString)) eqn:Hend.
  - rewrite after_last_sep_app.
    apply (endswith_sep_name a EmptyString eq_refl) in Hend. rewrite Hend.
    by destruct (after_last_sep f).
  - rewrite after_last_sep_app.
    change (String sep EmptyString +:+ f) with (String sep f).
    rewrite after_last_sep_cons. destruct (after_last_sep f); [done |].
    by rewrite decide_True.
Qed.

(** The destinations [_create_new_django_app] copies to have a directory
    part, so the policy above is the policy of every copy of the app. *)
Lemma app_destination_has_sep dir f :
  after_last_sep (join (join dir "askbot_app") f) <> None.
Proof. apply join_has_sep. by apply join_nonempty. Qed.

(** ** Append: the local settings *)


(** A path that is there keeps its node through a Copy, unless it is the
    target of a forced copy. *)
Lemma install_copy_body_keeps self forced skip src dst s p n :
  fs s !! p = Some n ->
  (forced_dst forced dst = true -> p <> dst /\ p <> join dst (last_component src)) ->
  fs (fst (_install_copy_body self forced skip (src, dst) s)) !! p = Some n.
Proof.
  intros Hp Hforced. rewrite install_copy_body_eq. cbv zeta.
  assert (forall told, fs told = fs s ->
            p <> copy_target (fs s) src dst ->
            fs (fst (shutil_copy src dst told)) !! p = Some n) as Hcopy.
  { intros told Htold Hne.
    destruct (shutil_copy_cases src dst told) as
      [(c & _ & _ & _ & Hrun) | (e & Hrun & _)]; rewrite Hrun; cbn [fst fs set_fs].
    - rewrite Htold. by rewrite lookup_insert_ne.
    - by rewrite Htold. }
  destruct (path_exists (fs s) dst) eqn:Hex; cbn [negb].
  - destruct (forced_dst forced dst).
    + apply Hcopy; [done |]. destruct (Hforced eq_refl) as [H1 H2].
      unfold copy_target. by destruct (path_isdir (fs s) dst).
    + by destruct (negb _).
  - apply Hcopy; [done |]. apply path_exists_false in Hex.
    unfold copy_target, path_isdir. rewrite Hex. congruence.
Qed.

Lemma install_copy_keeps self forced skip copy_list s p n :
  fs s !! p = Some n ->
  (forall src dst, (src, dst) ∈ copy_list -> forced_dst forced dst = true ->
     p <> dst /\ p <> join dst (last_component src)) ->
  fs (fst (_install_copy self copy_list forced skip s)) !! p = Some n.
Proof.
  intros Hp Hpairs. unfold _install_copy, print_message.
  erewrite bind_Ok by apply print_eq.
  match goal with |- context [bind _ _ ?s0] => set (s1 := s0) end.
  assert (fs s1 !! p = Some n) as Hp1 by done. clearbody s1.
  assert (fs (fst (for_each copy_list (_install_copy_body self forced skip) s1)) !! p
          = Some n) as Hloop.
  { revert s1 Hp1. induction copy_list as [|[src dst] l IH]; intros s1 Hp1; [done |].
    cbn [for_each]. unfold bind.
    pose proof (install_copy_body_keeps self forced skip src dst s1 p n Hp1) as Hstep.
    destruct (_install_copy_body self forced skip (src, dst) s1) as [s2 [[]|e]].
    - apply IH.
      + intros src' dst' Hin. apply Hpairs. by right.
      + apply Hstep. apply Hpairs. by left.
    - apply Hstep. apply Hpairs. by left. }
  unfold bind. destruct (for_each _ _ s1) as [s2 [[]|e]]; [|done].
  by rewrite print_eq.
Qed.

Lemma endswith_join a f :
  a <> EmptyString -> sep_free f -> endswith (join a f) (String sep f) = true.
Proof.
  intros Ha Hf. apply endswith_sep_name; [done |].
  destruct (after_last_sep (join a f)) as [t|] eqn:Ht.
  - f_equal. by eapply after_last_sep_join.
  - by destruct (join_has_sep a f Ha).
Qed.

(** Through the copies of the app, a path that does not end in [/urls.py]
    keeps its node. *)
Lemma app_copies_keep E dir app_name (uwsgi django : bool) p src dst :
  Forall sep_free (FILES_TO_CREATE E) ->
  endswith p (String sep "urls.py") = false ->
  (src, dst) ∈
    ((if django
     then map (fun file_name => (source_file E "setup_templates" file_name,
                                 join (join dir app_name) file_name))
              (APP_FILES_TO_CREATE E)
     else []) ++
    (if uwsgi
     then map (fun file_name => (source_file E "container" file_name,
                                 join (join dir app_name) file_name))
              ["cron-askbot.sh"; "prestart.sh"; "prestart.py"]
     else []))%list ->
  forced_dst ["urls.py"] dst = true ->
  p <> dst /\ p <> join dst (last_component src).
Proof.
  intros Hnames Hp Hin Hforced.
  assert (src = source_file E "setup_templates" "urls.py") as ->.
  { apply elem_of_app in Hin as [Hin | Hin].
    - destruct django; [|by apply elem_of_nil in Hin].
      apply elem_of_map in Hin as (f & [= -> ->] & Hf).
      apply (APP_FILES_TO_CREATE_sep_free E f Hnames) in Hf.
      by apply forced_urls_join in Hforced as ->.
    - destruct uwsgi; [|by apply elem_of_nil in Hin].
      apply elem_of_map in Hin as (f & [= -> ->] & Hf).
      assert (sep_free f /\ f <> "urls.py") as [Hfree Hne].
      { repeat (apply elem_of_cons in Hf as [-> | Hf]; [by split |]).
        by apply elem_of_nil in Hf. }
      by apply forced_urls_join in Hforced. }
  rewrite forced_dst_one in Hforced.
  split; [congruence |].
  unfold source_file. rewrite last_component_join by done.
  intros ->. rewrite endswith_join in Hp; [done | | done].
  intros ->. done.
Qed.

Lemma create_path_run d s :
  snd (create_path d s) = Ok tt /\ fs s ⊆ fs (fst (create_path d s)).
Proof.
  unfold create_path. destruct (fs s !! d) eqn:Hd; [done |].
  split; [done |]. by apply insert_subseteq.
Qed.




(** ** The name of the application directory *)

Lemma shape_lookup_kind (f f' : gmap string node) p :
  shape f = shape f' ->
  match f !! p, f' !! p with
  | Some n, Some n' => same_kind n n' = true
  | None, None => True
  | _, _ => False
  end.
Proof.
  intros H. apply (f_equal (fun m => m !! p)) in H. unfold shape in H.
  rewrite !lookup_fmap in H.
  destruct (f !! p) as [[]|], (f' !! p) as [[]|]; by simpl in H.
Qed.

Lemma shape_insert (f f' : gmap string node) p n n' :
  shape f = shape f' -> same_kind n n' = true ->
  shape (<[p := n]> f) = shape (<[p := n']> f').
Proof.
  intros H Hk. unfold shape in *. rewrite !fmap_insert, H.
  by destruct n, n'.
Qed.

Lemma shape_path_exists f f' p :
  shape f = shape f' -> path_exists f p = path_exists f' p.
Proof.
  intros H. pose proof (shape_lookup_kind f f' p H) as Hk. unfold path_exists.
  by destruct (f !! p), (f' !! p).
Qed.

Lemma shape_path_isdir f f' p :
  shape f = shape f' -> path_isdir f p = path_isdir f' p.
Proof.
  intros H. pose proof (shape_lookup_kind f f' p H) as Hk. unfold path_isdir.
  by destruct (f !! p) as [[]|], (f' !! p) as [[]|].
Qed.

Lemma sim_refl s : sim s s.
Proof. by split. Qed.

Lemma sim_insert s s' p n n' :
  sim s s' -> same_kind n n' = true ->
  sim (set_fs (<[p := n]> (fs s)) s) (set_fs (<[p := n']> (fs s')) s').
Proof. intros [Hf Ho] Hk. split; [by apply shape_insert | done]. Qed.

Section Respects.

Lemma respects_ret {A} (R : A -> A -> Prop) a a' : R a a' -> respects R (ret a) (ret a').
Proof. intros H s s' Hsim. by split. Qed.

Lemma respects_raise {A} (R : A -> A -> Prop) e : respects R (raise e) (raise e).
Proof. intros s s' Hsim. by split. Qed.

Lemma respects_bind {A B} (R : A -> A -> Prop) (R' : B -> B -> Prop)
    (c c' : M A) (k k' : A -> M B) :
  respects R c c' ->
  (forall a a', R a a' -> respects R' (k a) (k' a')) ->
  respects R' (bind c k) (bind c' k').
Proof.
  intros Hc Hk s s' Hsim. unfold bind. destruct (Hc s s' Hsim) as [Hs Ho].
  destruct (c s) as [s1 [a|e]], (c' s') as [s1' [a'|e']]; cbn [fst snd] in *;
    try done.
  by apply Hk.
Qed.

Lemma respects_seq {B} (R' : B -> B -> Prop) (c c' : M unit) (k k' : M B) :
  respects eq c c' -> respects R' k k' -> respects R' (c ;;; k) (c' ;;; k').
Proof. intros Hc Hk. eapply respects_bind; [exact Hc |]. by intros. Qed.

Lemma respects_weaken {A} (R R' : A -> A -> Prop) (c c' : M A) :
  (forall a a', R a a' -> R' a a') -> respects R c c' -> respects R' c c'.
Proof.
  intros HR Hc s s' Hsim. destruct (Hc s s' Hsim) as [Hs Ho]. split; [done |].
  destruct (snd (c s)), (snd (c' s')); try done. by apply HR.
Qed.

Lemma respects_for_each {A} (l : list A) (body body' : A -> M unit) :
  (forall x, respects eq (body x) (body' x)) ->
  respects eq (for_each l body) (for_each l body').
Proof.
  intros H. induction l as [|x l IH]; simpl.
  - by apply respects_ret.
  - by apply respects_seq.
Qed.

Lemma respects_print msg : respects eq (print msg) (print msg).
Proof.
  intros s s' [Hf Ho]. split; [|done]. split; [done |]. simpl. by rewrite Ho.
Qed.

Lemma respects_exists p : respects eq (os_path_exists p) (os_path_exists p).
Proof.
  intros s s' Hsim. split; [done |]. simpl.
  apply shape_path_exists. by destruct Hsim.
Qed.

Lemma respects_create_path d : respects eq (create_path d) (create_path d).
Proof.
  intros s s' Hsim. unfold create_path.
  pose proof (shape_lookup_kind _ _ d (proj1 Hsim)) as Hk.
  destruct (fs s !! d), (fs s' !! d); try done.
  split; [by apply sim_insert | done].
Qed.

Lemma respects_touch p : respects eq (touch p) (touch p).
Proof.
  intros s s' Hsim. unfold touch.
  pose proof (shape_lookup_kind _ _ p (proj1 Hsim)) as Hk.
  destruct (fs s !! p), (fs s' !! p); try done.
  split; [by apply sim_insert | done].
Qed.

Lemma respects_write_file p text text' :
  respects eq (write_file p text) (write_file p text').
Proof.
  intros s s' Hsim. unfold write_file.
  pose proof (shape_lookup_kind _ _ p (proj1 Hsim)) as Hk.
  destruct (fs s !! p) as [[]|], (fs s' !! p) as [[]|]; try done;
    (split; [by apply sim_insert | done]).
Qed.

Lemma respects_read_file p : respects any (read_file p) (read_file p).
Proof.
  intros s s' Hsim. unfold read_file.
  pose proof (shape_lookup_kind _ _ p (proj1 Hsim)) as Hk.
  by destruct (fs s !! p) as [[]|], (fs s' !! p) as [[]|].
Qed.

Lemma respects_open_append p : respects eq (open_append p) (open_append p).
Proof.
  intros s s' Hsim. unfold open_append.
  pose proof (shape_lookup_kind _ _ p (proj1 Hsim)) as Hk.
  destruct (fs s !! p) as [[]|], (fs s' !! p) as [[]|]; try done.
  split; [by apply sim_insert | done].
Qed.

Lemma respects_append_text p text text' :
  respects eq (append_text p text) (append_text p text').
Proof.
  intros s s' Hsim. unfold append_text.
  pose proof (shape_lookup_kind _ _ p (proj1 Hsim)) as Hk.
  destruct (fs s !! p) as [[]|], (fs s' !! p) as [[]|]; try done;
    (split; [by apply sim_insert | done]).
Qed.

Lemma respects_shutil_copy src dst :
  respects eq (shutil_copy src dst) (shutil_copy src dst).
Proof.
  intros s s' Hsim. rewrite !shutil_copy_eq. cbv zeta.
  destruct Hsim as [Hf Ho].
  assert (copy_target (fs s') src dst = copy_target (fs s) src dst) as ->.
  { unfold copy_target. by rewrite (shape_path_isdir _ _ dst Hf). }
  rewrite <- (shape_path_exists _ _ src Hf).
  destruct (bool_decide _ && _); [done |].
  pose proof (shape_lookup_kind _ _ src Hf) as Hk.
  destruct (fs s !! src) as [[c|]|], (fs s' !! src) as [[c'|]|]; try done.
  pose proof (shape_lookup_kind _ _ (copy_target (fs s) src dst) Hf) as Hkt.
  destruct (fs s !! copy_target (fs s) src dst) as [[]|],
           (fs s' !! copy_target (fs s) src dst) as [[]|]; try done;
    (split; [by apply sim_insert | done]).
Qed.

Lemma respects_getitem (o o' : gmap string pyval) key :
  o !! key = o' !! key -> respects eq (getitem o key) (getitem o' key).
Proof.
  intros H. unfold getitem. rewrite H.
  destruct (o' !! key); [by apply respects_ret | apply respects_raise].
Qed.

Lemma respects_getitem_str (o o' : gmap string pyval) key :
  o !! key = o' !! key -> respects eq (getitem_str o key) (getitem_str o' key).
Proof.
  intros H. unfold getitem_str.
  eapply respects_bind; [by apply respects_getitem |].
  intros a a' <-. destruct a; (by apply respects_ret) || apply respects_raise.
Qed.

End Respects.

Lemma respects_install_copy_body self forced skip item :
  respects eq (_install_copy_body self forced skip item)
              (_install_copy_body self forced skip item).
Proof.
  destruct item as [src dst]. unfold _install_copy_body, print_message.
  apply respects_seq; [apply respects_print |].
  eapply respects_bind; [apply respects_exists |]. intros present ? <-.
  destruct (negb present); [apply respects_shutil_copy |].
  destruct (forced_dst forced dst).
  { apply respects_seq; [apply respects_print | apply respects_shutil_copy]. }
  destruct (negb _); [apply respects_print | by apply respects_ret].
Qed.

Lemma respects_install_copy self copy_list forced skip :
  respects eq (_install_copy self copy_list forced skip)
              (_install_copy self copy_list forced skip).
Proof.
  unfold _install_copy, print_message.
  apply respects_seq; [apply respects_print |].
  apply respects_seq; [|apply respects_print].
  apply respects_for_each. intros item. apply respects_install_copy_body.
Qed.

Lemma respects_install_render E self render_list context context' :
  respects eq (_install_render_with_jinja2 E self render_list context)
              (_install_render_with_jinja2 E self render_list context').
Proof.
  unfold _install_render_with_jinja2, print_message.
  apply respects_seq; [apply respects_print |].
  apply respects_seq; [|apply respects_print].
  apply respects_for_each. intros [src dst]. unfold _install_render_body, print_message.
  eapply respects_bind; [apply respects_exists |]. intros present ? <-.
  destruct present; [apply respects_print |].
  apply respects_seq; [apply respects_print | apply respects_write_file].
Qed.

Lemma respects_create_new_django_project E self install_dir (o o' : gmap string pyval) :
  o !! "logfile_name" = o' !! "logfile_name" ->
  respects eq (_create_new_django_project E self install_dir o)
              (_create_new_django_project E self install_dir o').
Proof.
  intros H. unfold _create_new_django_project.
  eapply respects_bind; [by apply respects_getitem_str |]. intros logfile_name ? <-.
  apply respects_seq.
  { apply respects_for_each. intros d. apply respects_create_path. }
  apply respects_seq; [apply respects_touch | apply respects_install_copy].
Qed.

Lemma respects_append_local_settings self app_dir (o o' : gmap string pyval) :
  o !! "local_settings" = o' !! "local_settings" ->
  respects eq (append_local_settings self app_dir o)
              (append_local_settings self app_dir o').
Proof.
  intros H. unfold append_local_settings, print_message.
  eapply respects_bind; [by apply respects_getitem_str |]. intros l ? <-.
  eapply respects_bind.
  { destruct (0 <? String.length l)%nat;
      [apply respects_exists | by apply respects_ret]. }
  intros wanted ? <-. destruct wanted; [|by apply respects_ret].
  apply respects_seq; [apply respects_print |].
  apply respects_seq; [apply respects_open_append |].
  eapply respects_bind; [apply respects_read_file |]. intros content content' _.
  apply respects_seq; [apply respects_append_text | apply respects_print].
Qed.

Lemma respects_create_new_django_app E self app_name (o o' : gmap string pyval) :
  o !! "dir_name" = o' !! "dir_name" ->
  o !! "local_settings" = o' !! "local_settings" ->
  respects any (_create_new_django_app E self app_name o)
               (_create_new_django_app E self app_name o').
Proof.
  intros Hdir Hlocal. unfold _create_new_django_app.
  eapply respects_bind; [by apply respects_getitem |]. intros site ? <-.
  eapply respects_bind.
  { apply respects_getitem_str. by rewrite !lookup_insert_ne. }
  intros dir_name ? <-.
  apply respects_seq.
  { apply respects_for_each. intros d. apply respects_create_path. }
  apply respects_seq; [apply respects_install_copy |].
  apply respects_seq; [apply respects_install_render |].
  apply respects_seq; [|by apply respects_ret].
  apply respects_append_local_settings. by rewrite !lookup_insert_ne.
Qed.

Lemma respects_deploy_files E self create_new_project (o o' : gmap string pyval) :
  o !! "dir_name" = o' !! "dir_name" ->
  o !! "logfile_name" = o' !! "logfile_name" ->
  o !! "local_settings" = o' !! "local_settings" ->
  respects any (deploy_files E self create_new_project o)
               (deploy_files E self create_new_project o').
Proof.
  intros Hdir Hlog Hlocal. unfold deploy_files, print_message.
  apply respects_seq.
  { destruct create_new_project; [|by apply respects_ret].
    eapply respects_bind.
    { apply respects_getitem_str. by rewrite !lookup_insert_ne. }
    intros dir_name ? <-. apply respects_create_new_django_project.
    by rewrite !lookup_insert_ne. }
  eapply respects_bind.
  { apply respects_create_new_django_app; by rewrite !lookup_insert_ne. }
  intros options options' _.
  apply respects_seq; [|by apply respects_ret].
  destruct create_new_project; apply respects_print.
Qed.

(** The steps of the installer remove nothing. *)
Lemma keeps_paths_ret {A} (a : A) : keeps_paths (ret a).
Proof. intros s. apply grows_refl. Qed.

Lemma keeps_paths_bind {A B} (c : M A) (k : A -> M B) :
  keeps_paths c -> (forall a, keeps_paths (k a)) -> keeps_paths (bind c k).
Proof.
  intros Hc Hk s. unfold bind. specialize (Hc s).
  destruct (c s) as [s1 [a|e]]; [|done].
  eapply grows_trans; [exact Hc | apply Hk].
Qed.

Lemma keeps_paths_for_each {A} (l : list A) (body : A -> M unit) :
  (forall x, keeps_paths (body x)) -> keeps_paths (for_each l body).
Proof.
  intros Hbody. induction l as [|x l IH]; [apply keeps_paths_ret |].
  apply keeps_paths_bind; [apply Hbody | by intros _].
Qed.

Lemma keeps_paths_print msg : keeps_paths (print msg).
Proof. intros s. apply grows_refl. Qed.

Lemma keeps_paths_exists p : keeps_paths (os_path_exists p).
Proof. intros s. apply grows_refl. Qed.

Lemma keeps_paths_shutil_copy src dst : keeps_paths (shutil_copy src dst).
Proof.
  intros s. destruct (shutil_copy_cases src dst s) as [(c & Hsrc & _ & Hdir & ->)|(e & -> & _)];
    [|apply grows_refl].
  cbn [fst fs set_fs].
  destruct (fs s !! copy_target (fs s) src dst) as [[c'|]|] eqn:Ht.
  - by eapply grows_insert_file.
  - done.
  - by apply grows_insert_new.
Qed.

Lemma keeps_paths_write_file p text : keeps_paths (write_file p text).
Proof.
  intros s. unfold write_file. destruct (fs s !! p) as [[c|]|] eqn:Hp; cbn [fst fs set_fs].
  - by eapply grows_insert_file.
  - apply grows_refl.
  - by apply grows_insert_new.
Qed.

Lemma keeps_paths_install_copy self copy_list forced skip :
  keeps_paths (_install_copy self copy_list forced skip).
Proof.
  unfold _install_copy, print_message.
  apply keeps_paths_bind; [apply keeps_paths_print | intros _].
  apply keeps_paths_bind; [| intros _; apply keeps_paths_print].
  apply keeps_paths_for_each. intros [src dst]. unfold _install_copy_body, print_message.
  apply keeps_paths_bind; [apply keeps_paths_print | intros _].
  apply keeps_paths_bind; [apply keeps_paths_exists | intros present].
  destruct (negb present); [apply keeps_paths_shutil_copy |].
  destruct (forced_dst forced dst).
  { apply keeps_paths_bind; [apply keeps_paths_print | intros _; apply keeps_paths_shutil_copy]. }
  destruct (negb _); [apply keeps_paths_print | apply keeps_paths_ret].
Qed.

Lemma keeps_paths_install_render E self render_list context :
  keeps_paths (_install_render_with_jinja2 E self render_list context).
Proof.
  unfold _install_render_with_jinja2, print_message.
  apply keeps_paths_bind; [apply keeps_paths_print | intros _].
  apply keeps_paths_bind; [| intros _; apply keeps_paths_print].
  apply keeps_paths_for_each. intros [src dst]. unfold _install_render_body, print_message.
  apply keeps_paths_bind; [apply keeps_paths_exists | intros present].
  destruct present; [apply keeps_paths_print |].
  apply keeps_paths_bind; [apply keeps_paths_print | intros _; apply keeps_paths_write_file].
Qed.

Lemma create_path_exists d s : path_exists (fs (fst (create_path d s))) d = true.
Proof.
  unfold create_path, path_exists. destruct (fs s !! d) eqn:Hd; cbn [fst fs set_fs].
  - by rewrite Hd.
  - by rewrite lookup_insert_eq.
Qed.

(** Once [_create_new_django_app] is over, the directory it was told to make
    is there. *)
Lemma create_new_django_app_makes_dir E self app_name (options : gmap string pyval) dir s :
  options !! "dir_name" = Some (PStr dir) ->
  path_exists (fs (fst (_create_new_django_app E self app_name options s)))
              (join dir app_name) = true.
Proof.
  intros Hdir. unfold _create_new_django_app.
  erewrite bind_Ok by by apply getitem_Some.
  erewrite bind_Ok.
  2: { apply getitem_str_Some. by rewrite !lookup_insert_ne. }
  assert (for_each [join dir app_name] create_path s
          = (fst (create_path (join dir app_name) s), Ok tt)) as Hmade.
  { cbn [for_each]. unfold bind.
    destruct (create_path_run (join dir app_name) s) as [Hr _].
    destruct (create_path (join dir app_name) s) as [s1 r]. cbn [fst snd] in *. by subst r. }
  erewrite bind_Ok by exact Hmade.
  eapply grows_exists; [|apply create_path_exists].
  apply keeps_paths_bind; [apply keeps_paths_install_copy | intros _].
  apply keeps_paths_bind; [apply keeps_paths_install_render | intros _].
  apply keeps_paths_bind; [| intros _; apply keeps_paths_ret].
  intros t. apply append_local_settings_grows.
Qed.

Lemma deploy_files_makes_app_dir E self create_new_project (options : gmap string pyval) dir s :
  options !! "dir_name" = Some (PStr dir) ->
  is_ok (snd (deploy_files E self create_new_project options s)) = true ->
  path_exists (fs (fst (deploy_files E self create_new_project options s)))
              (join dir "askbot_app") = true.
Proof.
  intros Hdir. unfold deploy_files.
  match goal with |- context [bind ?c _ s] => destruct (c s) as [s1 [[]|e]] eqn:Hproject end.
  2: { erewrite bind_Raised by exact Hproject. done. }
  erewrite bind_Ok by exact Hproject.
  match goal with |- context [bind (_create_new_django_app E self _ ?o) _ s1] =>
    assert (o !! "dir_name" = Some (PStr dir)) as Hdir' by (by rewrite !lookup_insert_ne);
    pose proof (create_new_django_app_makes_dir E self "askbot_app" o dir s1 Hdir') as Hmade;
    destruct (_create_new_django_app E self "askbot_app" o s1) as [s2 [o2|e]] eqn:Happ
  end.
  2: { erewrite bind_Raised by exact Happ. done. }
  erewrite bind_Ok by exact Happ. intros _.
  cbn [fst] in Hmade.
  eapply grows_exists; [|exact Hmade].
  apply keeps_paths_bind; [| intros _; apply keeps_paths_ret].
  unfold print_message. destruct create_new_project; apply keeps_paths_print.
Qed.

Lemma deploy_askbot_no_dir_raises E self (options : gmap string pyval) s :
  (forall dir, options !! "dir_name" <> Some (PStr dir)) ->
  fst (deploy_askbot E self options s) = s
  /\ is_ok (snd (deploy_askbot E self options s)) = false.
Proof.
  intros Hdir. unfold deploy_askbot, getitem_str, getitem, bind.
  destruct (options !! "dir_name") as [[| | |dir]|]; try done.
  by destruct (Hdir dir).
Qed.

(** C10. Whatever [--app-name] holds, [deploy_askbot] makes the same paths,
    files as files and directories as directories, prints the same messages
    and returns or raises alike: the option decides no destination path (it
    can only reach the text of the rendered files, through the template
    context). When the run returns, the application directory is there under
    the name [askbot_app] in the project directory. *)
Theorem deploy_askbot_app_name_ignored E self (options : gmap string pyval) v s :
  let c := deploy_askbot E self options in
  let c' := deploy_askbot E self (<["app_name" := v]> options) in
  shape (fs (exec c' s)) = shape (fs (exec c s))
  /\ stdout (exec c' s) = stdout (exec c s)
  /\ is_ok (result c' s) = is_ok (result c s)
  /\ forall dir, options !! "dir_name" = Some (PStr dir) ->
       is_ok (result c s) = true ->
       path_exists (fs (exec c s)) (join dir "askbot_app") = true.
Proof.
  intros c c'. unfold exec, result, c, c'. clear c c'.
  assert (sim (fst (deploy_askbot E self (<["app_name" := v]> options) s))
              (fst (deploy_askbot E self options s))
          /\ is_ok (snd (deploy_askbot E self (<["app_name" := v]> options) s))
             = is_ok (snd (deploy_askbot E self options s))) as [[Hshape Hout] Hres].
  { assert ((forall dir, options !! "dir_name" <> Some (PStr dir)) ->
            sim (fst (deploy_askbot E self (<["app_name" := v]> options) s))
                (fst (deploy_askbot E self options s))
            /\ is_ok (snd (deploy_askbot E self (<["app_name" := v]> options) s))
               = is_ok (snd (deploy_askbot E self options s))) as Hno.
    { intros Hno. destruct (deploy_askbot_no_dir_raises E self options s Hno) as [-> ->].
      destruct (deploy_askbot_no_dir_raises E self (<["app_name" := v]> options) s)
        as [-> ->]; [| split; [apply sim_refl | done]].
      intros dir. rewrite lookup_insert_ne by done. apply Hno. }
    destruct (options !! "dir_name") as [[| | |dir]|] eqn:Hdir; try (by apply Hno).
    rewrite (deploy_askbot_eq E self options dir s Hdir).
    rewrite (deploy_askbot_eq E self (<["app_name" := v]> options) dir s)
      by by rewrite lookup_insert_ne.
    destruct (_ && _); [split; [apply sim_refl | done] |].
    destruct (respects_deploy_files E self true (<["app_name" := v]> options) options)
      with (s := s) (s' := s) as [Hsim Hany];
      [by rewrite lookup_insert_ne .. | apply sim_refl |].
    split; [exact Hsim |].
    destruct (snd (deploy_files E self true (<["app_name" := v]> options) s)),
             (snd (deploy_files E self true options s)); done. }
  repeat split; [exact Hshape | exact Hout | exact Hres |].
  intros dir Hdir. rewrite (deploy_askbot_eq E self options dir s Hdir).
  destruct (_ && _); [done |]. by apply deploy_files_makes_app_dir.
Qed.

Lemma deploy_askbot_app_name_ignored_witness :
  let s := Demo.start Demo.templates [] in
  let c := deploy_askbot Demo.env Demo.setup Demo.defaults in
  Demo.defaults !! "dir_name" = Some (PStr "/srv/site")
  /\ is_ok (result c s) = true
  /\ path_exists (fs (exec c s)) "/srv/site/askbot_app" = true.
Proof.
  intros s c.
  assert (Demo.defaults !! "dir_name" = Some (PStr "/srv/site")) as Hdir
    by (vm_compute; reflexivity).
  assert (is_ok (result c s) = true) as Hres by (vm_compute; reflexivity).
  split; [exact Hdir |]. split; [exact Hres |].
  exact (proj2 (proj2 (proj2
    (deploy_askbot_app_name_ignored Demo.env Demo.setup Demo.defaults (PStr "forum") s)))
    "/srv/site" Hdir Hres).
Defined.

(** With [--app-name forum] the directory made is still [askbot_app], and
    nothing is made under the name given. *)
Example app_name_forum_not_made :
  let options := <["app_name" := PStr "forum"]> Demo.defaults in
  let final := fs (exec (deploy_askbot Demo.env Demo.setup options)
                        (Demo.start Demo.templates [])) in
  final !! "/srv/site/askbot_app" = Some Dir
  /\ final !! "/srv/site/forum" = None
  /\ final !! "/srv/site/askbot_app/settings.py" =
       Some (File "# from /opt/askbot/setup_templates/settings.py.jinja2 for forum").
Proof. intros options final. repeat split; vm_compute; reflexivity. Qed.

(** * Further properties: the resolution of the options *)

Lemma bind_Raised_inv {A B} (c : M A) (k : A -> M B) s s' e :
  bind c k s = (s', Raised e) ->
  c s = (s', Raised e) \/ exists s1 a, c s = (s1, Ok a) /\ k a s1 = (s', Raised e).
Proof.
  unfold bind. destruct (c s) as [s1 [a|e1]]; [by eauto |]. intros [= -> ->]. by left.
Qed.

Lemma ask_until_valid prompt valid answers out out' rest r :
  ask_until prompt valid answers out = (out', rest, Ok r) -> valid r = true.
Proof.
  revert out. induction answers as [|a answers IH]; intros out; simpl; [done |].
  destruct (valid a) eqn:Hv; [|by apply IH]. by intros [= _ _ <-].
Qed.

Lemma ask_Ok_valid prompt valid s s' r :
  ask prompt valid s = (s', Ok r) -> valid r = true.
Proof.
  unfold ask. destruct (ask_until _ _ _ _) as [[out rest] o] eqn:H.
  intros [= _ ->]. by eapply ask_until_valid.
Qed.

Lemma ask_until_EOFError prompt valid answers out out' rest e :
  ask_until prompt valid answers out = (out', rest, Raised e) -> e = EOFError.
Proof.
  revert out. induction answers as [|a answers IH]; intros out; simpl.
  - by intros [= _ _ <-].
  - destruct (valid a); [done | by apply IH].
Qed.

Lemma ask_until_console prompt valid answers out out' rest r :
  ask_until prompt valid answers out = (out', rest, r) ->
  rest `suffix_of` answers /\ out `prefix_of` out'.
Proof.
  revert out. induction answers as [|a answers IH]; intros out; simpl.
  - intros [= <- <- _]. split; [done | by apply prefix_app_r].
  - destruct (valid a).
    + intros [= <- <- _]. split; [by apply suffix_cons_r | by apply prefix_app_r].
    + intros H. apply IH in H as [H1 H2]. split; [by apply suffix_cons_r |].
      etrans; [|exact H2]. by apply prefix_app_r.
Qed.

(** ** Computations that work on the console only *)

Lemma console_only_ret {A} (a : A) : console_only (ret a).
Proof. done. Qed.

Lemma console_only_raise {A} e : console_only (raise (A := A) e).
Proof. done. Qed.

Lemma console_only_bind {A B} (c : M A) (k : A -> M B) :
  console_only c -> (forall a, console_only (k a)) -> console_only (bind c k).
Proof.
  intros Hc Hk s. unfold bind. destruct (Hc s) as (Hf & Hin & Hout).
  destruct (c s) as [s1 [a|e]]; [|done]. cbn [fst] in *.
  destruct (Hk a s1) as (Hf' & Hin' & Hout').
  split; [congruence |]. split; by etrans.
Qed.

Lemma console_only_print msg : console_only (print msg).
Proof. intros s. cbn. split; [done |]. split; [done | by apply prefix_app_r]. Qed.

Lemma console_only_ask prompt valid : console_only (ask prompt valid).
Proof.
  intros s. unfold ask. destruct (ask_until _ _ _ _) as [[out rest] r] eqn:H. cbn.
  split; [done |]. by eapply ask_until_console.
Qed.

Lemma console_only_getitem d key : console_only (getitem d key).
Proof. unfold getitem. destruct (d !! key); done. Qed.

Lemma console_only_namespace_getattr d name : console_only (namespace_getattr d name).
Proof. unfold namespace_getattr. destruct (d !! name); done. Qed.

Lemma console_only_random_key E : console_only (random_key E).
Proof. done. Qed.

Lemma console_only_sqlite_name_turn E : console_only (sqlite_name_turn E).
Proof.
  unfold sqlite_name_turn, simple_dialog, get_yes_or_no, choice_dialog.
  apply console_only_bind; [apply console_only_ask | intros value].
  apply console_only_bind; [done | intros is_file]. destruct is_file.
  { apply console_only_bind; [apply console_only_ask | intros answer].
    by destruct (bool_decide _). }
  apply console_only_bind; [done | intros is_dir].
  repeat (match goal with |- console_only (if ?b then _ else _) => destruct b end);
    try (apply console_only_bind; [apply console_only_print | by intros _]); done.
Qed.

Lemma console_only_sqlite_name_loop E fuel o : console_only (sqlite_name_loop E fuel o).
Proof.
  induction fuel as [|fuel IH]; [done |]. simpl.
  apply console_only_bind; [apply console_only_sqlite_name_turn | intros [name|]]; [|done].
  by destruct (negb _).
Qed.

Lemma console_only_ask_db_keys keys o : console_only (ask_db_keys keys o).
Proof.
  revert o. induction keys as [|[key required] keys IH]; intros o; [done |]. simpl.
  apply console_only_bind; [apply console_only_getitem | intros current].
  destruct (bool_decide _); [|done].
  apply console_only_bind; [apply console_only_ask | by intros value].
Qed.

Lemma console_only_collect_missing_options E o :
  console_only (collect_missing_options E o).
Proof.
  unfold collect_missing_options.
  apply console_only_bind; [apply console_only_getitem | intros nk].
  apply console_only_bind; [by destruct (py_truthy nk) | intros key].
  apply console_only_bind; [apply console_only_getitem | intros eng].
  destruct (py_eq _ _); [|apply console_only_ask_db_keys].
  apply console_only_bind; [apply console_only_getitem | intros name].
  destruct (py_truthy name); [done |].
  intros s. unfold sqlite_database_name. apply console_only_sqlite_name_loop.
Qed.

Lemma console_only_select_database_engine o : console_only (select_database_engine o).
Proof.
  unfold select_database_engine, choice_dialog.
  apply console_only_bind; [apply console_only_namespace_getattr | intros v].
  destruct (negb _); [|done].
  apply console_only_bind; [apply console_only_ask | by intros c].
Qed.

Lemma console_only_engine_of_code code : console_only (engine_of_code code).
Proof. unfold engine_of_code. destruct code; try done. by destruct (_ !! _). Qed.

Lemma console_only_resolve_options E o directory :
  console_only (resolve_options E o directory).
Proof.
  unfold resolve_options.
  apply console_only_bind; [apply console_only_select_database_engine | intros o1].
  apply console_only_bind; [apply console_only_namespace_getattr | intros force].
  apply console_only_bind.
  { destruct (is_False force); [apply console_only_collect_missing_options | done]. }
  intros o2.
  apply console_only_bind; [apply console_only_namespace_getattr | intros code].
  apply console_only_bind; [apply console_only_engine_of_code | by intros name].
Qed.

(** ** The database options after [collect_missing_options] *)





(** What [collect_missing_options] does before its two branches. *)
Lemma collect_missing_options_Ok_inv E (o : gmap string pyval) s s' o' :
  collect_missing_options E o s = (s', Ok o') ->
  exists nk key eng s1,
    o !! "no_secret_key" = Some nk
    /\ fs s1 = fs s /\ stdin s1 = stdin s /\ stdout s1 = stdout s
    /\ <["secret_key" := PStr key]> o !! "database_engine" = Some eng
    /\ (if py_eq eng (PStr "2") then
          exists name, <["secret_key" := PStr key]> o !! "database_name" = Some name
            /\ (if py_truthy name
                then s' = s1 /\ o' = <["secret_key" := PStr key]> o
                else sqlite_database_name E (<["secret_key" := PStr key]> o) s1 = (s', Ok o'))
        else ask_db_keys db_keys (<["secret_key" := PStr key]> o) s1 = (s', Ok o')).
Proof.
  unfold collect_missing_options. intros H.
  apply bind_Ok_inv in H as (s0 & nk & Hnk & H).
  apply getitem_Ok_inv in Hnk as [-> Hnk].
  apply bind_Ok_inv in H as (s1 & key & Hkey & H).
  apply bind_Ok_inv in H as (s2 & eng & Heng & H).
  apply getitem_Ok_inv in Heng as [-> Heng].
  exists nk, key, eng, s1. split; [done |].
  assert (fs s1 = fs s /\ stdin s1 = stdin s /\ stdout s1 = stdout s) as (? & ? & ?).
  { destruct (py_truthy nk).
    - by apply ret_inv in Hkey as [-> _].
    - unfold random_key in Hkey. by injection Hkey as <- _. }
  do 4 (split; [done |]).
  destruct (py_eq eng (PStr "2")); [|done].
  apply bind_Ok_inv in H as (s3 & name & Hname & H).
  apply getitem_Ok_inv in Hname as [-> Hname]. exists name. split; [done |].
  destruct (py_truthy name); [|done]. by apply ret_inv in H as [-> ->].
Qed.

Lemma py_eq_PStr v code : py_eq v (PStr code) = true <-> v = PStr code.
Proof.
  destruct v; simpl; try (split; [done | by intros [=]]).
  rewrite bool_decide_eq_true. split; [by intros -> | by intros [= ->]].
Qed.



Lemma ask_db_keys_given keys (o : gmap string pyval) s :
  Forall (fun key => exists v, o !! key = Some v /\ v <> PNone) keys.*1 ->
  ask_db_keys keys o s = (s, Ok o).
Proof.
  induction keys as [|[k r] keys IH]; [done |].
  rewrite fmap_cons. intros H. apply List.Forall_cons_iff in H as [(v & Hv & Hne) H].
  simpl. erewrite bind_Ok by by apply getitem_Some.
  rewrite bool_decide_eq_false_2 by done. by apply IH.
Qed.

(** X5. For an engine other than sqlite, when none of the five database
    options is [None], [collect_missing_options] asks nothing: no answer is
    taken, nothing is printed, and the mapping it returns differs from the
    one it was given by the secret key only. *)
Theorem collect_missing_options_nothing_missing E (o : gmap string pyval) eng nk s :
  o !! "no_secret_key" = Some nk ->
  o !! "database_engine" = Some eng ->
  eng <> PStr "2" ->
  Forall (fun key => exists v, o !! key = Some v /\ v <> PNone) db_keys.*1 ->
  let run := collect_missing_options E o s in
  fs (fst run) = fs s /\ stdin (fst run) = stdin s /\ stdout (fst run) = stdout s
  /\ snd run =
       Ok (<["secret_key" :=
               PStr (if py_truthy nk then EmptyString
                     else generate_random_key E (rng s))]> o).
Proof.
  intros Hnk Heng Hother Hgiven run. unfold run, collect_missing_options.
  erewrite bind_Ok by by apply getitem_Some.
  assert (forall key s1,
            ask_db_keys db_keys (<["secret_key" := PStr key]> o) s1
            = (s1, Ok (<["secret_key" := PStr key]> o))) as Hask.
  { intros key s1. apply ask_db_keys_given.
    eapply List.Forall_impl; [|exact Hgiven].
    intros k (v & Hv & Hne). destruct (decide (k = "secret_key")) as [->|Hk].
    - exists (PStr key). by rewrite lookup_insert_eq.
    - exists v. by rewrite lookup_insert_ne. }
  destruct (py_eq eng (PStr "2")) eqn:Heq; [by apply py_eq_PStr in Heq |].
  destruct (py_truthy nk).
  - rewrite bind_ret. erewrite bind_Ok by (apply getitem_Some; by rewrite lookup_insert_ne).
    rewrite Heq, Hask. cbn [fst snd]. repeat split; reflexivity.
  - erewrite (bind_Ok (random_key E)) by reflexivity.
    erewrite bind_Ok by (apply getitem_Some; by rewrite lookup_insert_ne).
    rewrite Heq, Hask. cbn [fst snd]. repeat split; reflexivity.
Qed.

Lemma collect_missing_options_nothing_missing_witness :
  let o := <["database_port" := PInt 5432]>
             (<["database_host" := PStr "db"]>
                (<["database_password" := PStr "secret"]>
                   (<["database_user" := PStr "bot"]>
                      (<["database_name" := PStr "askbot"]>
                         (<["database_engine" := PStr "1"]> Demo.defaults))))) in
  let s := Demo.start ∅ ["unused"] in
  stdin (exec (collect_missing_options Demo.env o) s) = ["unused"]
  /\ stdout (exec (collect_missing_options Demo.env o) s) = [].
Proof.
  intros o s.
  destruct (collect_missing_options_nothing_missing Demo.env o (PStr "1") (PBool false) s)
    as (_ & Hin & Hout & _).
  - by vm_compute.
  - by vm_compute.
  - discriminate.
  - apply List.Forall_cons; [exists (PStr "askbot"); split; [by vm_compute | discriminate] |].
    apply List.Forall_cons; [exists (PStr "bot"); split; [by vm_compute | discriminate] |].
    apply List.Forall_cons; [exists (PStr "secret"); split; [by vm_compute | discriminate] |].
    apply List.Forall_cons; [exists (PStr "db"); split; [by vm_compute | discriminate] |].
    apply List.Forall_cons; [exists (PInt 5432); split; [by vm_compute | discriminate] |].
    apply List.Forall_nil.
  - split; [exact Hin | exact Hout].
Defined.

(** ** The sqlite branch *)

Lemma sqlite_name_loop_named E fuel (o : gmap string pyval) s s' o' :
  sqlite_name_loop E fuel o s = (s', Ok o') ->
  exists name, name <> EmptyString /\ o' = <["database_name" := PStr name]> o.
Proof.
  revert s. induction fuel as [|fuel IH]; intros s H; [done |].
  simpl in H. apply bind_Ok_inv in H as (s1 & [name|] & _ & H); [|by eapply IH].
  destruct (bool_decide (name = EmptyString)) eqn:Hname; cbn [negb] in H; [by eapply IH |].
  apply ret_inv in H as [_ ->]. apply bool_decide_eq_false in Hname. eauto.
Qed.

(** X6. With sqlite as the engine, [collect_missing_options] settles the
    database name only: on return the name is a value that counts as true (the
    one given, kept without a question, or a non-empty answer), and every
    option but the name and the secret key is as it was, so that the user, the
    password, the host and the port are never asked for. *)
Theorem collect_missing_options_sqlite E (o : gmap string pyval) s s' o' :
  o !! "database_engine" = Some (PStr "2") ->
  collect_missing_options E o s = (s', Ok o') ->
  (forall k, k <> "secret_key" -> k <> "database_name" -> o' !! k = o !! k)
  /\ (exists v, o' !! "database_name" = Some v /\ py_truthy v = true)
  /\ (forall v, o !! "database_name" = Some v -> py_truthy v = true ->
        o' !! "database_name" = Some v
        /\ stdin s' = stdin s /\ stdout s' = stdout s).
Proof.
  intros Heng H.
  apply collect_missing_options_Ok_inv in H
    as (nk & secret & eng & s1 & _ & _ & Hin & Hout & Heng' & H).
  rewrite lookup_insert_ne, Heng in Heng' by done. injection Heng' as <-.
  cbn [py_eq] in H. rewrite bool_decide_eq_true_2 in H by done.
  destruct H as (name & Hname & H). rewrite lookup_insert_ne in Hname by done.
  destruct (py_truthy name) eqn:Htruthy.
  - destruct H as [-> ->]. split; [|split].
    + intros k Hk _. by rewrite lookup_insert_ne.
    + exists name. by rewrite lookup_insert_ne.
    + intros v Hv _. rewrite lookup_insert_ne by done. split; [congruence | done].
  - unfold sqlite_database_name in H.
    apply sqlite_name_loop_named in H as (answer & Hne & ->). split; [|split].
    + intros k Hk1 Hk2. by rewrite !lookup_insert_ne.
    + exists (PStr answer). rewrite lookup_insert_eq. split; [done |].
      cbn. by rewrite bool_decide_eq_false_2.
    + intros v Hv Hv'. congruence.
Qed.

Lemma collect_missing_options_sqlite_witness :
  let o := <["database_engine" := PStr "2"]> Demo.defaults in
  match result (collect_missing_options Demo.env o)
          (Demo.start ∅ [""; "askbot.db"]) with
  | Ok o' => o' !! "database_user" = Some PNone
             /\ exists v, o' !! "database_name" = Some v /\ py_truthy v = true
  | Raised _ => False
  end.
Proof.
  intros o.
  destruct (collect_missing_options Demo.env o (Demo.start ∅ [""; "askbot.db"]))
    as [s' [o'|e]] eqn:Hrun.
  2: { apply (f_equal (fun r => is_ok (snd r))) in Hrun. vm_compute in Hrun.
       discriminate Hrun. }
  unfold result. rewrite Hrun. cbn [snd].
  destruct (collect_missing_options_sqlite Demo.env o _ _ _ ltac:(by vm_compute) Hrun)
    as (Hsame & Hname & _).
  split; [|exact Hname]. rewrite Hsame by done. by vm_compute.
Defined.

(** ** The engine and the resolved options *)

Lemma py_in_PStr v (codes : list string) :
  py_in v (map PStr codes) = true -> exists code, code ∈ codes /\ v = PStr code.
Proof.
  unfold py_in. induction codes as [|c codes IH]; [done |]. simpl.
  intros H. apply orb_prop in H as [H|H].
  - apply py_eq_PStr in H. exists c. split; [by left | done].
  - destruct (IH H) as (code & Hin & ->). exists code. split; [by right | done].
Qed.

Lemma select_database_engine_Ok_inv (o : gmap string pyval) s s' o' :
  select_database_engine o s = (s', Ok o') ->
  exists code, code ∈ DATABASE_ENGINE_CHOICES
               /\ o' = <["database_engine" := PStr code]> o.
Proof.
  unfold select_database_engine. intros H.
  apply bind_Ok_inv in H as (s1 & v & Hv & H).
  apply namespace_getattr_Ok_inv in Hv as [-> Hv].
  destruct (py_in v (map PStr DATABASE_ENGINE_CHOICES)) eqn:Hin; cbn [negb] in H.
  - apply ret_inv in H as [-> ->]. apply py_in_PStr in Hin as (code & Hcode & ->).
    exists code. split; [done |]. by rewrite insert_id.
  - apply bind_Ok_inv in H as (s1 & choice & Hask & H). apply ret_inv in H as [-> ->].
    exists choice. split; [|done].
    apply ask_Ok_valid in Hask. by apply bool_decide_eq_true in Hask.
Qed.

(** X2. When [select_database_engine] returns, the engine option is one of
    the codes of [DATABASE_ENGINE_CHOICES], as a string, whatever it held
    before (a value that is not one of them is replaced by the operator's
    choice), and no other option has changed. *)
Theorem select_database_engine_chooses (o : gmap string pyval) s s' o' :
  select_database_engine o s = (s', Ok o') ->
  (exists code, code ∈ DATABASE_ENGINE_CHOICES
                /\ o' !! "database_engine" = Some (PStr code))
  /\ (forall k, k <> "database_engine" -> o' !! k = o !! k)
  /\ fs s' = fs s.
Proof.
  intros H. pose proof (console_only_select_database_engine o s) as (Hfs & _).
  rewrite H in Hfs. split; [|split; [|exact Hfs]].
  - apply select_database_engine_Ok_inv in H as (code & Hcode & ->).
    exists code. by rewrite lookup_insert_eq.
  - by apply select_database_engine_other in H as [_ H].
Qed.

Lemma select_database_engine_chooses_witness :
  match result (select_database_engine (<["database_engine" := PInt 7]> Demo.defaults))
          (Demo.start ∅ ["7"; "sqlite"; "2"]) with
  | Ok o' => exists code, code ∈ DATABASE_ENGINE_CHOICES
                          /\ o' !! "database_engine" = Some (PStr code)
  | Raised _ => False
  end.
Proof.
  destruct (select_database_engine (<["database_engine" := PInt 7]> Demo.defaults)
              (Demo.start ∅ ["7"; "sqlite"; "2"])) as [s' [o'|e]] eqn:Hrun.
  2: { apply (f_equal (fun r => is_ok (snd r))) in Hrun. vm_compute in Hrun.
       discriminate Hrun. }
  unfold result. rewrite Hrun. cbn [snd].
  exact (proj1 (select_database_engine_chooses _ _ _ _ Hrun)).
Defined.

(** X3. The resolution of the options works on the console only: whatever
    the options and the answers are, and whether it returns or raises,
    [resolve_options] (and in it [collect_missing_options]) leaves the
    filesystem as it is; it takes answers from the front of the input and
    adds its questions after what was printed. *)
Theorem resolve_options_console_only E (o : gmap string pyval) directory s :
  let after := exec (resolve_options E o directory) s in
  fs after = fs s
  /\ stdin after `suffix_of` stdin s
  /\ stdout s `prefix_of` stdout after.
Proof. apply console_only_resolve_options. Qed.

Lemma collect_missing_options_other E (o : gmap string pyval) s s' o' k :
  collect_missing_options E o s = (s', Ok o') ->
  k <> "secret_key" -> k ∉ db_keys.*1 -> o' !! k = o !! k.
Proof.
  intros H Hsecret Hdb.
  apply collect_missing_options_Ok_inv in H
    as (nk & secret & eng & s1 & _ & _ & _ & _ & _ & H).
  rewrite <- (lookup_insert_ne o "secret_key" k (PStr secret)) by done.
  destruct (py_eq eng (PStr "2")).
  - destruct H as (name & _ & H). destruct (py_truthy name).
    + by destruct H as [_ ->].
    + unfold sqlite_database_name in H. eapply sqlite_name_loop_other; [done |].
      intros ->. apply Hdb. apply (bool_decide_unpack _). by vm_compute.
  - by eapply ask_db_keys_other.
Qed.

Lemma engine_of_code_Ok_inv v s s' name :
  engine_of_code v s = (s', Ok name) ->
  exists code, v = PStr code /\ (code, name) ∈ database_engine_codes.
Proof.
  unfold engine_of_code. destruct v as [| | |code]; try done.
  destruct (list_to_map database_engine_codes !! code) as [n|] eqn:Hn; [|done].
  intros H. apply ret_inv in H as [_ ->]. exists code. split; [done |].
  by apply elem_of_list_to_map_2 in Hn.
Qed.

Lemma resolve_options_Ok_inv E (o : gmap string pyval) directory s s' od od2 eng :
  resolve_options E o directory s = (s', Ok (od, od2, eng)) ->
  exists code,
    (code, eng) ∈ database_engine_codes
    /\ od2 = <["database_engine" := PStr code]> (<["dir_name" := PStr directory]> o)
    /\ od !! "database_engine" = Some (PStr eng)
    /\ od !! "dir_name" = Some (PStr directory).
Proof.
  unfold resolve_options. intros H.
  apply bind_Ok_inv in H as (s1 & o1 & Hsel & H).
  apply select_database_engine_Ok_inv in Hsel as (code & Hcode & ->).
  apply bind_Ok_inv in H as (s2 & force & _ & H).
  apply bind_Ok_inv in H as (s3 & o2 & Hcollect & H).
  apply bind_Ok_inv in H as (s4 & v & Hv & H).
  apply namespace_getattr_Ok_inv in Hv as [-> Hv].
  apply bind_Ok_inv in H as (s5 & name & Hname & H).
  apply ret_inv in H as [-> [= -> -> ->]].
  assert (forall k, k <> "secret_key" -> k ∉ db_keys.*1 ->
            o2 !! k = <["database_engine" := PStr code]>
                        (<["dir_name" := PStr directory]> o) !! k) as Hsame.
  { intros k Hk1 Hk2. destruct (is_False force).
    - by eapply collect_missing_options_other.
    - by apply ret_inv in Hcollect as [_ ->]. }
  rewrite Hsame, lookup_insert_eq in Hv; [|done |].
  2: { apply (bool_decide_unpack _). by vm_compute. }
  injection Hv as <-.
  apply engine_of_code_Ok_inv in Hname as (code' & [= <-] & Hpair).
  exists code. split; [done |]. split; [done |].
  rewrite lookup_insert_eq, lookup_insert_ne by done. split; [done |].
  rewrite Hsame, lookup_insert_ne, lookup_insert_eq; [done | done | done |].
  apply (bool_decide_unpack _). by vm_compute.
Qed.

(** X7. When [resolve_options] returns, the copy [options_dict_2] is the
    parsed options with the directory and the chosen engine code and nothing
    else (no secret key, no answer of the later questions), while
    [options_dict] holds the engine name that [database_engine_codes] gives
    for that code, which is also the [database_engine] returned. *)
Theorem resolve_options_engine E (o : gmap string pyval) directory s s' od od2 eng :
  resolve_options E o directory s = (s', Ok (od, od2, eng)) ->
  exists code,
    (code, eng) ∈ database_engine_codes
    /\ od2 = <["database_engine" := PStr code]> (<["dir_name" := PStr directory]> o)
    /\ od !! "database_engine" = Some (PStr eng)
    /\ od !! "dir_name" = Some (PStr directory).
Proof. apply resolve_options_Ok_inv. Qed.

Lemma resolve_options_engine_witness :
  match result (resolve_options Demo.env Demo.defaults "/srv/site")
          (Demo.start ∅ ["3"; "askbot"; "bot"; "secret"; ""; ""]) with
  | Ok (od, od2, eng) =>
      exists code, (code, eng) ∈ database_engine_codes
                   /\ od2 !! "database_engine" = Some (PStr code)
                   /\ od2 !! "secret_key" = None
                   /\ od !! "database_engine" = Some (PStr eng)
  | Raised _ => False
  end.
Proof.
  destruct (resolve_options Demo.env Demo.defaults "/srv/site"
              (Demo.start ∅ ["3"; "askbot"; "bot"; "secret"; ""; ""]))
    as [s' [[[od od2] eng]|e]] eqn:Hrun.
  2: { apply (f_equal (fun r => is_ok (snd r))) in Hrun. vm_compute in Hrun.
       discriminate Hrun. }
  unfold result. rewrite Hrun. cbn [snd].
  destruct (resolve_options_engine _ _ _ _ _ _ _ _ Hrun) as (code & Hpair & -> & Heng & _).
  exists code. split; [done |]. split; [by rewrite lookup_insert_eq |].
  split; [|done]. rewrite !lookup_insert_ne by done. by vm_compute.
Defined.

(** ** How the resolution can fail *)

Lemma fails_at_eof_ret {A} (a : A) : fails_at_eof (ret a).
Proof. by intros s s' e. Qed.

Lemma fails_at_eof_bind {A B} (c : M A) (k : A -> M B) :
  fails_at_eof c ->
  (forall s s1 a, c s = (s1, Ok a) -> fails_at_eof (k a)) ->
  fails_at_eof (bind c k).
Proof.
  intros Hc Hk s s' e H. apply bind_Raised_inv in H as [H|(s1 & a & Hrun & H)].
  - by eapply Hc.
  - by eapply Hk.
Qed.

Lemma fails_at_eof_print msg : fails_at_eof (print msg).
Proof. by intros s s' e. Qed.

Lemma fails_at_eof_getitem (d : gmap string pyval) key :
  is_Some (d !! key) -> fails_at_eof (getitem d key).
Proof. intros [v Hv] s s' e. unfold getitem. by rewrite Hv. Qed.

Lemma fails_at_eof_namespace_getattr (d : gmap string pyval) name :
  is_Some (d !! name) -> fails_at_eof (namespace_getattr d name).
Proof. intros [v Hv] s s' e. unfold namespace_getattr. by rewrite Hv. Qed.

Lemma ask_until_eof prompt valid answers out out' rest e :
  ask_until prompt valid answers out = (out', rest, Raised e) ->
  e = EOFError /\ rest = [].
Proof.
  revert out. induction answers as [|a answers IH]; intros out; simpl.
  - by intros [= _ <- <-].
  - destruct (valid a); [done | by apply IH].
Qed.

Lemma fails_at_eof_ask prompt valid : fails_at_eof (ask prompt valid).
Proof.
  intros s s' e. unfold ask. destruct (ask_until _ _ _ _) as [[out rest] r] eqn:H.
  intros [= <- ->]. cbn. by eapply ask_until_eof.
Qed.

Lemma fails_at_eof_sqlite_name_turn E : fails_at_eof (sqlite_name_turn E).
Proof.
  unfold sqlite_name_turn, simple_dialog, get_yes_or_no, choice_dialog.
  apply fails_at_eof_bind; [apply fails_at_eof_ask | intros s s1 value _].
  apply fails_at_eof_bind; [by intros ? ? ? | intros ? ? is_file _]. destruct is_file.
  { apply fails_at_eof_bind; [apply fails_at_eof_ask | intros ? ? answer _].
    destruct (bool_decide _); apply fails_at_eof_ret. }
  apply fails_at_eof_bind; [by intros ? ? ? | intros ? ? is_dir _].
  repeat (match goal with |- fails_at_eof (if ?b then _ else _) => destruct b end);
    try (apply fails_at_eof_bind;
         [apply fails_at_eof_print | intros ? ? _ _; apply fails_at_eof_ret]);
    apply fails_at_eof_ret.
Qed.

(** The loop of the name dialog does not run out of turns: with more turns
    than pending answers it fails at the end of the input only. *)
Lemma sqlite_name_loop_eof E fuel o s s' e :
  (length (stdin s) < fuel)%nat ->
  sqlite_name_loop E fuel o s = (s', Raised e) ->
  e = EOFError /\ stdin s' = [].
Proof.
  revert s. induction fuel as [|fuel IH]; intros s Hfuel H; [lia |].
  simpl in H. apply bind_Raised_inv in H as [H|(s1 & name & Hturn & H)].
  { by eapply fails_at_eof_sqlite_name_turn. }
  apply sqlite_name_turn_shorter in Hturn.
  assert (sqlite_name_loop E fuel o s1 = (s', Raised e)) as Hnext.
  { destruct name as [name|]; [|done]. by destruct (negb _). }
  apply (IH s1); [lia | exact Hnext].
Qed.

Lemma fails_at_eof_sqlite_database_name E o : fails_at_eof (sqlite_database_name E o).
Proof.
  intros s s' e H. unfold sqlite_database_name in H.
  eapply sqlite_name_loop_eof; [|done]. lia.
Qed.

Lemma fails_at_eof_ask_db_keys keys (o : gmap string pyval) :
  Forall (fun key => is_Some (o !! key)) keys.*1 ->
  fails_at_eof (ask_db_keys keys o).
Proof.
  revert o. induction keys as [|[k r] keys IH]; intros o H; [apply fails_at_eof_ret |].
  rewrite fmap_cons in H. apply List.Forall_cons_iff in H as [Hk H]. simpl.
  apply fails_at_eof_bind; [by apply fails_at_eof_getitem | intros ? ? current _].
  destruct (bool_decide _); [|by apply IH].
  apply fails_at_eof_bind; [apply fails_at_eof_ask | intros ? ? value _].
  apply IH. eapply List.Forall_impl; [|exact H].
  intros key. rewrite lookup_insert_is_Some'. tauto.
Qed.

Lemma fails_at_eof_collect_missing_options E (o : gmap string pyval) :
  is_Some (o !! "no_secret_key") ->
  is_Some (o !! "database_engine") ->
  Forall (fun key => is_Some (o !! key)) db_keys.*1 ->
  fails_at_eof (collect_missing_options E o).
Proof.
  intros Hnk Heng Hdb. unfold collect_missing_options.
  apply fails_at_eof_bind; [by apply fails_at_eof_getitem | intros ? ? nk _].
  apply fails_at_eof_bind.
  { destruct (py_truthy nk); [apply fails_at_eof_ret | by intros ? ? ?]. }
  intros ? ? key _.
  assert (Forall (fun k => is_Some (<["secret_key" := PStr key]> o !! k)) db_keys.*1)
    as Hdb'.
  { eapply List.Forall_impl; [|exact Hdb]. intros k. rewrite lookup_insert_is_Some'. tauto. }
  apply fails_at_eof_bind.
  { apply fails_at_eof_getitem. rewrite lookup_insert_is_Some'. tauto. }
  intros ? ? eng _. destruct (py_eq _ _); [|by apply fails_at_eof_ask_db_keys].
  apply fails_at_eof_bind.
  { apply fails_at_eof_getitem. by apply List.Forall_cons_iff in Hdb' as [? _]. }
  intros ? ? name _. destruct (py_truthy name); [apply fails_at_eof_ret |].
  apply fails_at_eof_sqlite_database_name.
Qed.

Lemma fails_at_eof_select_database_engine (o : gmap string pyval) :
  is_Some (o !! "database_engine") -> fails_at_eof (select_database_engine o).
Proof.
  intros H. unfold select_database_engine, choice_dialog.
  apply fails_at_eof_bind; [by apply fails_at_eof_namespace_getattr | intros ? ? v _].
  destruct (negb _); [|apply fails_at_eof_ret].
  apply fails_at_eof_bind; [apply fails_at_eof_ask | intros ? ? c _; apply fails_at_eof_ret].
Qed.

Lemma engine_of_code_choice code s :
  code ∈ DATABASE_ENGINE_CHOICES -> is_ok (snd (engine_of_code (PStr code) s)) = true.
Proof.
  unfold DATABASE_ENGINE_CHOICES. rewrite !elem_of_cons, elem_of_nil.
  intros [->|[->|[->|[->|[]]]]]; by vm_compute.
Qed.

Lemma parser_dests_lookup (o : gmap string pyval) key :
  Forall (fun k => is_Some (o !! k)) parser_dests ->
  bool_decide (key ∈ parser_dests) = true -> is_Some (o !! key).
Proof.
  intros H Hin. apply bool_decide_eq_true in Hin.
  rewrite List.Forall_forall in H. apply H. by apply list_elem_of_In.
Qed.

Lemma fails_at_eof_resolve_options E (o : gmap string pyval) directory :
  Forall (fun k => is_Some (o !! k)) parser_dests ->
  fails_at_eof (resolve_options E o directory).
Proof.
  intros Hkeys. unfold resolve_options.
  assert (forall key, bool_decide (key ∈ parser_dests) = true ->
            is_Some (<["dir_name" := PStr directory]> o !! key)) as Hdir.
  { intros key Hin. rewrite lookup_insert_is_Some'. right.
    by apply parser_dests_lookup. }
  apply fails_at_eof_bind.
  { apply fails_at_eof_select_database_engine. by apply Hdir. }
  intros s s1 o1 Hsel.
  apply select_database_engine_Ok_inv in Hsel as (code & Hcode & ->).
  assert (forall key, bool_decide (key ∈ parser_dests) = true ->
            is_Some (<["database_engine" := PStr code]>
                       (<["dir_name" := PStr directory]> o) !! key)) as Hsel.
  { intros key Hin. rewrite lookup_insert_is_Some'. right. by apply Hdir. }
  apply fails_at_eof_bind.
  { apply fails_at_eof_namespace_getattr. by apply Hsel. }
  intros ? ? force _.
  apply fails_at_eof_bind.
  { destruct (is_False force); [|apply fails_at_eof_ret].
    apply fails_at_eof_collect_missing_options; [by apply Hsel .. |].
    repeat (apply List.Forall_cons; [by apply Hsel |]). apply List.Forall_nil. }
  intros t2 t3 o2 Hcollect.
  assert (o2 !! "database_engine" = Some (PStr code)) as Hengine.
  { destruct (is_False force).
    - erewrite collect_missing_options_other; [by apply lookup_insert_eq | done | done |].
      apply (bool_decide_unpack _). by vm_compute.
    - apply ret_inv in Hcollect as [_ ->]. apply lookup_insert_eq. }
  apply fails_at_eof_bind.
  { apply fails_at_eof_namespace_getattr. by rewrite Hengine. }
  intros t4 t5 v Hv. apply namespace_getattr_Ok_inv in Hv as [-> Hv].
  rewrite Hengine in Hv. injection Hv as <-.
  apply fails_at_eof_bind; [| intros ? ? name _; apply fails_at_eof_ret].
  intros t t' e H. pose proof (engine_of_code_choice code t Hcode) as Hok.
  by rewrite H in Hok.
Qed.



(** ** [__call__]: the settings of the installer and the dry run *)

Lemma _set_verbosity_eq self (o : gmap string pyval) z s :
  o !! "verbosity" = Some (PInt z) ->
  _set_verbosity self o s = (s, Ok (mkSetup z (_todo self))).
Proof.
  intros H. unfold _set_verbosity.
  by erewrite bind_Ok by by apply namespace_getattr_Some.
Qed.

Lemma _set_create_project_eq self (o : gmap string pyval) text s :
  o !! "create_project" = Some (PStr text) ->
  _set_create_project self o s =
    (s, Ok (mkSetup (verbosity self)
              (<["create_project" :=
                   if str_in (str_lower text) ["no"; "none"; "false"; "0"]
                   then ["nothing"]
                   else if bool_decide (str_lower text = "container-uwsgi")
                        then ["django"; str_lower text]
                        else ["django"]]> (_todo self)))).
Proof.
  intros H. unfold _set_create_project.
  by erewrite bind_Ok by by apply namespace_getattr_Some.
Qed.

Lemma set_create_project_django self (o : gmap string pyval) text s :
  o !! "create_project" = Some (PStr text) ->
  exists self',
    _set_create_project self o s = (s, Ok self')
    /\ str_in "django" (todo_create_project self')
       = negb (str_in (str_lower text) ["no"; "none"; "false"; "0"]).
Proof.
  intros H. eexists. split; [by apply _set_create_project_eq |].
  unfold todo_create_project. cbn [_todo]. rewrite lookup_insert_eq. cbn [default].
  destruct (str_in (str_lower text) ["no"; "none"; "false"; "0"]); [by vm_compute |].
  destruct (bool_decide (str_lower text = "container-uwsgi")); by vm_compute.
Qed.

(** X1. [_set_create_project] leaves one of three plans, whatever the text
    of [--create-project] is: nothing, the Django files, or the Django files
    with the uwsgi container files. The Django files are left out exactly
    when the text, in lower case, is [no], [none], [false] or [0]; the
    container files never come without the Django files; any other text
    means the Django files. The verbosity and the other entries of [_todo]
    are kept. *)
Theorem set_create_project_plan self (o : gmap string pyval) text s :
  o !! "create_project" = Some (PStr text) ->
  exists self',
    _set_create_project self o s = (s, Ok self')
    /\ verbosity self' = verbosity self
    /\ (forall k, k <> "create_project" -> _todo self' !! k = _todo self !! k)
    /\ todo_create_project self'
         ∈ [["nothing"]; ["django"]; ["django"; "container-uwsgi"]]
    /\ str_in "django" (todo_create_project self')
       = negb (str_in (str_lower text) ["no"; "none"; "false"; "0"])
    /\ str_in "container-uwsgi" (todo_create_project self')
       = bool_decide (str_lower text = "container-uwsgi").
Proof.
  intros H. eexists. split; [by apply _set_create_project_eq |].
  cbn [verbosity _todo]. split; [done |].
  split; [by intros k Hk; rewrite lookup_insert_ne |].
  unfold todo_create_project. cbn [_todo]. rewrite lookup_insert_eq. cbn [default].
  destruct (str_in (str_lower text) ["no"; "none"; "false"; "0"]) eqn:Hno.
  - split; [by left |]. split; [by vm_compute |].
    cbn [negb]. symmetry. apply bool_decide_eq_false. intros Heq.
    rewrite Heq in Hno. by vm_compute in Hno.
  - destruct (bool_decide (str_lower text = "container-uwsgi")) eqn:Hc.
    + apply bool_decide_eq_true in Hc. rewrite Hc.
      split; [by right; right; left |]. split; by vm_compute.
    + split; [by right; left |]. split; by vm_compute.
Qed.

Lemma set_create_project_plan_witness :
  exists self',
    result (_set_create_project Demo.setup
              (<["create_project" := PStr "Container-UWSGI"]> Demo.defaults))
           (Demo.start ∅ []) = Ok self'
    /\ str_in "django" (todo_create_project self') = true
    /\ str_in "container-uwsgi" (todo_create_project self') = true.
Proof.
  destruct (set_create_project_plan Demo.setup
              (<["create_project" := PStr "Container-UWSGI"]> Demo.defaults)
              "Container-UWSGI" (Demo.start ∅ []))
    as (self' & Hrun & _ & _ & _ & Hdjango & Huwsgi).
  { apply lookup_insert_eq. }
  exists self'. unfold result. rewrite Hrun. split; [done |].
  rewrite Hdjango, Huwsgi. split; by vm_compute.
Defined.

Lemma resolve_options_other E (o : gmap string pyval) directory s s' od od2 eng k :
  resolve_options E o directory s = (s', Ok (od, od2, eng)) ->
  k ∉ ["dir_name"; "database_engine"; "secret_key"] -> k ∉ db_keys.*1 ->
  od !! k = o !! k.
Proof.
  unfold resolve_options. intros H Hk Hdb.
  rewrite !not_elem_of_cons in Hk. destruct Hk as (Hk1 & Hk2 & Hk3 & _).
  apply bind_Ok_inv in H as (s1 & o1 & Hsel & H).
  apply select_database_engine_other in Hsel as [_ Hsel].
  apply bind_Ok_inv in H as (s2 & force & _ & H).
  apply bind_Ok_inv in H as (s3 & o2 & Hcollect & H).
  apply bind_Ok_inv in H as (s4 & v & _ & H).
  apply bind_Ok_inv in H as (s5 & name & _ & H).
  apply ret_inv in H as [-> [= -> -> ->]].
  rewrite lookup_insert_ne by done.
  transitivity (o1 !! k).
  - destruct (is_False force).
    + by eapply collect_missing_options_other.
    + by apply ret_inv in Hcollect as [_ ->].
  - by rewrite Hsel, lookup_insert_ne.
Qed.

(** The steps of [__call__] after the options are resolved, when the dry
    run is on: they end in [KeyboardInterrupt] or in what
    [configManagers.complete] raised. *)
Lemma dry_run_dump E (od od2 : gmap string pyval) s :
  exists s1 e,
    (configManagers_complete E od2 ;;;
     print (pformat E od) ;;;
     print (pformat E od2) ;;;
     print (pformat_self E) ;;;
     raise (A := unit) KeyboardInterrupt) s = (s1, Raised e)
    /\ (reads_only (configManagers_complete E od2) -> fs s1 = fs s)
    /\ (is_ok (snd (configManagers_complete E od2 s)) = true -> e = KeyboardInterrupt).
Proof.
  unfold bind at 1.
  destruct (configManagers_complete E od2 s) as [s1 [[]|e]] eqn:Hc.
  - eexists _, _. split; [reflexivity |]. split; [|done].
    intros Hread. specialize (Hread s). by rewrite Hc in Hread.
  - eexists _, _. split; [reflexivity |]. split; [|done].
    intros Hread. specialize (Hread s). by rewrite Hc in Hread.
Qed.

Lemma _set_verbosity_frame self (o : gmap string pyval) s :
  fst (_set_verbosity self o s) = s.
Proof.
  unfold _set_verbosity, namespace_getattr, bind.
  by destruct (o !! "verbosity") as [[]|].
Qed.

Lemma _set_create_project_frame self (o : gmap string pyval) s :
  fst (_set_create_project self o s) = s.
Proof.
  unfold _set_create_project, namespace_getattr, bind.
  by destruct (o !! "create_project") as [[]|].
Qed.

Lemma never_returns_bind {A B} (c : M A) (k : A -> M B) s :
  fs (fst (c s)) = fs s ->
  (forall s1 a, c s = (s1, Ok a) ->
     fs (fst (k a s1)) = fs s1 /\ is_ok (snd (k a s1)) = false) ->
  fs (fst (bind c k s)) = fs s /\ is_ok (snd (bind c k s)) = false.
Proof.
  intros Hc Hk. unfold bind. destruct (c s) as [s1 [a|e]]; [|done].
  destruct (Hk s1 a eq_refl) as [Hfs Hok]. cbn [fst] in Hc. split; [congruence | done].
Qed.

(** X9. A dry run deploys nothing and does not return: with [--dry-run],
    and a [configManagers.complete] that leaves the files alone, [__call__]
    leaves the filesystem as it is, whatever the other options and the
    answers are, and it always ends in an exception. With the options of
    [parse_args()] and a [configManagers.complete] that returns, that
    exception is [SystemExit(1)], after [Aborted.] is printed, as for an
    interrupted run; or [EOFError] when the input ended during the
    questions. *)
Theorem call_dry_run E self (o : gmap string pyval) directory v s :
  o !! "dry_run" = Some v ->
  py_truthy v = true ->
  (forall od2, reads_only (configManagers_complete E od2)) ->
  let run := __call__ E self o directory s in
  fs (fst run) = fs s
  /\ is_ok (snd run) = false
  /\ (Forall (fun k => is_Some (o !! k)) parser_dests ->
      (exists z, o !! "verbosity" = Some (PInt z)) ->
      (exists text, o !! "create_project" = Some (PStr text)) ->
      (forall od2 t, is_ok (snd (configManagers_complete E od2 t)) = true) ->
      (snd run = Raised (SystemExit 1)
       /\ last (stdout (fst run)) = Some (newline +:+ newline +:+ "Aborted."))
      \/ (snd run = Raised EOFError /\ stdin (fst run) = [])).
Proof.
  intros Hdry Htruthy Hread run.
  assert (forall s0 od od2 eng,
            resolve_options E o directory s0 = (fst (resolve_options E o directory s0),
                                                Ok (od, od2, eng)) ->
            od !! "dry_run" = Some v) as Hkept.
  { intros s0 od od2 eng Hres. rewrite <- Hdry.
    eapply resolve_options_other; [exact Hres | |];
      apply (bool_decide_unpack _); by vm_compute. }
  unfold run, __call__, except_KeyboardInterrupt.
  match goal with |- context [match ?body s with _ => _ end] => set (body_run := body s) end.
  assert (fs (fst body_run) = fs s /\ is_ok (snd body_run) = false) as [Hfs Hok].
  { unfold body_run.
    apply never_returns_bind; [by rewrite _set_verbosity_frame | intros s1 self1 _].
    apply never_returns_bind; [by rewrite _set_create_project_frame | intros s2 self2 _].
    apply never_returns_bind; [done | intros s3 [] _].
    apply never_returns_bind; [apply console_only_resolve_options |].
    intros s4 [[od od2] eng] Hres.
    assert (od !! "dry_run" = Some v) as Hdry'.
    { eapply Hkept. rewrite Hres. reflexivity. }
    erewrite bind_Ok by by apply getitem_Some. rewrite Htruthy.
    destruct (dry_run_dump E od od2 s4) as (s5 & e & Hdump & Hfs & _).
    erewrite bind_Raised by exact Hdump. split; [by apply Hfs | done]. }
  split; [|split].
  - destruct body_run as [s1 [[]|[]]]; done.
  - destruct body_run as [s1 [[]|[]]]; done.
  - intros Hkeys [z Hz] [text Htext] Hreturns. revert Hfs Hok. unfold body_run.
    erewrite bind_Ok by by apply _set_verbosity_eq.
    erewrite bind_Ok by by apply _set_create_project_eq.
    unfold print_message. erewrite bind_Ok by apply print_eq.
    match goal with |- context [bind (resolve_options E o directory) _ ?s0] =>
      destruct (resolve_options E o directory s0) as [s1 [[[od od2] eng]|e]] eqn:Hres
    end.
    + erewrite bind_Ok by exact Hres. cbn beta iota.
      assert (od !! "dry_run" = Some v) as Hdry'.
      { eapply Hkept. rewrite Hres. reflexivity. }
      erewrite bind_Ok by by apply getitem_Some. rewrite Htruthy.
      destruct (dry_run_dump E od od2 s1) as (s2 & e & Hdump & _ & He).
      erewrite bind_Raised by exact Hdump. rewrite He by apply Hreturns.
      intros _ _. left. cbn. split; [done | by rewrite last_snoc].
    + erewrite bind_Raised by exact Hres.
      apply fails_at_eof_resolve_options in Hres as [-> Hin]; [|done].
      intros _ _. right. done.
Qed.

Lemma call_dry_run_witness :
  let o := <["dry_run" := PBool true]> Demo.defaults in
  let s := Demo.start Demo.templates ["2"; "askbot.db"] in
  fs (fst (__call__ Demo.env Demo.setup o "/srv/site" s)) = fs s
  /\ snd (__call__ Demo.env Demo.setup o "/srv/site" s) = Raised (SystemExit 1).
Proof.
  intros o s.
  destruct (call_dry_run Demo.env Demo.setup o "/srv/site" (PBool true) s)
    as (Hfs & _ & Hend).
  - apply lookup_insert_eq.
  - reflexivity.
  - intros od2 t. reflexivity.
  - split; [exact Hfs |].
    destruct Hend as [[Hexit _]|[Heof _]].
    + apply (bool_decide_unpack _). by vm_compute.
    + exists 1. by vm_compute.
    + exists "django". by vm_compute.
    + intros od2 t. reflexivity.
    + exact Hexit.
    + vm_compute in Heof. discriminate Heof.
Defined.

Lemma deploy_askbot_Ok_inv E self (options : gmap string pyval) s s' o' :
  deploy_askbot E self options s = (s', Ok o') ->
  exists dir,
    options !! "dir_name" = Some (PStr dir)
    /\ path_exists (fs s) dir && has_existing_django_project E (fs s) dir = false
    /\ path_exists (fs s') (join dir "askbot_app") = true.
Proof.
  intros H.
  assert (exists dir, options !! "dir_name" = Some (PStr dir)) as [dir Hdir].
  { destruct (options !! "dir_name") as [[| | |dir]|] eqn:Hd; try by eauto.
    all: destruct (deploy_askbot_no_dir_raises E self options s) as [_ Hno];
      [intros dir; congruence | by rewrite H in Hno]. }
  exists dir. split; [done |].
  rewrite (deploy_askbot_eq E self options dir s Hdir) in H.
  destruct (_ && _); [done |]. split; [done |].
  pose proof (deploy_files_makes_app_dir E self true options dir s Hdir) as Hmade.
  rewrite H in Hmade. by apply Hmade.
Qed.

(** X18. What a normal return of [__call__] means: the run was not a dry
    run, the directory settled on (whatever [--dir-name] held) had no prior
    Django project in it when the run began, and the application directory
    [askbot_app] is now in that directory. In particular [__call__] never
    returns for a directory that holds a project. *)
Theorem call_returns E self (o : gmap string pyval) directory s :
  is_ok (result (__call__ E self o directory) s) = true ->
  (exists v, o !! "dry_run" = Some v /\ py_truthy v = false)
  /\ path_exists (fs s) directory
     && has_existing_django_project E (fs s) directory = false
  /\ path_exists (fs (exec (__call__ E self o directory) s))
       (join directory "askbot_app") = true.
Proof.
  unfold result, exec, __call__, except_KeyboardInterrupt.
  match goal with |- context [match ?body s with _ => _ end] =>
    destruct (body s) as [s' [[]|e]] eqn:Hbody end.
  2: { by destruct e. }
  intros _. cbn [fst].
  apply bind_Ok_inv in Hbody as (s1 & self1 & Hv & Hbody).
  pose proof (_set_verbosity_frame self o s) as Hf1. rewrite Hv in Hf1. cbn in Hf1. subst s1.
  apply bind_Ok_inv in Hbody as (s2 & self2 & Hc & Hbody).
  pose proof (_set_create_project_frame self1 o s) as Hf2. rewrite Hc in Hf2.
  cbn in Hf2. subst s2.
  apply bind_Ok_inv in Hbody as (s3 & [] & Hprint & Hbody).
  unfold print_message in Hprint. rewrite print_eq in Hprint. injection Hprint as <-.
  apply bind_Ok_inv in Hbody as (s4 & [[od od2] eng] & Hres & Hbody).
  pose proof (console_only_resolve_options E o directory) as Hconsole.
  match type of Hres with resolve_options _ _ _ ?t = _ =>
    destruct (Hconsole t) as (Hfs & _) end.
  rewrite Hres in Hfs. cbn [fst fs] in Hfs.
  pose proof (resolve_options_other _ _ _ _ _ _ _ _ "dry_run" Hres
                ltac:(apply (bool_decide_unpack _); by vm_compute)
                ltac:(apply (bool_decide_unpack _); by vm_compute)) as Hdry.
  apply resolve_options_Ok_inv in Hres as (code & _ & _ & _ & Hdir).
  apply bind_Ok_inv in Hbody as (s5 & v & Hget & Hbody).
  apply getitem_Ok_inv in Hget as [-> Hget].
  apply bind_Ok_inv in Hbody as (s6 & [] & Hdump & Hbody).
  assert (py_truthy v = false /\ s6 = s4) as [Hfalse ->].
  { destruct (py_truthy v).
    - destruct (dry_run_dump E od od2 s4) as (t & e & Hraise & _). congruence.
    - by apply ret_inv in Hdump as [-> _]. }
  apply bind_Ok_inv in Hbody as (s7 & o7 & Hdeploy & Hhints).
  apply deploy_askbot_Ok_inv in Hdeploy as (dir & Hdir' & Hprior & Hmade).
  rewrite Hdir in Hdir'. injection Hdir' as <-.
  split; [exists v; split; [congruence | done] |].
  split; [by rewrite <- Hfs |].
  assert (fs s' = fs s7) as ->; [|done].
  revert Hhints. clear.
  repeat (match goal with |- context [if ?b then _ else _] => destruct b end);
    unfold bind, print, ret; intros [= <-]; done.
Qed.

Lemma call_returns_witness :
  let s := Demo.start Demo.templates ["2"; "askbot.db"] in
  path_exists (fs (exec (__call__ Demo.env Demo.setup Demo.defaults "/srv/forum") s))
    "/srv/forum/askbot_app" = true.
Proof.
  intros s.
  destruct (call_returns Demo.env Demo.setup Demo.defaults "/srv/forum" s) as (_ & _ & H).
  { by vm_compute. }
  assert (join "/srv/forum" "askbot_app" = "/srv/forum/askbot_app") as Hpath
    by (by vm_compute).
  rewrite Hpath in H. exact H.
Defined.

(** * Further properties: the deployment of the files *)

(** ** What a step leaves in place *)

Lemma keeps_node_ret {A} p n (a : A) : keeps_node p n (ret a).
Proof. by intros s. Qed.

Lemma keeps_node_bind {A B} p n (c : M A) (k : A -> M B) :
  keeps_node p n c -> (forall a, keeps_node p n (k a)) -> keeps_node p n (bind c k).
Proof.
  intros Hc Hk s Hp. unfold bind. specialize (Hc s Hp).
  destruct (c s) as [s1 [a|e]]; [|done]. by apply Hk.
Qed.

Lemma keeps_node_for_each {A} p n (l : list A) (body : A -> M unit) :
  (forall x, x ∈ l -> keeps_node p n (body x)) -> keeps_node p n (for_each l body).
Proof.
  induction l as [|x l IH]; intros Hbody; [apply keeps_node_ret |].
  apply keeps_node_bind; [apply Hbody; by left | intros _].
  apply IH. intros y Hy. apply Hbody. by right.
Qed.

Lemma keeps_node_print p n msg : keeps_node p n (print msg).
Proof. by intros s. Qed.

Lemma keeps_node_getitem_str p n (d : gmap string pyval) key :
  keeps_node p n (getitem_str d key).
Proof.
  intros s Hp. destruct (getitem_str d key s) as [s1 r] eqn:H.
  by apply getitem_str_frame in H as ->.
Qed.

Lemma keeps_node_getitem p n (d : gmap string pyval) key : keeps_node p n (getitem d key).
Proof.
  intros s Hp. destruct (getitem d key s) as [s1 r] eqn:H.
  by apply getitem_frame in H as ->.
Qed.

Lemma keeps_node_create_path p n d : keeps_node p n (create_path d).
Proof.
  intros s Hp. destruct (create_path_run d s) as [_ Hsub]. by eapply lookup_weaken.
Qed.

Lemma keeps_node_touch p n file_name : keeps_node p n (touch file_name).
Proof.
  intros s Hp. unfold touch. destruct (fs s !! file_name) eqn:Hf; [done |].
  cbn [fst fs set_fs]. rewrite lookup_insert_ne; [done | congruence].
Qed.

Lemma keeps_node_install_render E p n self render_list context :
  keeps_node p n (_install_render_with_jinja2 E self render_list context).
Proof.
  intros s Hp. destruct (install_render_run E self context render_list s) as (_ & Hsub & _).
  by eapply lookup_weaken.
Qed.

Lemma keeps_node_install_copy p n self copy_list forced skip :
  (forall src dst, (src, dst) ∈ copy_list -> forced_dst forced dst = true ->
     p <> dst /\ p <> join dst (last_component src)) ->
  keeps_node p n (_install_copy self copy_list forced skip).
Proof. intros H s Hp. by apply install_copy_keeps. Qed.

Lemma keeps_node_append_local_settings p n self app_dir (options : gmap string pyval) :
  p <> join app_dir "settings.py" ->
  keeps_node p n (append_local_settings self app_dir options).
Proof.
  intros Hne. unfold append_local_settings, print_message.
  apply keeps_node_bind; [apply keeps_node_getitem_str | intros l].
  apply keeps_node_bind.
  { destruct (0 <? String.length l)%nat; [by intros s | apply keeps_node_ret]. }
  intros wanted. destruct wanted; [|apply keeps_node_ret].
  apply keeps_node_bind; [apply keeps_node_print | intros _].
  apply keeps_node_bind.
  { intros s Hp. unfold open_append.
    destruct (fs s !! join app_dir "settings.py") as [[]|]; try done.
    cbn [fst fs set_fs]. by rewrite lookup_insert_ne. }
  intros _. apply keeps_node_bind.
  { intros s Hp. unfold read_file. by destruct (fs s !! l) as [[]|]. }
  intros content. apply keeps_node_bind; [|intros _; apply keeps_node_print].
  intros s Hp. unfold append_text.
  destruct (fs s !! join app_dir "settings.py") as [[]|]; try done;
    cbn [fst fs set_fs]; by rewrite lookup_insert_ne.
Qed.

Lemma keeps_node_create_new_django_project E p n self install_dir
    (options : gmap string pyval) :
  keeps_node p n (_create_new_django_project E self install_dir options).
Proof.
  unfold _create_new_django_project.
  apply keeps_node_bind; [apply keeps_node_getitem_str | intros logfile_name].
  apply keeps_node_bind.
  { apply keeps_node_for_each. intros d _. apply keeps_node_create_path. }
  intros _. apply keeps_node_bind; [apply keeps_node_touch | intros _].
  apply keeps_node_install_copy. intros src dst _ Hforced.
  by rewrite forced_dst_nil in Hforced.
Qed.

(** ** [_install_copy] as a whole *)

Lemma keeps_paths_install_copy_body self forced skip item :
  keeps_paths (_install_copy_body self forced skip item).
Proof.
  destruct item as [src dst]. unfold _install_copy_body, print_message.
  apply keeps_paths_bind; [apply keeps_paths_print | intros _].
  apply keeps_paths_bind; [apply keeps_paths_exists | intros present].
  destruct (negb present); [apply keeps_paths_shutil_copy |].
  destruct (forced_dst forced dst).
  { apply keeps_paths_bind; [apply keeps_paths_print | intros _; apply keeps_paths_shutil_copy]. }
  destruct (negb _); [apply keeps_paths_print | apply keeps_paths_ret].
Qed.

Lemma install_copy_body_makes self forced skip src dst s s' :
  _install_copy_body self forced skip (src, dst) s = (s', Ok tt) ->
  path_exists (fs s') dst = true.
Proof.
  intros H. destruct (path_exists (fs s) dst) eqn:Hex.
  - pose proof (keeps_paths_install_copy_body self forced skip (src, dst) s) as Hg.
    rewrite H in Hg. by eapply grows_exists.
  - rewrite install_copy_body_eq in H. cbv zeta in H. rewrite Hex in H. cbn [negb] in H.
    match type of H with shutil_copy _ _ ?t = _ => set (told := t) in H end.
    destruct (shutil_copy_cases src dst told) as
      [(c & _ & _ & _ & Hrun) | (e & Hrun & _)]; rewrite Hrun in H; [|done].
    injection H as <-. unfold told. cbn [fs set_fs].
    apply path_exists_false in Hex. unfold copy_target, path_isdir. rewrite Hex.
    apply path_exists_true. by rewrite lookup_insert_eq.
Qed.

Lemma for_each_copy_makes self forced skip copy_list s s' src dst :
  for_each copy_list (_install_copy_body self forced skip) s = (s', Ok tt) ->
  (src, dst) ∈ copy_list ->
  path_exists (fs s') dst = true.
Proof.
  revert s. induction copy_list as [|item l IH]; intros s H Hin.
  { by apply elem_of_nil in Hin. }
  cbn [for_each] in H. apply bind_Ok_inv in H as (s1 & [] & Hbody & H).
  apply elem_of_cons in Hin as [<-|Hin]; [|by eapply IH].
  apply install_copy_body_makes in Hbody.
  pose proof (keeps_paths_for_each l _ (keeps_paths_install_copy_body self forced skip) s1)
    as Hg.
  rewrite H in Hg. by eapply grows_exists.
Qed.

Lemma install_copy_run self copy_list forced skip s :
  let run := _install_copy self copy_list forced skip s in
  (is_ok (snd run) = true ->
   forall src dst, (src, dst) ∈ copy_list -> path_exists (fs (fst run)) dst = true)
  /\ (forced = [] -> fs s ⊆ fs (fst run)).
Proof.
  intros run. split.
  - unfold run, _install_copy, print_message. erewrite bind_Ok by apply print_eq.
    match goal with |- context [bind (for_each _ _) _ ?t] => set (s0 := t) end.
    destruct (for_each copy_list (_install_copy_body self forced skip) s0)
      as [s1 [[]|e]] eqn:Hloop.
    2: { by erewrite bind_Raised by exact Hloop. }
    erewrite bind_Ok by exact Hloop. intros _ src dst Hin. cbn [fst fs print].
    by eapply for_each_copy_makes.
  - intros ->. apply map_subseteq_spec. intros p n Hp.
    apply keeps_node_install_copy; [|done].
    intros src dst _ Hforced. by rewrite forced_dst_nil in Hforced.
Qed.

(** X11. When [_install_copy] returns, every destination of its list is
    there, copied now or found in place. Called without forced names, as for
    the project files, it changes nothing that was there before: whatever
    the list holds, the filesystem it leaves contains the one it found. *)
Theorem install_copy_postcondition self copy_list forced skip s :
  let run := _install_copy self copy_list forced skip s in
  (is_ok (snd run) = true ->
   forall src dst, (src, dst) ∈ copy_list -> path_exists (fs (fst run)) dst = true)
  /\ (forced = [] -> fs s ⊆ fs (fst run)).
Proof. apply install_copy_run. Qed.

Lemma install_copy_postcondition_witness :
  let s := Demo.start (<["/srv/site/manage.py" := File "mine"]> Demo.templates) [] in
  let run := _install_copy Demo.setup
               [("/opt/askbot/setup_templates/manage.py", "/srv/site/manage.py");
                ("/opt/askbot/setup_templates/urls.py", "/srv/site/urls.py")]
               [] (BLANK_FILES Demo.env) s in
  path_exists (fs (fst run)) "/srv/site/urls.py" = true
  /\ fs (fst run) !! "/srv/site/manage.py" = Some (File "mine").
Proof.
  intros s run.
  destruct (install_copy_postcondition Demo.setup
              [("/opt/askbot/setup_templates/manage.py", "/srv/site/manage.py");
               ("/opt/askbot/setup_templates/urls.py", "/srv/site/urls.py")]
              [] (BLANK_FILES Demo.env) s) as [Hmade Hkept].
  split.
  - apply (Hmade ltac:(by vm_compute) "/opt/askbot/setup_templates/urls.py").
    by right; left.
  - eapply lookup_weaken; [|by apply Hkept]. by vm_compute.
Defined.

Lemma for_each_app {A} (l1 l2 : list A) (body : A -> M unit) s :
  for_each (l1 ++ l2) body s
  = bind (for_each l1 body) (fun _ => for_each l2 body) s.
Proof.
  revert s. induction l1 as [|x l1 IH]; intros s; [done |].
  cbn [app for_each]. unfold bind. destruct (body x s) as [s1 [[]|e]]; [|done].
  by rewrite IH.
Qed.

(** X12. A source that is not there stops [_install_copy] at its pair: when
    the pair is due for a copy (its destination is not there, or is forced),
    [shutil.copy] raises [FileNotFoundError] for the source; the pairs after
    it are not looked at, so the filesystem stays as the pairs before it
    left it, and the closing message is not reached. *)
Theorem install_copy_missing_source self forced skip before src dst rest s s1 :
  for_each before (_install_copy_body self forced skip)
    (fst (print "Copying files:" s)) = (s1, Ok tt) ->
  fs s1 !! src = None ->
  path_exists (fs s1) dst = false \/ forced_dst forced dst = true ->
  let run := _install_copy self (before ++ (src, dst) :: rest) forced skip s in
  snd run = Raised (FileNotFoundError src)
  /\ fs (fst run) = fs s1
  /\ last (stdout (fst run)) <> Some "Done.".
Proof.
  intros Hbefore Hsrc Hdue run. unfold run, _install_copy, print_message.
  erewrite bind_Ok by apply print_eq. rewrite print_eq in Hbefore. cbn [fst] in Hbefore.
  match goal with |- context [bind ?c _ ?t] =>
    assert (exists s2 line, c t = (s2, Raised (FileNotFoundError src))
                            /\ fs s2 = fs s1
                            /\ last (stdout s2) = Some line /\ line <> "Done.")
      as (s2 & line & Hrun & Hfs & Hlast & Hline)
  end.
  { rewrite for_each_app. erewrite bind_Ok by exact Hbefore. cbn [for_each].
    assert (forall told, fs told = fs s1 ->
              shutil_copy src dst told = (told, Raised (FileNotFoundError src))) as Hcopy.
    { intros told Htold. rewrite shutil_copy_eq. cbv zeta. rewrite Htold.
      unfold path_exists at 1. rewrite Hsrc, andb_false_r. done. }
    assert (exists s2 line,
              _install_copy_body self forced skip (src, dst) s1
              = (s2, Raised (FileNotFoundError src))
              /\ fs s2 = fs s1 /\ last (stdout s2) = Some line /\ line <> "Done.")
      as (s2 & line & Hbody & ?).
    { rewrite install_copy_body_eq. cbv zeta.
      destruct (path_exists (fs s1) dst) eqn:Hex; cbn [negb].
      - destruct Hdue as [|Hforced]; [done |]. rewrite Hforced, Hcopy by done.
        eexists _, _. split; [reflexivity |]. cbn [fs stdout].
        split; [done |]. rewrite last_app. cbn. split; [reflexivity | discriminate].
      - rewrite Hcopy by done. eexists _, _. split; [reflexivity |]. cbn [fs stdout].
        split; [done |]. rewrite last_snoc. split; [reflexivity | discriminate]. }
    exists s2, line. by erewrite bind_Raised by exact Hbody. }
  erewrite bind_Raised by exact Hrun. cbn [fst snd].
  split; [done |]. split; [done |]. rewrite Hlast. congruence.
Qed.

Lemma install_copy_missing_source_witness :
  let s := Demo.start (<["/opt/askbot/setup_templates/manage.py" := File "#!"]> ∅) [] in
  let run := _install_copy Demo.setup
               [("/opt/askbot/setup_templates/manage.py", "/srv/site/manage.py");
                ("/opt/askbot/setup_templates/urls.py", "/srv/site/urls.py");
                ("/opt/askbot/setup_templates/manage.py", "/srv/site/again.py")]
               [] (BLANK_FILES Demo.env) s in
  snd run = Raised (FileNotFoundError "/opt/askbot/setup_templates/urls.py")
  /\ fs (fst run) !! "/srv/site/manage.py" = Some (File "#!")
  /\ fs (fst run) !! "/srv/site/again.py" = None.
Proof.
  intros s run.
  destruct (for_each [("/opt/askbot/setup_templates/manage.py", "/srv/site/manage.py")]
              (_install_copy_body Demo.setup [] (BLANK_FILES Demo.env))
              (fst (print "Copying files:" s))) as [s1 [[]|e]] eqn:Hbefore.
  2: { apply (f_equal (fun r => is_ok (snd r))) in Hbefore. vm_compute in Hbefore.
       discriminate Hbefore. }
  assert (fs s1 !! "/opt/askbot/setup_templates/urls.py" = None
          /\ path_exists (fs s1) "/srv/site/urls.py" = false
          /\ fs s1 !! "/srv/site/manage.py" = Some (File "#!")
          /\ fs s1 !! "/srv/site/again.py" = None) as (Hsrc & Hdst & Hmade & Hnot).
  { apply (f_equal (fun r => fs (fst r))) in Hbefore. cbn [fst] in Hbefore.
    rewrite <- Hbefore. repeat split; by vm_compute. }
  destruct (install_copy_missing_source Demo.setup [] (BLANK_FILES Demo.env)
              [("/opt/askbot/setup_templates/manage.py", "/srv/site/manage.py")]
              "/opt/askbot/setup_templates/urls.py" "/srv/site/urls.py"
              [("/opt/askbot/setup_templates/manage.py", "/srv/site/again.py")]
              s s1 Hbefore Hsrc (or_introl Hdst)) as (Hraised & Hfs & _).
  change (fs (fst run) = fs s1) in Hfs. split; [exact Hraised |]. rewrite Hfs. by split.
Defined.

(** ** [_create_new_django_project] *)

Lemma keeps_all_exists {A} (c : M A) s p :
  (forall q n, keeps_node q n c) ->
  path_exists (fs s) p = true -> path_exists (fs (fst (c s))) p = true.
Proof.
  intros Hc Hp. apply path_exists_true in Hp as [n Hn]. apply path_exists_true.
  exists n. by apply Hc.
Qed.

Lemma touch_exists file_name s : path_exists (fs (fst (touch file_name s))) file_name = true.
Proof.
  unfold touch, path_exists. destruct (fs s !! file_name) eqn:Hf; cbn [fst fs set_fs].
  - by rewrite Hf.
  - by rewrite lookup_insert_eq.
Qed.

Lemma create_new_django_project_run E self install_dir (options : gmap string pyval) s :
  let run := _create_new_django_project E self install_dir options s in
  fs s ⊆ fs (fst run)
  /\ (is_ok (snd run) = true ->
      exists logfile_name,
        options !! "logfile_name" = Some (PStr logfile_name)
        /\ path_exists (fs (fst run)) install_dir = true
        /\ path_exists (fs (fst run)) (join install_dir (LOG_DIR_NAME E)) = true
        /\ path_exists (fs (fst run))
             (join (join install_dir (LOG_DIR_NAME E)) logfile_name) = true
        /\ (str_in "django" (todo_create_project self) = true ->
            path_exists (fs (fst run)) (join install_dir "manage.py") = true)).
Proof.
  intros run. split.
  { apply map_subseteq_spec. intros p n Hp.
    by apply keeps_node_create_new_django_project. }
  unfold run, _create_new_django_project.
  destruct (getitem_str options "logfile_name" s) as [s0 [logfile_name|e]] eqn:Hlog.
  2: { by erewrite bind_Raised by exact Hlog. }
  apply getitem_str_Ok_inv in Hlog as Hlog'. destruct Hlog' as [-> Hlog'].
  erewrite bind_Ok by exact Hlog. clear Hlog.
  set (log_dir := join install_dir (LOG_DIR_NAME E)).
  set (log_file := join log_dir logfile_name).
  assert (exists s1, for_each [install_dir; log_dir] create_path s = (s1, Ok tt)
                     /\ path_exists (fs s1) install_dir = true
                     /\ path_exists (fs s1) log_dir = true) as (s1 & Hdirs & Hd1 & Hd2).
  { cbn [for_each]. unfold bind.
    pose proof (create_path_exists install_dir s) as He1.
    destruct (create_path_run install_dir s) as [Hr1 _].
    destruct (create_path install_dir s) as [t1 r1]. cbn [fst snd] in *. subst r1.
    pose proof (create_path_exists log_dir t1) as He2.
    destruct (create_path_run log_dir t1) as [Hr2 Hsub2].
    destruct (create_path log_dir t1) as [t2 r2]. cbn [fst snd] in *. subst r2.
    exists t2. split; [done |]. split; [|done].
    apply path_exists_true in He1 as [n Hn]. apply path_exists_true. exists n.
    by eapply lookup_weaken. }
  erewrite bind_Ok by exact Hdirs.
  pose proof (touch_exists log_file s1) as Hf.
  pose proof (keeps_all_exists (touch log_file) s1 install_dir
                (fun q n => keeps_node_touch q n log_file) Hd1) as Hd1'.
  pose proof (keeps_all_exists (touch log_file) s1 log_dir
                (fun q n => keeps_node_touch q n log_file) Hd2) as Hd2'.
  destruct (touch log_file s1) as [s2 [[]|e]] eqn:Htouch.
  2: { by erewrite bind_Raised by exact Htouch. }
  erewrite bind_Ok by exact Htouch. cbn [fst] in *.
  match goal with |- context [_install_copy self ?l ?f ?k s2] =>
    set (copy_me := l);
    pose proof (install_copy_run self l f k s2) as [Hmade Hsub]
  end.
  cbv zeta in Hmade, Hsub. specialize (Hsub eq_refl).
  intros Hok. specialize (Hmade Hok). exists logfile_name.
  assert (forall p, path_exists (fs s2) p = true ->
            path_exists (fs (fst (_install_copy self copy_me [] (BLANK_FILES E) s2))) p
            = true) as Hlater.
  { intros p Hp. apply path_exists_true in Hp as [n Hn]. apply path_exists_true.
    exists n. by eapply lookup_weaken. }
  split; [done |]. split; [by apply Hlater |]. split; [by apply Hlater |].
  split; [by apply Hlater |].
  intros Hdjango. apply (Hmade (source_file E "setup_templates" "manage.py")).
  unfold copy_me. rewrite Hdjango. by left.
Qed.

(** X13. [_create_new_django_project] only adds: whatever is in the
    directory, and whether the call returns or raises, every path that was
    there is left with its content (an existing log file or [manage.py] is
    kept). When it returns, the install directory, the log directory and
    the log file are there, and [manage.py] too when the Django files are
    wanted. *)
Theorem create_new_django_project_adds E self install_dir (options : gmap string pyval) s :
  let run := _create_new_django_project E self install_dir options s in
  fs s ⊆ fs (fst run)
  /\ (is_ok (snd run) = true ->
      exists logfile_name,
        options !! "logfile_name" = Some (PStr logfile_name)
        /\ path_exists (fs (fst run)) install_dir = true
        /\ path_exists (fs (fst run)) (join install_dir (LOG_DIR_NAME E)) = true
        /\ path_exists (fs (fst run))
             (join (join install_dir (LOG_DIR_NAME E)) logfile_name) = true
        /\ (str_in "django" (todo_create_project self) = true ->
            path_exists (fs (fst run)) (join install_dir "manage.py") = true)).
Proof. apply create_new_django_project_run. Qed.

Lemma create_new_django_project_adds_witness :
  let s := Demo.start (<["/srv/site/log/askbot.log" := File "old entries"]>
                         Demo.templates) [] in
  let run := _create_new_django_project Demo.env Demo.setup "/srv/site" Demo.defaults s in
  fs (fst run) !! "/srv/site/log/askbot.log" = Some (File "old entries")
  /\ path_exists (fs (fst run)) "/srv/site/manage.py" = true.
Proof.
  intros s run.
  destruct (create_new_django_project_adds Demo.env Demo.setup "/srv/site"
              Demo.defaults s) as [Hsub Hmade].
  split.
  - eapply lookup_weaken; [|exact Hsub]. by vm_compute.
  - destruct Hmade as (logfile_name & _ & _ & _ & _ & Hmanage); [by vm_compute |].
    apply Hmanage. by vm_compute.
Defined.

(** ** [deploy_askbot] as a whole *)

Lemma keeps_node_create_new_django_app E p n self dir app_name
    (options : gmap string pyval) :
  Forall sep_free (FILES_TO_CREATE E) ->
  options !! "dir_name" = Some (PStr dir) ->
  endswith p (String sep "urls.py") = false ->
  p <> join (join dir app_name) "settings.py" ->
  keeps_node p n (_create_new_django_app E self app_name options).
Proof.
  intros Hnames Hdir Hp Hsettings. unfold _create_new_django_app.
  apply keeps_node_bind; [apply keeps_node_getitem | intros site].
  intros s Hn. erewrite bind_Ok.
  2: { apply getitem_str_Some. by rewrite !lookup_insert_ne. }
  revert s Hn. fold (keeps_node (A := gmap string pyval) p n).
  apply keeps_node_bind.
  { apply keeps_node_for_each. intros d _. apply keeps_node_create_path. }
  intros _. apply keeps_node_bind.
  { apply keeps_node_install_copy. intros src dst Hin Hforced.
    exact (app_copies_keep E dir app_name _ _ p src dst Hnames Hp Hin Hforced). }
  intros _. apply keeps_node_bind; [apply keeps_node_install_render | intros _].
  apply keeps_node_bind; [| intros _; apply keeps_node_ret].
  by apply keeps_node_append_local_settings.
Qed.

(** X14. The conflict policy of the whole deployment: [deploy_askbot]
    changes the content of no path that was there before, with two
    exceptions, the paths that end in [/urls.py] (the forced copy) and the
    [settings.py] of the application (the append). This holds when the names
    of [FILES_TO_CREATE] are plain file names, for every state of the
    directory and whether the run returns or raises. *)
Theorem deploy_askbot_keeps_existing E self (options : gmap string pyval) dir s p n :
  Forall sep_free (FILES_TO_CREATE E) ->
  options !! "dir_name" = Some (PStr dir) ->
  fs s !! p = Some n ->
  endswith p (String sep "urls.py") = false ->
  p <> join (join dir "askbot_app") "settings.py" ->
  fs (exec (deploy_askbot E self options) s) !! p = Some n.
Proof.
  intros Hnames Hdir Hn Hp Hsettings. unfold exec.
  rewrite (deploy_askbot_eq E self options dir s Hdir).
  destruct (_ && _); [done |]. revert s Hn.
  fold (keeps_node (A := gmap string pyval) p n). unfold deploy_files.
  apply keeps_node_bind.
  { apply keeps_node_bind; [apply keeps_node_getitem_str | intros d].
    apply keeps_node_create_new_django_project. }
  intros _. apply keeps_node_bind.
  { apply (keeps_node_create_new_django_app E p n self dir);
      [done | by rewrite !lookup_insert_ne | done | done]. }
  intros o. apply keeps_node_bind; [apply keeps_node_print | intros _; apply keeps_node_ret].
Qed.

Lemma deploy_askbot_keeps_existing_witness :
  let s := Demo.start (<["/srv/site/askbot_app/celery_app.py" := File "mine"]>
                         Demo.templates) [] in
  fs (exec (deploy_askbot Demo.env Demo.setup Demo.defaults) s)
    !! "/srv/site/askbot_app/celery_app.py" = Some (File "mine").
Proof.
  intros s.
  apply (deploy_askbot_keeps_existing Demo.env Demo.setup Demo.defaults "/srv/site").
  - repeat constructor.
  - by vm_compute.
  - by vm_compute.
  - by vm_compute.
  - discriminate.
Defined.

Lemma keeps_paths_create_path d : keeps_paths (create_path d).
Proof. intros s. apply subseteq_grows. by destruct (create_path_run d s). Qed.

Lemma keeps_paths_getitem (d : gmap string pyval) key : keeps_paths (getitem d key).
Proof.
  intros s. destruct (getitem d key s) as [s1 r] eqn:H.
  apply getitem_frame in H as ->. apply grows_refl.
Qed.

Lemma keeps_paths_getitem_str (d : gmap string pyval) key : keeps_paths (getitem_str d key).
Proof.
  intros s. destruct (getitem_str d key s) as [s1 r] eqn:H.
  apply getitem_str_frame in H as ->. apply grows_refl.
Qed.

Lemma install_render_makes E self render_list context s src dst :
  (src, dst) ∈ render_list ->
  path_exists (fs (fst (_install_render_with_jinja2 E self render_list context s))) dst
  = true.
Proof.
  intros Hin. destruct (install_render_run E self context render_list s)
    as (_ & Hsub & Hnew).
  apply path_exists_true. destruct (fs s !! dst) as [n|] eqn:Hdst.
  - exists n. by eapply lookup_weaken.
  - destruct (Hnew src dst Hin Hdst) as (src' & _ & ->). by eexists.
Qed.

(** What [_create_new_django_app] has made when it returns. *)
Lemma create_new_django_app_run E self app_name (options : gmap string pyval) dir s s' o' :
  options !! "dir_name" = Some (PStr dir) ->
  _create_new_django_app E self app_name options s = (s', Ok o') ->
  let app_dir := join dir app_name in
  grows (fs s) (fs s')
  /\ path_exists (fs s') app_dir = true
  /\ (str_in "django" (todo_create_project self) = true ->
      path_exists (fs s') (join app_dir "settings.py") = true
      /\ forall f, f ∈ APP_FILES_TO_CREATE E -> path_exists (fs s') (join app_dir f) = true)
  /\ (str_in "container-uwsgi" (todo_create_project self) = true ->
      forall f, f ∈ ["cron-askbot.sh"; "prestart.sh"; "prestart.py"; "crontab"; "uwsgi.ini"] ->
        path_exists (fs s') (join app_dir f) = true).
Proof.
  intros Hdir H app_dir.
  pose proof (create_new_django_app_makes_dir E self app_name options dir s Hdir) as Hmade.
  rewrite H in Hmade. cbn [fst] in Hmade.
  unfold _create_new_django_app in H.
  erewrite bind_Ok in H by by apply getitem_Some.
  erewrite bind_Ok in H by (apply getitem_str_Some; by rewrite !lookup_insert_ne).
  fold app_dir in H.
  apply bind_Ok_inv in H as (s1 & [] & Hdirs & H).
  apply bind_Ok_inv in H as (s2 & [] & Hcopy & H).
  apply bind_Ok_inv in H as (s3 & [] & Hrender & H).
  apply bind_Ok_inv in H as (s4 & [] & Happend & H).
  apply ret_inv in H as [<- _].
  assert (grows (fs s) (fs s1)) as Hg1.
  { pose proof (keeps_paths_for_each [app_dir] create_path keeps_paths_create_path s) as Hg.
    by rewrite Hdirs in Hg. }
  assert (grows (fs s1) (fs s2)) as Hg2.
  { match type of Hcopy with _install_copy ?a ?b ?c ?d _ = _ =>
      pose proof (keeps_paths_install_copy a b c d s1) as Hg end.
    by rewrite Hcopy in Hg. }
  assert (grows (fs s2) (fs s3)) as Hg3.
  { match type of Hrender with _install_render_with_jinja2 _ ?a ?b ?c _ = _ =>
      pose proof (keeps_paths_install_render E a b c s2) as Hg end.
    by rewrite Hrender in Hg. }
  assert (grows (fs s3) (fs s')) as Hg4.
  { match type of Happend with append_local_settings ?a ?b ?c _ = _ =>
      pose proof (append_local_settings_grows a b c s3) as Hg end.
    by rewrite Happend in Hg. }
  assert (forall src dst copy_me forced skip,
            _install_copy self copy_me forced skip s1 = (s2, Ok tt) ->
            (src, dst) ∈ copy_me -> path_exists (fs s') dst = true) as Hcopied.
  { intros src dst copy_me forced skip Hrun Hin.
    apply (grows_exists (fs s2)); [by eapply grows_trans |].
    destruct (install_copy_run self copy_me forced skip s1) as [Hpost _].
    rewrite Hrun in Hpost. by apply (Hpost eq_refl src). }
  assert (forall src dst render_me context,
            _install_render_with_jinja2 E self render_me context s2 = (s3, Ok tt) ->
            (src, dst) ∈ render_me -> path_exists (fs s') dst = true) as Hrendered.
  { intros src dst render_me context Hrun Hin.
    apply (grows_exists (fs s3)); [done |].
    pose proof (install_render_makes E self render_me context s2 src dst Hin) as Hpost.
    by rewrite Hrun in Hpost. }
  split; [exact (grows_trans _ _ _ Hg1 (grows_trans _ _ _ Hg2 (grows_trans _ _ _ Hg3 Hg4))) |].
  split; [done |]. split.
  - intros Hdjango. rewrite Hdjango in Hcopy, Hrender. split.
    + eapply Hrendered; [exact Hrender |]. apply elem_of_app. left. by left.
    + intros f Hf. eapply Hcopied; [exact Hcopy |]. apply elem_of_app. left.
      apply list_elem_of_In, in_map_iff. exists f. split; [reflexivity |].
      by apply list_elem_of_In.
  - intros Huwsgi. rewrite Huwsgi in Hcopy, Hrender. intros f Hf.
    rewrite !elem_of_cons, elem_of_nil in Hf.
    destruct Hf as [->|[->|[->|[->|[->|[]]]]]].
    + eapply Hcopied; [exact Hcopy |]. apply elem_of_app. right. by left.
    + eapply Hcopied; [exact Hcopy |]. apply elem_of_app. right. by right; left.
    + eapply Hcopied; [exact Hcopy |]. apply elem_of_app. right. by right; right; left.
    + eapply Hrendered; [exact Hrender |]. apply elem_of_app. right. by left.
    + eapply Hrendered; [exact Hrender |]. apply elem_of_app. right. by right; left.
Qed.

(** X15. What a deployment that returns has made. When [deploy_askbot]
    returns, the options named a directory and a log file, and the project
    directory, the log directory, the log file and the application directory
    [askbot_app] are there; with the Django files wanted so are [manage.py],
    the rendered [settings.py] and every application file of
    [APP_FILES_TO_CREATE]; with the uwsgi container wanted so are its five
    files. The last message is the one for a new project: the method never
    returns on the path that adds Askbot to an existing project. *)
Theorem deploy_askbot_complete E self (options : gmap string pyval) s :
  is_ok (result (deploy_askbot E self options) s) = true ->
  let final := exec (deploy_askbot E self options) s in
  exists dir logfile_name,
    options !! "dir_name" = Some (PStr dir)
    /\ options !! "logfile_name" = Some (PStr logfile_name)
    /\ path_exists (fs final) dir = true
    /\ path_exists (fs final) (join dir (LOG_DIR_NAME E)) = true
    /\ path_exists (fs final) (join (join dir (LOG_DIR_NAME E)) logfile_name) = true
    /\ path_exists (fs final) (join dir "askbot_app") = true
    /\ (str_in "django" (todo_create_project self) = true ->
        path_exists (fs final) (join dir "manage.py") = true
        /\ path_exists (fs final) (join (join dir "askbot_app") "settings.py") = true
        /\ forall f, f ∈ APP_FILES_TO_CREATE E ->
             path_exists (fs final) (join (join dir "askbot_app") f) = true)
    /\ (str_in "container-uwsgi" (todo_create_project self) = true ->
        forall f, f ∈ ["cron-askbot.sh"; "prestart.sh"; "prestart.py"; "crontab"; "uwsgi.ini"] ->
          path_exists (fs final) (join (join dir "askbot_app") f) = true)
    /\ last (stdout final) = Some (HOW_TO_DEPLOY_NEW E (path_to_help_file E)).
Proof.
  unfold result, exec. intros Hok.
  assert (exists dir, options !! "dir_name" = Some (PStr dir)) as [dir Hdir].
  { destruct (options !! "dir_name") as [[| | |dir]|] eqn:Hd; try by eauto.
    all: destruct (deploy_askbot_no_dir_raises E self options s) as [_ Hno];
      [intros dir; congruence | congruence]. }
  revert Hok. rewrite (deploy_askbot_eq E self options dir s Hdir).
  destruct (_ && _); [done |]. unfold deploy_files.
  match goal with |- context [_create_new_django_project E self _ ?o] =>
    set (options' := o) end.
  assert (forall t, (dir_name <- getitem_str options' "dir_name" ;;
                     _create_new_django_project E self dir_name options') t
                    = _create_new_django_project E self dir options' t) as Hstep.
  { intros t. erewrite bind_Ok; [reflexivity |].
    apply getitem_str_Some. by unfold options'; rewrite !lookup_insert_ne. }
  destruct (create_new_django_project_run E self dir options' s) as [_ Hproject].
  destruct (_create_new_django_project E self dir options' s) as [s1 [[]|e]] eqn:Hrun1.
  2: { erewrite bind_Raised; [done |]. cbv iota. rewrite Hstep. exact Hrun1. }
  erewrite bind_Ok by (cbv iota; rewrite Hstep; exact Hrun1).
  cbn [fst snd] in Hproject.
  destruct (Hproject eq_refl) as (logfile_name & Hlog & Hd1 & Hd2 & Hd3 & Hmanage).
  destruct (_create_new_django_app E self "askbot_app" options' s1)
    as [s2 [o'|e]] eqn:Hrun2.
  2: { by erewrite bind_Raised by exact Hrun2. }
  erewrite bind_Ok by exact Hrun2.
  destruct (create_new_django_app_run E self "askbot_app" options' dir s1 s2 o')
    as (Hgrows & Happ & Hdjango & Huwsgi);
    [by unfold options'; rewrite !lookup_insert_ne | done |].
  unfold print_message. erewrite bind_Ok by apply print_eq.
  intros _. cbn [fst ret fs stdout]. exists dir, logfile_name.
  split; [done |]. split; [by unfold options' in Hlog; rewrite !lookup_insert_ne in Hlog |].
  split; [by eapply grows_exists |]. split; [by eapply grows_exists |].
  split; [by eapply grows_exists |]. split; [done |].
  split; [|split; [done | apply last_snoc]].
  intros Hd. destruct (Hdjango Hd) as [Hsettings Hfiles].
  split; [eapply grows_exists; [done | by apply Hmanage] | by split].
Qed.

Lemma deploy_askbot_complete_witness :
  let final := exec (deploy_askbot Demo.env Demo.setup Demo.defaults)
                    (Demo.start Demo.templates []) in
  path_exists (fs final) "/srv/site/askbot_app/settings.py" = true
  /\ last (stdout final) = Some "new project, see /opt/askbot/doc/INSTALL".
Proof.
  intros final.
  destruct (deploy_askbot_complete Demo.env Demo.setup Demo.defaults
              (Demo.start Demo.templates []))
    as (dir & logfile_name & Hdir & _ & _ & _ & _ & _ & Hdjango & _ & Hlast).
  { by vm_compute. }
  assert (dir = "/srv/site") as -> by (vm_compute in Hdir; congruence).
  destruct (Hdjango ltac:(by vm_compute)) as (_ & Hsettings & _).
  assert (join (join "/srv/site" "askbot_app") "settings.py"
          = "/srv/site/askbot_app/settings.py") as Hpath by (by vm_compute).
  rewrite Hpath in Hsettings. split; [exact Hsettings | exact Hlast].
Defined.

(** ** A deployment that makes directories only *)





Lemma makes_only_getitem_str paths (d : gmap string pyval) key v :
  d !! key = Some (PStr v) -> makes_only paths (getitem_str d key).
Proof. intros H s. by rewrite (getitem_str_Some d key v s H). Qed.

Lemma makes_only_getitem paths (d : gmap string pyval) key v :
  d !! key = Some v -> makes_only paths (getitem d key).
Proof. intros H s. by rewrite (getitem_Some d key v s H). Qed.







(** ** Options that lack a key *)

Lemma getitem_str_None (d : gmap string pyval) key s :
  d !! key = None -> getitem_str d key s = (s, Raised (KeyError key)).
Proof. intros H. unfold getitem_str, getitem, bind. by rewrite H. Qed.

Lemma create_new_django_app_local_settings E self app_name (options : gmap string pyval)
    s s' o' :
  _create_new_django_app E self app_name options s = (s', Ok o') ->
  exists l, options !! "local_settings" = Some (PStr l).
Proof.
  unfold _create_new_django_app. intros H.
  apply bind_Ok_inv in H as (s0 & site & _ & H).
  apply bind_Ok_inv in H as (s0' & dir_name & _ & H).
  apply bind_Ok_inv in H as (s1 & [] & _ & H).
  apply bind_Ok_inv in H as (s2 & [] & _ & H).
  apply bind_Ok_inv in H as (s3 & [] & _ & H).
  apply bind_Ok_inv in H as (s4 & [] & Happend & _).
  unfold append_local_settings in Happend.
  apply bind_Ok_inv in Happend as (s5 & l & Hl & _).
  apply getitem_str_Ok_inv in Hl as [_ Hl]. exists l.
  by rewrite !lookup_insert_ne in Hl.
Qed.

(** X17. What [deploy_askbot] does with options that lack a key. Without
    [dir_name], and, for a directory without a prior project, without
    [logfile_name], it raises [KeyError] for the key at once: nothing is
    created and nothing is printed. Without [local_settings] it never
    returns; but [_create_new_django_app] looks that key up only after the
    directory is made and the files are copied and rendered, so its call
    fails with the application directory already in place. *)
Theorem deploy_askbot_missing_key E self (options : gmap string pyval) s :
  (options !! "dir_name" = None ->
   deploy_askbot E self options s = (s, Raised (KeyError "dir_name")))
  /\ (forall dir,
        options !! "dir_name" = Some (PStr dir) ->
        path_exists (fs s) dir && has_existing_django_project E (fs s) dir = false ->
        options !! "logfile_name" = None ->
        deploy_askbot E self options s = (s, Raised (KeyError "logfile_name")))
  /\ (forall dir,
        options !! "dir_name" = Some (PStr dir) ->
        options !! "local_settings" = None ->
        is_ok (result (deploy_askbot E self options) s) = false
        /\ forall app_name,
             let run := _create_new_django_app E self app_name options s in
             is_ok (snd run) = false
             /\ path_exists (fs (fst run)) (join dir app_name) = true).
Proof.
  split; [|split].
  - intros Hdir. unfold deploy_askbot. by erewrite bind_Raised by by apply getitem_str_None.
  - intros dir Hdir Hprior Hlog.
    rewrite (deploy_askbot_eq E self options dir s Hdir), Hprior.
    unfold deploy_files.
    erewrite bind_Raised; [reflexivity |]. cbv iota.
    erewrite bind_Ok by (apply getitem_str_Some; by rewrite !lookup_insert_ne).
    unfold _create_new_django_project.
    erewrite bind_Raised; [reflexivity |].
    apply getitem_str_None. by rewrite !lookup_insert_ne.
  - intros dir Hdir Hlocal. split.
    + unfold result. rewrite (deploy_askbot_eq E self options dir s Hdir).
      destruct (_ && _); [done |].
      destruct (deploy_files E self true options s) as [s' [o'|e]] eqn:Hrun; [|done].
      exfalso. unfold deploy_files in Hrun.
      apply bind_Ok_inv in Hrun as (s1 & [] & _ & Hrun).
      apply bind_Ok_inv in Hrun as (s2 & o2 & Happ & _).
      apply create_new_django_app_local_settings in Happ as [l Hl].
      rewrite !lookup_insert_ne in Hl by done. congruence.
    + intros app_name run. split; [|by apply create_new_django_app_makes_dir].
      unfold run.
      destruct (_create_new_django_app E self app_name options s) as [s' [o'|e]] eqn:Hrun;
        [|done].
      apply create_new_django_app_local_settings in Hrun as [l Hl]. congruence.
Qed.

Lemma deploy_askbot_missing_key_witness :
  let options := delete "local_settings" Demo.defaults in
  let run := _create_new_django_app Demo.env Demo.setup "askbot_app" options
               (Demo.start Demo.templates []) in
  is_ok (snd run) = false
  /\ path_exists (fs (fst run)) "/srv/site/askbot_app" = true.
Proof.
  intros options run.
  destruct (deploy_askbot_missing_key Demo.env Demo.setup options
              (Demo.start Demo.templates [])) as (_ & _ & Hlocal).
  destruct (Hlocal "/srv/site" ltac:(by vm_compute) ltac:(by vm_compute)) as [_ Happ].
  destruct (Happ "askbot_app") as [Hfails Hmade]. split; [exact Hfails |].
  assert (join "/srv/site" "askbot_app" = "/srv/site/askbot_app") as Hpath
    by (by vm_compute).
  rewrite Hpath in Hmade. exact Hmade.
Defined.

(** ** The forced overwrite and the last component of the destination *)

(** X10. Which destinations [_install_copy] overwrites by force. For forced
    names without a separator, the test of line 330 holds exactly when the
    destination has a directory part and its last component is one of the
    names. A destination given as a bare file name is never forced, though
    the test for the silent skip (line 334) does apply to it. *)
Theorem forced_dst_last_component forced dst :
  Forall sep_free forced ->
  forced_dst forced dst = true <->
  exists c, c ∈ forced /\ after_last_sep dst = Some c.
Proof.
  intros Hfree. rewrite forced_dst_spec. split.
  - intros (c & Hc & Hend). exists c. split; [done |].
    apply endswith_sep_name; [|done].
    apply (proj1 (List.Forall_forall _ _) Hfree). by apply list_elem_of_In.
  - intros (c & Hc & Hlast). exists c. split; [done |].
    apply endswith_sep_name; [|done].
    apply (proj1 (List.Forall_forall _ _) Hfree). by apply list_elem_of_In.
Qed.

Lemma forced_dst_last_component_witness :
  forced_dst ["urls.py"] "/srv/site/askbot_app/urls.py" = true
  /\ forced_dst ["urls.py"] "urls.py" = false
  /\ str_in (last_component "urls.py") ["urls.py"] = true.
Proof.
  split; [|split; [|by vm_compute]].
  - apply (forced_dst_last_component ["urls.py"]); [repeat constructor |].
    exists "urls.py". split; [by left | by vm_compute].
  - destruct (forced_dst ["urls.py"] "urls.py") eqn:H; [|done].
    apply (forced_dst_last_component ["urls.py"]) in H as (c & _ & H);
      [|repeat constructor].
    by vm_compute in H.
Defined.

(** ** The rendered [settings.py] *)

Lemma leaves_alone_ret {A} p (a : A) : leaves_alone p (ret a).
Proof. by intros s. Qed.

Lemma leaves_alone_bind {A B} p (c : M A) (k : A -> M B) :
  leaves_alone p c -> (forall a, leaves_alone p (k a)) -> leaves_alone p (bind c k).
Proof.
  intros Hc Hk s. unfold bind. specialize (Hc s).
  destruct (c s) as [s1 [a|e]]; [|done]. cbn [fst] in Hc. by rewrite Hk.
Qed.

Lemma leaves_alone_for_each {A} p (l : list A) (body : A -> M unit) :
  (forall x, x ∈ l -> leaves_alone p (body x)) -> leaves_alone p (for_each l body).
Proof.
  induction l as [|x l IH]; intros Hbody; [apply leaves_alone_ret |].
  apply leaves_alone_bind; [apply Hbody; by left | intros _].
  apply IH. intros y Hy. apply Hbody. by right.
Qed.

Lemma leaves_alone_print p msg : leaves_alone p (print msg).
Proof. by intros s. Qed.

Lemma leaves_alone_getitem p (d : gmap string pyval) key : leaves_alone p (getitem d key).
Proof.
  intros s. destruct (getitem d key s) as [s1 r] eqn:H. by apply getitem_frame in H as ->.
Qed.

Lemma leaves_alone_getitem_str p (d : gmap string pyval) key :
  leaves_alone p (getitem_str d key).
Proof.
  intros s. destruct (getitem_str d key s) as [s1 r] eqn:H.
  by apply getitem_str_frame in H as ->.
Qed.

Lemma leaves_alone_create_path p d : p <> d -> leaves_alone p (create_path d).
Proof.
  intros Hne s. unfold create_path. destruct (fs s !! d); [done |].
  cbn [fst fs set_fs]. by rewrite lookup_insert_ne.
Qed.

Lemma leaves_alone_touch p file_name : p <> file_name -> leaves_alone p (touch file_name).
Proof.
  intros Hne s. unfold touch. destruct (fs s !! file_name); [done |].
  cbn [fst fs set_fs]. by rewrite lookup_insert_ne.
Qed.

Lemma leaves_alone_shutil_copy p src dst :
  p <> dst -> p <> join dst (last_component src) -> leaves_alone p (shutil_copy src dst).
Proof.
  intros H1 H2 s.
  destruct (shutil_copy_cases src dst s) as [(c & _ & _ & _ & ->)|(e & -> & _)]; [|done].
  cbn [fst fs set_fs]. rewrite lookup_insert_ne; [done |].
  unfold copy_target. destruct (path_isdir (fs s) dst); congruence.
Qed.

Lemma leaves_alone_install_copy p self copy_list forced skip :
  (forall src dst, (src, dst) ∈ copy_list ->
     p <> dst /\ p <> join dst (last_component src)) ->
  leaves_alone p (_install_copy self copy_list forced skip).
Proof.
  intros Hlist. unfold _install_copy, print_message.
  apply leaves_alone_bind; [apply leaves_alone_print | intros _].
  apply leaves_alone_bind; [| intros _; apply leaves_alone_print].
  apply leaves_alone_for_each. intros [src dst] Hin. destruct (Hlist src dst Hin) as [H1 H2].
  unfold _install_copy_body, print_message.
  apply leaves_alone_bind; [apply leaves_alone_print | intros _].
  apply leaves_alone_bind; [by intros s | intros present].
  destruct (negb present); [by apply leaves_alone_shutil_copy |].
  destruct (forced_dst forced dst).
  { apply leaves_alone_bind; [apply leaves_alone_print | intros _].
    by apply leaves_alone_shutil_copy. }
  destruct (negb _); [apply leaves_alone_print | apply leaves_alone_ret].
Qed.

Lemma length_append (a b : string) :
  String.length (a +:+ b) = (String.length a + String.length b)%nat.
Proof.
  induction a as [|c a IH]; [by rewrite append_nil_l |].
  rewrite append_cons. cbn [String.length]. by rewrite IH.
Qed.

Lemma join_length a b :
  startswith b (String sep EmptyString) = false ->
  (String.length a + String.length b <= String.length (join a b))%nat.
Proof.
  intros Hb. unfold join. rewrite Hb.
  destruct (decide (a = EmptyString)); [by rewrite length_append |].
  destruct (endswith a (String sep EmptyString)); rewrite !length_append; [done |].
  cbn [String.length]. lia.
Qed.

Lemma last_component_ne a b f g :
  sep_free f -> sep_free g -> f <> g -> join a f <> join b g.
Proof.
  intros Hf Hg Hne Heq. apply (f_equal last_component) in Heq.
  by rewrite !last_component_join in Heq.
Qed.

(** The paths the application copies write have the name of the file as
    their last component. *)
Lemma app_copies_leave_settings E dir app_name (django uwsgi : bool) src dst :
  Forall sep_free (FILES_TO_CREATE E) ->
  "settings.py" ∉ FILES_TO_CREATE E ->
  (src, dst) ∈
    ((if django
     then map (fun file_name => (source_file E "setup_templates" file_name,
                                 join (join dir app_name) file_name))
              (APP_FILES_TO_CREATE E)
     else []) ++
    (if uwsgi
     then map (fun file_name => (source_file E "container" file_name,
                                 join (join dir app_name) file_name))
              ["cron-askbot.sh"; "prestart.sh"; "prestart.py"]
     else []))%list ->
  join (join dir app_name) "settings.py" <> dst
  /\ join (join dir app_name) "settings.py" <> join dst (last_component src).
Proof.
  intros Hnames Hnot Hin.
  assert (exists sub f, src = source_file E sub f
                        /\ dst = join (join dir app_name) f
                        /\ sep_free f /\ f <> "settings.py") as (sub & f & -> & -> & Hf & Hne).
  { apply elem_of_app in Hin as [Hin | Hin].
    - destruct django; [|by apply elem_of_nil in Hin].
      apply elem_of_map in Hin as (f & [= -> ->] & Hf).
      exists "setup_templates", f. split; [done |]. split; [done |].
      split; [by apply (APP_FILES_TO_CREATE_sep_free E f Hnames) |].
      intros ->. apply Hnot. unfold APP_FILES_TO_CREATE in Hf.
      apply list_elem_of_difference in Hf as [Hf _].
      by apply (proj1 (elem_of_remove_dups _ _)) in Hf.
    - destruct uwsgi; [|by apply elem_of_nil in Hin].
      apply elem_of_map in Hin as (f & [= -> ->] & Hf).
      exists "container", f. split; [done |]. split; [done |].
      repeat (apply elem_of_cons in Hf as [-> | Hf]; [by split |]).
      by apply elem_of_nil in Hf. }
  unfold source_file. rewrite (last_component_join _ f Hf).
  split; apply last_component_ne; done.
Qed.

Lemma settings_not_dir dir app_name :
  sep_free app_name ->
  join (join dir app_name) "settings.py" <> dir.
Proof.
  intros Hfree Heq. apply (f_equal String.length) in Heq.
  pose proof (join_length (join dir app_name) "settings.py" eq_refl) as H1.
  pose proof (join_length dir app_name (startswith_sep_not_free _ Hfree)) as H2.
  cbn [String.length] in H1. lia.
Qed.

Lemma deploy_askbot_settings_run E self (options : gmap string pyval) dir s s' o' :
  Forall sep_free (FILES_TO_CREATE E) ->
  "settings.py" ∉ FILES_TO_CREATE E ->
  str_in "django" (todo_create_project self) = true ->
  options !! "dir_name" = Some (PStr dir) ->
  let settings := join (join dir "askbot_app") "settings.py" in
  let context :=
    <["askbot_app" := PStr "askbot_app"]>
      (<["askbot_site" := PStr dir]>
         (<["auth_context_processor" := PStr "django.contrib.auth.context_processors.auth"]>
            (<["staticfiles_app" := PStr "'django.contrib.staticfiles',"]> options))) in
  fs s !! settings = None ->
  (forall logfile_name, options !! "logfile_name" = Some (PStr logfile_name) ->
     settings <> join dir (LOG_DIR_NAME E)
     /\ settings <> join (join dir (LOG_DIR_NAME E)) logfile_name) ->
  no_local (options !! "local_settings") (fs s') ->
  deploy_askbot E self options s = (s', Ok o') ->
  o' = context
  /\ fs s' !! settings
     = Some (File (template_render E
                     (source_file E "setup_templates" "settings.py.jinja2") context)).
Proof.
  intros Hnames Hnot Hdjango Hdir settings context Habsent Hlog Hlocal Hrun.
  rewrite (deploy_askbot_eq E self options dir s Hdir) in Hrun.
  destruct (_ && _); [done |]. unfold deploy_files in Hrun.
  apply bind_Ok_inv in Hrun as (s1 & [] & Hproject & Hrun).
  apply bind_Ok_inv in Hrun as (s5 & o5 & Happ & Hrun).
  apply bind_Ok_inv in Hrun as (s6 & [] & Hprint & Hrun).
  apply ret_inv in Hrun as [-> ->].
  assert (fs s6 = fs s5) as Hfs6.
  { unfold print_message in Hprint. rewrite print_eq in Hprint. by injection Hprint as <-. }
  rewrite Hfs6 in Hlocal |- *. clear Hprint Hfs6.
  (* the project *)
  assert (fs s1 !! settings = None) as Habsent1.
  { rewrite <- Habsent. cbv iota in Hproject.
    apply bind_Ok_inv in Hproject as (s0 & d & Hd & Hproject).
    apply getitem_str_Ok_inv in Hd as [-> Hd].
    rewrite !lookup_insert_ne, Hdir in Hd by done. injection Hd as <-.
    unfold _create_new_django_project in Hproject.
    apply bind_Ok_inv in Hproject as (s0 & logfile_name & Hl & Hproject).
    apply getitem_str_Ok_inv in Hl as [-> Hl]. rewrite !lookup_insert_ne in Hl by done.
    destruct (Hlog logfile_name Hl) as [Hlog1 Hlog2].
    match type of Hproject with ?c s = _ =>
      assert (leaves_alone settings c) as Halone end.
    { apply leaves_alone_bind.
      { apply leaves_alone_for_each. intros d Hin.
        apply leaves_alone_create_path.
        rewrite !elem_of_cons, elem_of_nil in Hin. destruct Hin as [->|[->|[]]]; [|done].
        by apply settings_not_dir. }
      intros _. apply leaves_alone_bind; [by apply leaves_alone_touch | intros _].
      apply leaves_alone_install_copy. intros src dst Hin. rewrite Hdjango in Hin.
      apply elem_of_map in Hin as (f & [= -> ->] & Hf).
      apply elem_of_cons in Hf as [->|Hf]; [|by apply elem_of_nil in Hf].
      unfold source_file. rewrite (last_component_join _ "manage.py" eq_refl).
      split; by apply last_component_ne. }
    specialize (Halone s). by rewrite Hproject in Halone. }
  (* the application *)
  unfold _create_new_django_app in Happ.
  apply bind_Ok_inv in Happ as (s0 & site & Hsite & Happ).
  apply getitem_Ok_inv in Hsite as [-> Hsite].
  rewrite !lookup_insert_ne, Hdir in Hsite by done. injection Hsite as <-.
  apply bind_Ok_inv in Happ as (s0 & d & Hd & Happ).
  apply getitem_str_Ok_inv in Hd as [-> Hd].
  rewrite !lookup_insert_ne, Hdir in Hd by done. injection Hd as <-.
  fold context in Happ. rewrite Hdjango in Happ.
  apply bind_Ok_inv in Happ as (s2 & [] & Hdirs & Happ).
  apply bind_Ok_inv in Happ as (s3 & [] & Hcopy & Happ).
  apply bind_Ok_inv in Happ as (s4 & [] & Hrender & Happ).
  apply bind_Ok_inv in Happ as (s4' & [] & Happend & Happ).
  apply ret_inv in Happ as [-> ->]. split; [done |].
  assert (fs s2 !! settings = None) as Habsent2.
  { rewrite <- Habsent1.
    pose proof (leaves_alone_for_each settings [join dir "askbot_app"] create_path) as Halone.
    specialize (Halone ltac:(intros d Hin; apply leaves_alone_create_path;
                             apply elem_of_cons in Hin as [->|Hin];
                             [apply (last_component_ne _ _ "settings.py" "askbot_app");
                              done | by apply elem_of_nil in Hin]) s1).
    by rewrite Hdirs in Halone. }
  assert (fs s3 !! settings = None) as Habsent3.
  { rewrite <- Habsent2.
    match type of Hcopy with _install_copy _ ?l ?f ?k _ = _ =>
      pose proof (leaves_alone_install_copy settings self l f k) as Halone end.
    specialize (Halone ltac:(intros src dst Hin;
      exact (app_copies_leave_settings E dir "askbot_app" true _ src dst Hnames Hnot Hin)) s2).
    by rewrite Hcopy in Halone. }
  (* the render *)
  assert (fs s4 !! settings
          = Some (File (template_render E
                          (source_file E "setup_templates" "settings.py.jinja2") context)))
    as Hsettings.
  { match type of Hrender with _install_render_with_jinja2 _ _ ?l _ _ = _ =>
      destruct (install_render_run E self context l s3) as (_ & _ & Hnew);
      destruct (Hnew (source_file E "setup_templates" "settings.py.jinja2") settings)
        as (src' & Hin & Hfile); [apply elem_of_app; left; by left | done |]
    end.
    rewrite Hrender in Hfile. cbn [fst] in Hfile. rewrite Hfile.
    apply elem_of_app in Hin as [Hin|Hin].
    - apply elem_of_cons in Hin as [[= ->]|Hin]; [done | by apply elem_of_nil in Hin].
    - exfalso. destruct (str_in "container-uwsgi" (todo_create_project self));
        [|by apply elem_of_nil in Hin].
      apply elem_of_map in Hin as (f & [= _ Heq] & Hf). revert Heq.
      apply last_component_ne; [done | |].
      + repeat (apply elem_of_cons in Hf as [-> | Hf]; [done |]). by apply elem_of_nil in Hf.
      + repeat (apply elem_of_cons in Hf as [-> | Hf]; [done |]). by apply elem_of_nil in Hf. }
  (* no append *)
  pose proof (append_local_settings_grows self (join dir "askbot_app") context s4) as Hgrows.
  rewrite Happend in Hgrows. cbn [fst] in Hgrows.
  destruct (getitem_str context "local_settings" s4) as [t [l|e]] eqn:Hl.
  2: { unfold append_local_settings in Happend.
       by erewrite bind_Raised in Happend by exact Hl. }
  apply getitem_str_Ok_inv in Hl as [_ Hl].
  rewrite (append_local_settings_skip self _ context l s4 Hl) in Happend.
  - by injection Happend as <-.
  - intros Hne. eapply grows_absent; [exact Hgrows |].
    apply Hlocal; [|done]. unfold context in Hl. by rewrite !lookup_insert_ne in Hl.
Qed.

(** X19. The [settings.py] a deployment leaves. When [deploy_askbot]
    returns with the Django files wanted, for a directory that had no
    [askbot_app/settings.py] and with no local settings file to append,
    [settings.py] holds the text the template [settings.py.jinja2] renders
    for the options it was called with, extended by four entries:
    [staticfiles_app], [auth_context_processor], [askbot_site] (the
    directory) and [askbot_app] (the fixed name). That mapping is also what
    the method leaves in its argument. The names of [FILES_TO_CREATE] are
    plain file names, none of them [settings.py], and the log directory and
    the log file are not the settings file. *)
Theorem deploy_askbot_renders_settings E self (options : gmap string pyval) dir s s' o' :
  Forall sep_free (FILES_TO_CREATE E) ->
  "settings.py" ∉ FILES_TO_CREATE E ->
  str_in "django" (todo_create_project self) = true ->
  options !! "dir_name" = Some (PStr dir) ->
  let settings := join (join dir "askbot_app") "settings.py" in
  let context :=
    <["askbot_app" := PStr "askbot_app"]>
      (<["askbot_site" := PStr dir]>
         (<["auth_context_processor" := PStr "django.contrib.auth.context_processors.auth"]>
            (<["staticfiles_app" := PStr "'django.contrib.staticfiles',"]> options))) in
  fs s !! settings = None ->
  (forall logfile_name, options !! "logfile_name" = Some (PStr logfile_name) ->
     settings <> join dir (LOG_DIR_NAME E)
     /\ settings <> join (join dir (LOG_DIR_NAME E)) logfile_name) ->
  no_local (options !! "local_settings") (fs s') ->
  deploy_askbot E self options s = (s', Ok o') ->
  o' = context
  /\ fs s' !! settings
     = Some (File (template_render E
                     (source_file E "setup_templates" "settings.py.jinja2") context)).
Proof. apply deploy_askbot_settings_run. Qed.

Lemma deploy_askbot_renders_settings_witness :
  let options := <["secret_key" := PStr "key0"]> Demo.defaults in
  let s := Demo.start Demo.templates [] in
  fs (exec (deploy_askbot Demo.env Demo.setup options) s)
    !! "/srv/site/askbot_app/settings.py"
  = Some (File "# from /opt/askbot/setup_templates/settings.py.jinja2 for askbot_app").
Proof.
  intros options s. unfold exec.
  destruct (deploy_askbot Demo.env Demo.setup options s) as [s' [o'|e]] eqn:Hrun.
  2: { apply (f_equal (fun r => is_ok (snd r))) in Hrun. vm_compute in Hrun.
       discriminate Hrun. }
  cbn [fst].
  destruct (deploy_askbot_renders_settings Demo.env Demo.setup options "/srv/site" s s' o')
    as [_ Hsettings].
  - repeat constructor.
  - apply (bool_decide_unpack _). by vm_compute.
  - by vm_compute.
  - by vm_compute.
  - by vm_compute.
  - intros logfile_name Hl. vm_compute in Hl. injection Hl as <-. split; discriminate.
  - intros l Hl Hne. vm_compute in Hl. injection Hl as <-. by destruct Hne.
  - exact Hrun.
  - assert (join (join "/srv/site" "askbot_app") "settings.py"
            = "/srv/site/askbot_app/settings.py") as Hpath by (by vm_compute).
    rewrite Hpath in Hsettings. rewrite Hsettings. by vm_compute.
Defined.

Lemma resolve_options_secret E (o : gmap string pyval) directory s s' od od2 eng nk :
  o !! "force" = Some (PBool false) ->
  o !! "no_secret_key" = Some nk ->
  resolve_options E o directory s = (s', Ok (od, od2, eng)) ->
  od !! "secret_key" =
    Some (PStr (if py_truthy nk then EmptyString else generate_random_key E (rng s))).
Proof.
  intros Hforce Hnk H. unfold resolve_options in H.
  apply bind_Ok_inv in H as (s1 & o1 & Hsel & H).
  apply select_database_engine_other in Hsel as [Hrng Hsame].
  apply bind_Ok_inv in H as (s2 & f & Hf & H).
  apply namespace_getattr_Ok_inv in Hf as [-> Hf].
  rewrite Hsame, lookup_insert_ne, Hforce in Hf by done. injection Hf as <-.
  apply bind_Ok_inv in H as (s2 & o2 & Hcollect & H).
  apply bind_Ok_inv in H as (s3 & code & _ & H).
  apply bind_Ok_inv in H as (s4 & name & _ & H).
  apply ret_inv in H as [-> [= -> -> ->]].
  rewrite lookup_insert_ne by done. rewrite <- Hrng.
  change (is_False (PBool false)) with true in Hcollect. cbv iota in Hcollect.
  eapply collect_missing_options_secret_key; [|done].
  by rewrite Hsame, lookup_insert_ne.
Qed.

(** X20. From the command line to [settings.py]. When [__call__] returns
    for a directory that had no [askbot_app/settings.py], with the Django
    files wanted and no local settings file to append, the [settings.py] it
    leaves is the template rendered for a context that holds the directory
    (as [dir_name] and [askbot_site]), the fixed [askbot_app], the name of
    the chosen database engine and, when [--force] was not given, the secret
    key: the key just generated, or the empty string with [--no-secret-key]. *)
Theorem call_renders_settings E self (o : gmap string pyval) directory s :
  Forall sep_free (FILES_TO_CREATE E) ->
  "settings.py" ∉ FILES_TO_CREATE E ->
  let run := __call__ E self o directory s in
  let settings := join (join directory "askbot_app") "settings.py" in
  is_ok (snd run) = true ->
  (forall text, o !! "create_project" = Some (PStr text) ->
     str_in (str_lower text) ["no"; "none"; "false"; "0"] = false) ->
  fs s !! settings = None ->
  (forall logfile_name, o !! "logfile_name" = Some (PStr logfile_name) ->
     settings <> join directory (LOG_DIR_NAME E)
     /\ settings <> join (join directory (LOG_DIR_NAME E)) logfile_name) ->
  no_local (o !! "local_settings") (fs (fst run)) ->
  exists context eng,
    fs (fst run) !! settings
    = Some (File (template_render E
                    (source_file E "setup_templates" "settings.py.jinja2") context))
    /\ context !! "dir_name" = Some (PStr directory)
    /\ context !! "askbot_site" = Some (PStr directory)
    /\ context !! "askbot_app" = Some (PStr "askbot_app")
    /\ context !! "database_engine" = Some (PStr eng)
    /\ eng ∈ database_engine_codes.*2
    /\ (forall nk, o !! "force" = Some (PBool false) ->
          o !! "no_secret_key" = Some nk ->
          context !! "secret_key" =
            Some (PStr (if py_truthy nk then EmptyString
                        else generate_random_key E (rng s)))).
Proof.
  intros Hnames Hnot run settings. unfold run, __call__, except_KeyboardInterrupt.
  match goal with |- context [match ?body s with _ => _ end] =>
    destruct (body s) as [s' [[]|e]] eqn:Hbody end.
  2: { by destruct e. }
  intros _ Hwish Habsent Hlog Hlocal. cbn [fst] in *.
  apply bind_Ok_inv in Hbody as (s1 & self1 & Hv & Hbody).
  pose proof (_set_verbosity_frame self o s) as Hf1. rewrite Hv in Hf1. cbn in Hf1. subst s1.
  apply bind_Ok_inv in Hbody as (s2 & self2 & Hc & Hbody).
  pose proof (_set_create_project_frame self1 o s) as Hf2. rewrite Hc in Hf2.
  cbn in Hf2. subst s2.
  assert (str_in "django" (todo_create_project self2) = true) as Hdjango.
  { destruct (o !! "create_project") as [[| | |text]|] eqn:Hget;
      try (unfold _set_create_project, namespace_getattr, bind in Hc;
           rewrite Hget in Hc; discriminate Hc).
    destruct (set_create_project_django self1 o text s Hget) as (self' & Hrun & Hplan).
    rewrite Hc in Hrun. injection Hrun as <-. rewrite Hplan. by rewrite (Hwish text). }
  apply bind_Ok_inv in Hbody as (s3 & [] & Hprint & Hbody).
  unfold print_message in Hprint. rewrite print_eq in Hprint. injection Hprint as <-.
  apply bind_Ok_inv in Hbody as (s4 & [[od od2] eng] & Hres & Hbody).
  pose proof (console_only_resolve_options E o directory) as Hconsole.
  match type of Hres with resolve_options _ _ _ ?t = _ =>
    destruct (Hconsole t) as (Hfs & _) end.
  rewrite Hres in Hfs. cbn [fst fs] in Hfs.
  assert (forall k, bool_decide (k ∉ ["dir_name"; "database_engine"; "secret_key"]) = true ->
            bool_decide (k ∉ db_keys.*1) = true -> od !! k = o !! k) as Hother.
  { intros k H1 H2. apply bool_decide_eq_true in H1, H2.
    by eapply resolve_options_other. }
  assert (forall nk, o !! "force" = Some (PBool false) -> o !! "no_secret_key" = Some nk ->
            od !! "secret_key" =
              Some (PStr (if py_truthy nk then EmptyString
                          else generate_random_key E (rng s)))) as Hsecret.
  { intros nk Hforce Hnk. by apply (resolve_options_secret _ _ _ _ _ _ _ _ nk Hforce Hnk Hres). }
  apply resolve_options_Ok_inv in Hres as (code & Hcode & _ & Heng & Hdir).
  apply bind_Ok_inv in Hbody as (s5 & v & Hget & Hbody).
  apply getitem_Ok_inv in Hget as [-> Hget].
  apply bind_Ok_inv in Hbody as (s6 & [] & Hdump & Hbody).
  assert (s6 = s4) as ->.
  { destruct (py_truthy v).
    - destruct (dry_run_dump E od od2 s4) as (t & e & Hraise & _). congruence.
    - by apply ret_inv in Hdump as [-> _]. }
  apply bind_Ok_inv in Hbody as (s7 & o7 & Hdeploy & Hhints).
  assert (fs s' = fs s7) as Hfs'.
  { revert Hhints. clear.
    repeat (match goal with |- context [if ?b then _ else _] => destruct b end);
      unfold bind, print, ret; intros [= <-]; done. }
  rewrite Hfs' in Hlocal |- *.
  destruct (deploy_askbot_settings_run E self2 od directory s4 s7 o7) as [-> Hsettings];
    try done.
  - by rewrite Hfs.
  - intros logfile_name Hl. apply Hlog. by rewrite Hother in Hl.
  - by rewrite Hother.
  - eexists _, eng. split; [exact Hsettings |].
    split; [by rewrite !lookup_insert_ne |].
    split; [by rewrite lookup_insert_ne, lookup_insert_eq |].
    split; [by rewrite lookup_insert_eq |].
    split; [by rewrite !lookup_insert_ne |]. split.
    + apply list_elem_of_fmap. by exists (code, eng).
    + intros nk Hforce Hnk. rewrite !lookup_insert_ne by done. by apply Hsecret.
Qed.

Lemma call_renders_settings_witness :
  let s := Demo.start Demo.templates ["2"; "askbot.db"] in
  let run := __call__ Demo.env Demo.setup Demo.defaults "/srv/site" s in
  exists context,
    fs (fst run) !! "/srv/site/askbot_app/settings.py"
    = Some (File (template_render Demo.env
                    "/opt/askbot/setup_templates/settings.py.jinja2" context))
    /\ context !! "secret_key" = Some (PStr "key0")
    /\ context !! "askbot_site" = Some (PStr "/srv/site").
Proof.
  intros s run.
  destruct (call_renders_settings Demo.env Demo.setup Demo.defaults "/srv/site" s)
    as (context & eng & Hsettings & _ & Hsite & _ & _ & _ & Hsecret).
  - repeat constructor.
  - apply (bool_decide_unpack _). by vm_compute.
  - by vm_compute.
  - intros text Ht. vm_compute in Ht. injection Ht as <-. by vm_compute.
  - by vm_compute.
  - intros logfile_name Hl. vm_compute in Hl. injection Hl as <-. split; discriminate.
  - intros l Hl Hne. vm_compute in Hl. injection Hl as <-. by destruct Hne.
  - exists context.
    assert (join (join "/srv/site" "askbot_app") "settings.py"
            = "/srv/site/askbot_app/settings.py") as Hpath by (by vm_compute).
    assert (source_file Demo.env "setup_templates" "settings.py.jinja2"
            = "/opt/askbot/setup_templates/settings.py.jinja2") as Hsrc by (by vm_compute).
    rewrite Hpath, Hsrc in Hsettings. split; [exact Hsettings |].
    split; [|exact Hsite].
    rewrite (Hsecret (PBool false)); [done | by vm_compute | by vm_compute].
Defined.
